(** * Flight tracking backend: a model of [backend/app.py]

    The development follows the Flask application of the repository:
    the geographic helpers ([calculate_distance],
    [calculate_route_progress], [get_route_waypoints]), the ingestion
    handler ([update_flight]), the two archival handlers
    ([complete_flight], [auto_complete_landed_flights]) and the handlers
    that read one flight or list the active ones
    ([get_latest_flight_data], [get_flight_location_at_time],
    [get_flight_history], [get_all_active_flights], [get_flight_route],
    [get_flights_by_route], [get_flight_path_with_destination]) over the
    three collections of [backend/database.py] ([flights], [tracking],
    [logs]).

    Python floats are IEEE binary64 numbers; they are modelled by Rocq's
    primitive floats, which are the same format with the same rounding.
    The functions of the C mathematics library and the two parsers of the
    Python runtime that the handlers call are the fields of the class
    [Runtime]; every general statement holds for all of its instances.

    A request body is a JSON object whose fields are scalars, a collection
    is the list of its documents in insertion order, and an exception that
    no [except] clause catches is the answer [Unhandled]. The identifiers
    that the store gives to documents ([_id]) play no part in the handlers
    and are left out; a request reads the server clock once.

    The body of a read handler is the object that it hands to [jsonify]:
    a field holds a stored value or, where the handler has called
    [isoformat()] on a datetime, the text of that instant ([IsoText]).
    The two handlers whose bodies carry the identifiers of the store
    ([get_flight_statistics], [get_all_completed_flights]) are not
    modelled. *)

From Stdlib Require Import Floats ZArith Lia Bool Ascii String Sorted.
From stdpp Require Import gmap strings list.

Set Warnings "-inexact-float".
Local Open Scope Z_scope.

(** ** Python numbers *)

Module PyNum.

(** The binary64 number nearest to the quotient [a / b] of two integers
    ([b] not zero), ties to even; an infinity when the quotient exceeds
    the range of the format. *)
Definition div_nearest (a b : Z) : float :=
  let neg := xorb (a <? 0) (b <? 0) in
  let n := Z.abs a in
  let d := Z.abs b in
  if n =? 0 then (if b <? 0 then neg_zero else PrimFloat.zero)
  else
    let sh := Z.max 0 (Z.log2 d + 56 - Z.log2 n) in
    let q := (n * 2 ^ sh) / d in
    let sticky := if (n * 2 ^ sh) mod d =? 0 then 0 else 1 in
    let m := 2 * q + sticky in
    SF2Prim (binary_normalize prec emax (if neg then - m else m) (- sh - 1) false).

(** [a / b] on Python integers: [None] for [ZeroDivisionError] and for
    a quotient too large for a float ([OverflowError]). *)
Definition int_true_divide (a b : Z) : option float :=
  if b =? 0 then None
  else
    let r := div_nearest a b in
    if is_infinity r then None else Some r.

(** The integer nearest to [n / d] ([d] positive), ties to even. *)
Definition round_half_even (n d : Z) : Z :=
  let q := n / d in
  let r := n mod d in
  match 2 * r ?= d with
  | Lt => q
  | Gt => q + 1
  | Eq => if Z.even q then q else q + 1
  end.

(** The number of hundredths [round(x, 2)] keeps for a finite non-zero
    [x] of mantissa [m] and exponent [e]: the exact value [m * 2^e * 100]
    rounded to an integer, ties to even. *)
Definition hundredths (m : positive) (e : Z) : Z :=
  let n := Zpos m * 100 in
  if 0 <=? e then n * 2 ^ e else round_half_even n (2 ^ (- e)).

(** [round(x, 2)] on a float: the exact value of [x] rounded to two
    decimals, ties to even, then the binary64 number nearest to that
    decimal. Zeros, infinities and NaN are returned as they are. *)
Definition py_round2 (x : float) : float :=
  match Prim2SF x with
  | S754_finite s m e =>
      let k := hundredths m e in
      if k =? 0 then (if s then neg_zero else PrimFloat.zero)
      else div_nearest (if s then - k else k) 100
  | _ => x
  end.

(** [min(a, b)] and [max(a, b)] keep their first argument unless the
    second compares strictly below (above) it, so a NaN second argument
    is dropped. *)
Definition py_min (a b : float) : float := if (b <? a)%float then b else a.
Definition py_max (a b : float) : float := if (a <? b)%float then b else a.

End PyNum.
Export PyNum.

(** ** The runtime underneath the application *)

(** [c_sin], [c_cos] and [c_atan2] are the functions of the C library that
    [math.sin], [math.cos] and [math.atan2] wrap; [float_of_string] is
    [float(s)] on a string ([None] for [ValueError]); [fromisoformat] is
    [datetime.fromisoformat], giving the instant as the store keeps it
    (milliseconds since the epoch, UTC), [None] for [ValueError]. *)
Class Runtime := {
  c_sin : float -> float;
  c_cos : float -> float;
  c_atan2 : float -> float -> float;
  float_of_string : string -> option float;
  fromisoformat : string -> option Z
}.

Module PyMath.
Local Open Scope float_scope.

(** CPython's wrapper of a one-argument C function: a NaN result of a
    non-NaN argument, or an infinite result of a finite argument, raises
    ([None]). *)
Definition math_1 (f : float -> float) (x : float) : option float :=
  let r := f x in
  if is_nan r && negb (is_nan x) then None
  else if is_infinity r && is_finite x then None
  else Some r.

Definition math_2 (f : float -> float -> float) (x y : float) : option float :=
  let r := f x y in
  if is_nan r && negb (is_nan x) && negb (is_nan y) then None
  else if is_infinity r && is_finite x && is_finite y then None
  else Some r.

Definition math_pi : float := 0x1.921fb54442d18p+1.

Definition math_radians (x : float) : float := x * (math_pi / 180).
Definition math_sqrt : float -> option float := math_1 sqrt.

Section WithRuntime.
Context `{Runtime}.
Definition math_sin : float -> option float := math_1 c_sin.
Definition math_cos : float -> option float := math_1 c_cos.
Definition math_atan2 : float -> float -> option float := math_2 c_atan2.
End WithRuntime.

End PyMath.
Export PyMath.

(** ** Geography *)

Record airport := { lat : float; lon : float; name : string }.

Definition airport_table : list (string * airport) :=
  [ ("JFK", {| lat := 40.6413; lon := -73.7781; name := "John F. Kennedy International" |});
    ("LAX", {| lat := 33.9416; lon := -118.4085; name := "Los Angeles International" |});
    ("ORD", {| lat := 41.9786; lon := -87.9048; name := "Chicago O'Hare International" |});
    ("DFW", {| lat := 32.8968; lon := -97.0380; name := "Dallas/Fort Worth International" |});
    ("ATL", {| lat := 33.6407; lon := -84.4277; name := "Hartsfield-Jackson Atlanta International" |});
    ("DEN", {| lat := 39.8561; lon := -104.6737; name := "Denver International" |});
    ("SFO", {| lat := 37.6213; lon := -122.3790; name := "San Francisco International" |});
    ("SEA", {| lat := 47.4502; lon := -122.3088; name := "Seattle-Tacoma International" |});
    ("BOS", {| lat := 42.3656; lon := -71.0096; name := "Logan International" |});
    ("MIA", {| lat := 25.7959; lon := -80.2871; name := "Miami International" |});
    ("LHR", {| lat := 51.4700; lon := -0.4543; name := "London Heathrow" |});
    ("CDG", {| lat := 49.0097; lon := 2.5479; name := "Charles de Gaulle" |});
    ("NRT", {| lat := 35.7720; lon := 140.3928; name := "Narita International" |});
    ("DXB", {| lat := 25.2532; lon := 55.3657; name := "Dubai International" |}) ]%float.

Definition AIRPORTS : gmap string airport := list_to_map airport_table.

(** ** JSON values and documents *)

(** The scalars a report or a stored document holds. JSON numbers are
    binary64 floats; [VDate] is a [datetime], which only the handlers
    create. Nested arrays and objects are not part of the model. *)
Inductive value :=
| VNull
| VBool (b : bool)
| VNum (x : float)
| VStr (s : string)
| VDate (t : Z).

Abbreviation doc := (gmap string value).

(** Python truthiness ([not v] is its negation). *)
Definition truthy (v : value) : bool :=
  match v with
  | VNull => false
  | VBool b => b
  | VNum x => negb (x =? 0)%float
  | VStr s => negb (String.eqb s "")
  | VDate _ => true
  end.

(** [float(v)]: [None] stands for [ValueError] or [TypeError]. *)
Definition py_float `{Runtime} (v : value) : option float :=
  match v with
  | VNum x => Some x
  | VBool b => Some (if b then 1 else 0)%float
  | VStr s => float_of_string s
  | VNull | VDate _ => None
  end.

(** A stored number used in arithmetic ([bool] is a subtype of [int]). *)
Definition as_number (v : value) : option float :=
  match v with
  | VNum x => Some x
  | VBool b => Some (if b then 1 else 0)%float
  | _ => None
  end.

(** [s.replace('Z', '+00:00')]. *)
Fixpoint replace_Z (s : string) : string :=
  match s with
  | EmptyString => EmptyString
  | String c s' =>
      if Ascii.eqb c "Z"%char then "+00:00" +:+ replace_Z s'
      else String c (replace_Z s')
  end.

(** ** GeoMath *)

Section GeoMath.
Context `{Runtime}.
Local Open Scope float_scope.

(** Haversine distance in kilometres; [None] when one of the [math]
    calls raises. *)
Definition calculate_distance (lat1 lon1 lat2 lon2 : float) : option float :=
  let R := 6371 in
  let dlat := math_radians (lat2 - lat1) in
  let dlon := math_radians (lon2 - lon1) in
  sin_dlat ← math_sin (dlat / 2);
  cos_lat1 ← math_cos (math_radians lat1);
  cos_lat2 ← math_cos (math_radians lat2);
  sin_dlon ← math_sin (dlon / 2);
  let a := sin_dlat * sin_dlat + cos_lat1 * cos_lat2 * sin_dlon * sin_dlon in
  sqrt_a ← math_sqrt a;
  sqrt_1a ← math_sqrt (1 - a);
  atan ← math_atan2 sqrt_a sqrt_1a;
  let c := 2 * atan in
  Some (R * c).

Definition in_AIRPORTS (v : value) : bool :=
  match v with
  | VStr s => bool_decide (is_Some (AIRPORTS !! s))
  | _ => false
  end.

(** [AIRPORTS[v]]. *)
Definition airport_of (v : value) : option airport :=
  match v with
  | VStr s => AIRPORTS !! s
  | _ => None
  end.

Definition calculate_route_progress
    (current_lat current_lon : float) (source destination : value) : option float :=
  if negb (truthy source) || negb (truthy destination)
     || negb (in_AIRPORTS source) || negb (in_AIRPORTS destination)
  then Some 0
  else
    source_coords ← airport_of source;
    dest_coords ← airport_of destination;
    total_distance ← calculate_distance (lat source_coords) (lon source_coords)
                                        (lat dest_coords) (lon dest_coords);
    current_to_dest ← calculate_distance current_lat current_lon
                                         (lat dest_coords) (lon dest_coords);
    if total_distance =? 0 then Some 100
    else
      let progress :=
        py_max 0 (py_min 100 ((total_distance - current_to_dest) / total_distance * 100)) in
      Some (py_round2 progress).

Record waypoint := { wp_lat : float; wp_lon : float; wp_progress : float }.

(** [range(n)]. *)
Definition range (n : Z) : list Z := Z.of_nat <$> seq 0 (Z.to_nat n).

Definition get_route_waypoints
    (source destination : value) (num_points : Z) : option (list waypoint) :=
  if negb (truthy source) || negb (truthy destination)
     || negb (in_AIRPORTS source) || negb (in_AIRPORTS destination)
  then Some []
  else
    source_coords ← airport_of source;
    dest_coords ← airport_of destination;
    mapM (fun i =>
            progress ← int_true_divide i num_points;
            Some {| wp_lat := lat source_coords
                              + (lat dest_coords - lat source_coords) * progress;
                    wp_lon := lon source_coords
                              + (lon dest_coords - lon source_coords) * progress;
                    wp_progress := progress * 100 |})
         (range (num_points + 1)).

End GeoMath.

(** ** The document store *)

(** What a query value is compared by: numbers by their value (the two
    zeros are one number, NaN equals itself), everything else by type and
    content. A missing field compares as null. *)
Inductive key :=
| KNull
| KBool (b : bool)
| KNum (x : spec_float)
| KStr (s : string)
| KDate (t : Z).

#[global] Instance spec_float_eq_dec : EqDecision spec_float.
Proof. solve_decision. Defined.

#[global] Instance key_eq_dec : EqDecision key.
Proof. solve_decision. Defined.

Definition key_of (v : value) : key :=
  match v with
  | VNull => KNull
  | VBool b => KBool b
  | VNum x => KNum (match Prim2SF x with
                    | S754_zero _ => S754_zero false
                    | sf => sf
                    end)
  | VStr s => KStr s
  | VDate t => KDate t
  end.

Definition field_key (f : string) (d : doc) : key :=
  key_of (default VNull (d !! f)).

(** The filter [{f: q}]. *)
Definition matches (f : string) (q : value) (d : doc) : bool :=
  bool_decide (field_key f d = key_of q).

(** The filter [{f: {"$gte": bound}}], which only numbers can satisfy. *)
Definition matches_gte (f : string) (bound : float) (d : doc) : bool :=
  match d !! f with
  | Some (VNum x) => (bound <=? x)%float
  | _ => false
  end.

Definition find (p : doc -> bool) (c : list doc) : list doc := List.filter p c.

Definition find_one (p : doc -> bool) (c : list doc) : option doc := head (find p c).

Definition delete_many (p : doc -> bool) (c : list doc) : list doc :=
  List.filter (fun d => negb (p d)) c.

Fixpoint delete_one (p : doc -> bool) (c : list doc) : list doc :=
  match c with
  | [] => []
  | d :: c' => if p d then c' else d :: delete_one p c'
  end.

(** [update_one({f: q}, {"$set": upd}, upsert=True)]: the first matching
    document takes the fields of [upd] and keeps its other fields; without
    a match a document made of the filter's field and of [upd] is added. *)
Fixpoint update_one_set (f : string) (q : value) (upd : doc) (c : list doc) : list doc :=
  match c with
  | [] => [upd ∪ {[ f := q ]}]
  | d :: c' =>
      if matches f q d then (upd ∪ d) :: c'
      else d :: update_one_set f q upd c'
  end.

(** [sort("timestamp", 1)]: ascending and stable; a document whose
    timestamp is not a date sorts before the dated ones. *)
Definition timestamp_key (d : doc) : option Z :=
  match d !! "timestamp" with
  | Some (VDate t) => Some t
  | _ => None
  end.

Definition timestamp_leb (a b : doc) : bool :=
  match timestamp_key a, timestamp_key b with
  | None, _ => true
  | Some _, None => false
  | Some x, Some y => x <=? y
  end.

Fixpoint insert_by_timestamp (d : doc) (l : list doc) : list doc :=
  match l with
  | [] => [d]
  | x :: l' =>
      if timestamp_leb x d then x :: insert_by_timestamp d l'
      else d :: x :: l'
  end.

Definition sort_by_timestamp (l : list doc) : list doc :=
  foldl (fun acc d => insert_by_timestamp d acc) [] l.

(** The extra fields of a log entry written by the sweep. *)
Record auto_summary := {
  route_source : value;
  route_destination : value;
  route_final_progress : value;
  summary_aircraft_type : value;
  summary_airline : value;
  summary_departure_airport : value;
  summary_arrival_airport : value;
  summary_total_distance_km : float
}.

Record log_entry := {
  log_flight_id : value;
  log_path : list doc;
  log_flight_details : option doc;
  log_completed_at : Z;
  log_total_tracking_points : nat;
  log_departure_time : value;
  log_arrival_time : value;
  log_total_duration_minutes : float;
  log_auto_completed : option auto_summary
}.

(** The three collections of [database.py]. *)
Record store := {
  flights : list doc;
  tracking : list doc;
  logs : list log_entry
}.

Definition empty_store : store := {| flights := []; tracking := []; logs := [] |}.

(** What a handler answers. [Unhandled] is an exception that leaves the
    handler, which Flask turns into a 500 response. *)
Inductive response :=
| Updated (flight_id : value) (timestamp : Z)
| Completed (flight_id : string) (total_points : nat) (duration_minutes : float)
| AutoCompleted (completed_count : nat)
| Error (code : Z) (error : string)
| Unhandled.

(** ** The handlers *)

Section Handlers.
Context `{Runtime}.
Local Open Scope float_scope.

Definition required_fields : list string :=
  ["flight_id"; "latitude"; "longitude"; "altitude"; "speed"; "heading";
   "status"; "timestamp"].

Definition optional_fields : list string :=
  ["aircraft_type"; "airline"; "departure"; "arrival"; "route";
   "destination"; "source"].

(** [f in d]. *)
Definition has_field (d : doc) (f : string) : bool :=
  bool_decide (is_Some (d !! f)).

Definition field_float (data : doc) (f : string) : option float :=
  data !! f ≫= py_float.

(** The [try] block of [update_flight]: the five conversions, then the
    range checks in the order of the source. [inl] carries the message
    of the 400 response, [inr] the report with its numeric fields
    replaced by floats. *)
Definition check_numeric_fields (data : doc) : string + doc :=
  match
    latitude ← field_float data "latitude";
    longitude ← field_float data "longitude";
    altitude ← field_float data "altitude";
    speed ← field_float data "speed";
    heading ← field_float data "heading";
    Some (latitude, longitude, altitude, speed, heading)
  with
  | None => inl "Invalid data types for numeric fields"%string
  | Some (latitude, longitude, altitude, speed, heading) =>
      if negb ((-90 <=? latitude) && (latitude <=? 90)) then
        inl "Latitude must be between -90 and 90"%string
      else if negb ((-180 <=? longitude) && (longitude <=? 180)) then
        inl "Longitude must be between -180 and 180"%string
      else if altitude <? 0 then
        inl "Altitude must be positive"%string
      else if speed <? 0 then
        inl "Speed must be positive"%string
      else if negb ((0 <=? heading) && (heading <=? 360)) then
        inl "Heading must be between 0 and 360"%string
      else
        inr (<["heading" := VNum heading]>
             (<["speed" := VNum speed]>
              (<["altitude" := VNum altitude]>
               (<["longitude" := VNum longitude]>
                (<["latitude" := VNum latitude]> data)))))
  end.

(** [data[f]] of a field the handler has already checked or written. *)
Definition field (data : doc) (f : string) : value := default VNull (data !! f).

Definition field_number (data : doc) (f : string) : float :=
  match data !! f with
  | Some (VNum x) => x
  | _ => nan
  end.

(** The dictionary [flight_update] before the route is looked at. *)
Definition base_flight_update (data : doc) : doc :=
  foldl (fun upd f => match data !! f with
                      | Some v => <[f := v]> upd
                      | None => upd
                      end)
    (list_to_map
       [ ("flight_id", field data "flight_id");
         ("latitude", field data "latitude");
         ("longitude", field data "longitude");
         ("altitude", field data "altitude");
         ("speed", field data "speed");
         ("heading", field data "heading");
         ("status", field data "status");
         ("last_updated", field data "timestamp");
         ("received_at", field data "received_at") ]%string)
    optional_fields.

(** Lines 151-162: the progress towards the destination and the landing
    mark. [None] when the distance computation raises. *)
Definition add_route_progress (data upd : doc) : option doc :=
  if has_field data "source" && has_field data "destination" then
    route_progress ← calculate_route_progress
                       (field_number data "latitude") (field_number data "longitude")
                       (field data "source") (field data "destination");
    let upd := <["route_progress" := VNum route_progress]> upd in
    if 95 <=? route_progress then
      Some (<["ready_for_completion" := VBool true]>
            (<["status" := VStr "landed"]> upd))
    else Some upd
  else Some upd.

Definition update_flight (now : Z) (data : doc) (db : store) : response * store :=
  if negb (forallb (has_field data) required_fields) then
    (Error 400 "Missing one or more required fields", db)
  else
    match check_numeric_fields data with
    | inl message => (Error 400 message, db)
    | inr data =>
        match data !! "timestamp" with
        | Some (VStr s) =>
            match fromisoformat (replace_Z s) with
            | None => (Error 400 "Invalid timestamp format. Use ISO format", db)
            | Some timestamp =>
                let data := <["received_at" := VDate now]>
                            (<["timestamp" := VDate timestamp]> data) in
                let db := {| flights := flights db;
                             tracking := tracking db ++ [data];
                             logs := logs db |} in
                match add_route_progress data (base_flight_update data) with
                | None => (Unhandled, db)
                | Some flight_update =>
                    (Updated (field data "flight_id") timestamp,
                     {| flights := update_one_set "flight_id" (field data "flight_id")
                                     flight_update (flights db);
                        tracking := tracking db;
                        logs := logs db |})
                end
            end
        | _ => (Unhandled, db)
        end
    end.

(** [(end_time - start_time).total_seconds()] on two stored datetimes,
    the microseconds between them divided by [10**6] (a quotient far
    inside the range of floats); anything else raises. *)
Definition total_seconds (start_time end_time : value) : option float :=
  match start_time, end_time with
  | VDate s, VDate e => Some (div_nearest ((e - s) * 1000) 1000000)
  | _, _ => None
  end.

(** Minutes between the first and the last point of a track of two
    points or more, not yet rounded. *)
Definition track_duration (path_data : list doc) : option float :=
  start_time ← head path_data ≫= (.!! "timestamp");
  end_time ← last path_data ≫= (.!! "timestamp");
  seconds ← total_seconds start_time end_time;
  Some (seconds / 60).

Definition by_flight_id (q : value) : doc -> bool := matches "flight_id" q.

Definition complete_flight (now : Z) (flight_id : string) (db : store)
  : response * store :=
  let path_data :=
    sort_by_timestamp (find (by_flight_id (VStr flight_id)) (tracking db)) in
  if bool_decide (path_data = []) then (Error 404 "No data for this flight", db)
  else
    let flight_details := find_one (by_flight_id (VStr flight_id)) (flights db) in
    match
      departure_time ← head path_data ≫= (.!! "timestamp");
      arrival_time ← last path_data ≫= (.!! "timestamp");
      total_duration_minutes ←
        (if (1 <? length path_data)%nat
         then py_round2 <$> track_duration path_data
         else Some 0);
      Some {| log_flight_id := VStr flight_id;
              log_path := path_data;
              log_flight_details := flight_details;
              log_completed_at := now;
              log_total_tracking_points := length path_data;
              log_departure_time := departure_time;
              log_arrival_time := arrival_time;
              log_total_duration_minutes := total_duration_minutes;
              log_auto_completed := None |}
    with
    | None => (Unhandled, db)
    | Some log_entry =>
        (Completed flight_id (length path_data)
           (log_total_duration_minutes log_entry),
         {| flights := delete_one (by_flight_id (VStr flight_id)) (flights db);
            tracking := delete_many (by_flight_id (VStr flight_id)) (tracking db);
            logs := logs db ++ [log_entry] |})
    end.

(** The [for] loop of [calculate_flight_distance]. *)
Fixpoint sum_legs (prev_point : doc) (rest : list doc) (total_distance : float)
  : option float :=
  match rest with
  | [] => Some total_distance
  | curr_point :: rest' =>
      lat1 ← prev_point !! "latitude" ≫= as_number;
      lon1 ← prev_point !! "longitude" ≫= as_number;
      lat2 ← curr_point !! "latitude" ≫= as_number;
      lon2 ← curr_point !! "longitude" ≫= as_number;
      distance ← calculate_distance lat1 lon1 lat2 lon2;
      sum_legs curr_point rest' (total_distance + distance)
  end.

Definition calculate_flight_distance (path_data : list doc) : option float :=
  match path_data with
  | first :: (_ :: _) as rest => py_round2 <$> sum_legs first rest 0
  | _ => Some 0
  end.

(** The filter of the sweep. *)
Definition landed_filter (d : doc) : bool :=
  matches "status" (VStr "landed") d
  || matches "ready_for_completion" (VBool true) d
  || matches_gte "route_progress" 95 d.

(** One turn of the loop of [auto_complete_landed_flights]: [None] when
    an exception leaves it, otherwise whether the flight was archived
    and the store after the turn. *)
Definition auto_complete_flight (now : Z) (flight : doc) (db : store)
  : option (bool * store) :=
  flight_id ← flight !! "flight_id";
  let path_data := sort_by_timestamp (find (by_flight_id flight_id) (tracking db)) in
  if bool_decide (path_data = []) then Some (false, db)
  else
    let flight_details := find_one (by_flight_id flight_id) (flights db) in
    departure_time ← head path_data ≫= (.!! "timestamp");
    arrival_time ← last path_data ≫= (.!! "timestamp");
    total_duration ←
      (if (1 <? length path_data)%nat then track_duration path_data else Some 0);
    total_distance_km ← calculate_flight_distance path_data;
    let log_entry :=
      {| log_flight_id := flight_id;
         log_path := path_data;
         log_flight_details := flight_details;
         log_completed_at := now;
         log_total_tracking_points := length path_data;
         log_departure_time := departure_time;
         log_arrival_time := arrival_time;
         log_total_duration_minutes := py_round2 total_duration;
         log_auto_completed :=
           Some {| route_source := default (VStr "Unknown") (flight !! "source");
                   route_destination := default (VStr "Unknown") (flight !! "destination");
                   route_final_progress := default (VNum 0) (flight !! "route_progress");
                   summary_aircraft_type :=
                     default (VStr "Unknown") (flight !! "aircraft_type");
                   summary_airline := default (VStr "Unknown") (flight !! "airline");
                   summary_departure_airport :=
                     default (VStr "Unknown") (flight !! "source");
                   summary_arrival_airport :=
                     default (VStr "Unknown") (flight !! "destination");
                   summary_total_distance_km := total_distance_km |} |} in
    Some (true,
          {| flights := delete_one (by_flight_id flight_id) (flights db);
             tracking := delete_many (by_flight_id flight_id) (tracking db);
             logs := logs db ++ [log_entry] |}).

Fixpoint auto_complete_loop (now : Z) (landed_flights : list doc) (db : store)
    (completed_count : nat) : response * store :=
  match landed_flights with
  | [] => (AutoCompleted completed_count, db)
  | flight :: rest =>
      match auto_complete_flight now flight db with
      | None => (Unhandled, db)
      | Some (archived, db') =>
          auto_complete_loop now rest db'
            (if archived then S completed_count else completed_count)
      end
  end.

Definition auto_complete_landed_flights (now : Z) (db : store) : response * store :=
  auto_complete_loop now (find landed_filter (flights db)) db 0.

(** ** The service as a transition system *)

(** The three requests that write to the store, each with the reading of
    the server clock it is served at. *)
Inductive request :=
| PostUpdate (now : Z) (data : doc)
| PostComplete (now : Z) (flight_id : string)
| PostAutoComplete (now : Z).

Definition handle (r : request) (db : store) : response * store :=
  match r with
  | PostUpdate now data => update_flight now data db
  | PostComplete now flight_id => complete_flight now flight_id db
  | PostAutoComplete now => auto_complete_landed_flights now db
  end.

(** The store after a sequence of requests, starting empty. *)
Definition run (requests : list request) : store :=
  foldl (fun db r => (handle r db).2) empty_store requests.

Inductive reachable : store -> Prop :=
| reachable_empty : reachable empty_store
| reachable_step r db : reachable db -> reachable (handle r db).2.

End Handlers.

(** ** The read handlers *)

(** What a read handler answers: the body it hands to [jsonify], an error
    with its status code, or an exception that leaves the handler. *)
Inductive answer (A : Type) :=
| Json (body : A)
| JsonError (code : Z) (error : string)
| Raised.

Arguments Json {A} body.
Arguments JsonError {A} code error.
Arguments Raised {A}.

(** A field of a body: the value as it is stored, or the text that
    [isoformat()] makes of the datetime [t]. *)
Inductive json :=
| Stored (v : value)
| IsoText (t : Z).

(** [d[f] = d[f].isoformat()]: [KeyError] without the field,
    [AttributeError] when it holds no datetime. *)
Definition isoformat_field (f : string) (d : gmap string json) : option (gmap string json) :=
  match d !! f with
  | Some (Stored (VDate t)) => Some (<[f := IsoText t]> d)
  | _ => None
  end.

(** A document read from the store, before the handler rewrites fields. *)
Definition fetched (d : doc) : gmap string json := Stored <$> d.

(** The filter [{f: {"$lte": bound}}] with a datetime bound, which only
    datetimes can satisfy. *)
Definition matches_lte (f : string) (bound : Z) (d : doc) : bool :=
  match d !! f with
  | Some (VDate t) => t <=? bound
  | _ => false
  end.

(** [sort("timestamp", -1)]: descending; documents of one timestamp stay
    in insertion order. *)
Fixpoint insert_by_timestamp_desc (d : doc) (l : list doc) : list doc :=
  match l with
  | [] => [d]
  | x :: l' =>
      if timestamp_leb d x then x :: insert_by_timestamp_desc d l'
      else d :: x :: l'
  end.

Definition sort_by_timestamp_desc (l : list doc) : list doc :=
  foldl (fun acc d => insert_by_timestamp_desc d acc) [] l.

Record location := {
  loc_latitude : json;
  loc_longitude : json;
  loc_altitude : json;
  loc_speed : json;
  loc_heading : json;
  loc_status : json
}.

Record location_at_time := {
  at_flight_id : string;
  requested_time : json;
  actual_time : json;
  at_location : location
}.

Record airport_info := {
  info_code : value;
  info_name : value;
  info_coordinates : float * float
}.

Record flight_route := {
  route_flight_id : string;
  route_from : airport_info;
  route_to : airport_info;
  route_waypoints : list waypoint;
  route_current_progress : value;
  route_current_position : value * value
}.

Record flight_path := {
  path_flight_id : string;
  path_source : value;
  path_destination : value;
  path_tracking_points : list (gmap string json);
  path_route_waypoints : list waypoint;
  path_current_progress : value
}.

Section ReadHandlers.
Context `{Runtime}.

Definition get_latest_flight_data (flight_id : string) (db : store)
  : answer (gmap string json) :=
  match find_one (by_flight_id (VStr flight_id)) (flights db) with
  | None => JsonError 404 "Flight not found"
  | Some flight =>
      match
        flight ← isoformat_field "last_updated" (fetched flight);
        isoformat_field "received_at" flight
      with
      | None => Raised
      | Some flight => Json flight
      end
  end.

(** [timestamp_str] is [request.args.get('timestamp')]. *)
Definition get_flight_location_at_time
    (flight_id : string) (timestamp_str : option string) (db : store)
  : answer location_at_time :=
  match timestamp_str with
  | None => JsonError 400 "Timestamp parameter required"
  | Some timestamp_str =>
      if negb (truthy (VStr timestamp_str)) then
        JsonError 400 "Timestamp parameter required"
      else
        match fromisoformat (replace_Z timestamp_str) with
        | None => JsonError 400 "Invalid timestamp format. Use ISO format"
        | Some target_time =>
            let tracking_points :=
              take 1 (sort_by_timestamp_desc
                        (find (fun d => by_flight_id (VStr flight_id) d
                                        && matches_lte "timestamp" target_time d)
                           (tracking db))) in
            match tracking_points with
            | [] => JsonError 404 "No tracking data found for the specified time"
            | point :: _ =>
                match
                  point ← isoformat_field "timestamp" (fetched point);
                  point ← isoformat_field "received_at" point;
                  actual_time ← point !! "timestamp";
                  latitude ← point !! "latitude";
                  longitude ← point !! "longitude";
                  altitude ← point !! "altitude";
                  speed ← point !! "speed";
                  heading ← point !! "heading";
                  status ← point !! "status";
                  Some {| at_flight_id := flight_id;
                          requested_time := IsoText target_time;
                          actual_time := actual_time;
                          at_location :=
                            {| loc_latitude := latitude;
                               loc_longitude := longitude;
                               loc_altitude := altitude;
                               loc_speed := speed;
                               loc_heading := heading;
                               loc_status := status |} |}
                with
                | None => Raised
                | Some body => Json body
                end
            end
        end
  end.

Definition get_flight_history (flight_id : string) (db : store)
  : answer (list (gmap string json)) :=
  let history :=
    sort_by_timestamp (find (by_flight_id (VStr flight_id)) (tracking db)) in
  if bool_decide (history = []) then JsonError 404 "No tracking data found"
  else
    match mapM (fun item => isoformat_field "timestamp" (fetched item)) history with
    | None => Raised
    | Some history => Json history
    end.

Definition get_all_active_flights (db : store) : answer (list (gmap string json)) :=
  match mapM (fun f => isoformat_field "last_updated" (fetched f)) (flights db) with
  | None => Raised
  | Some active => Json active
  end.

(** [AIRPORTS.get(code, {})] and the three lookups in it. *)
Definition airport_info_of (code : value) : airport_info :=
  let info := airport_of code in
  {| info_code := code;
     info_name := from_option (fun a => VStr (name a)) code info;
     info_coordinates := (from_option lat 0%float info, from_option lon 0%float info) |}.

Definition get_flight_route (flight_id : string) (db : store) : answer flight_route :=
  match find_one (by_flight_id (VStr flight_id)) (flights db) with
  | None => JsonError 404 "Flight not found"
  | Some flight =>
      let source := field flight "source" in
      let destination := field flight "destination" in
      if negb (truthy source) || negb (truthy destination) then
        JsonError 404 "Flight route information not available"
      else
        match get_route_waypoints source destination 20 with
        | None => Raised
        | Some waypoints =>
            Json {| route_flight_id := flight_id;
                    route_from := airport_info_of source;
                    route_to := airport_info_of destination;
                    route_waypoints := waypoints;
                    route_current_progress :=
                      default (VNum 0) (flight !! "route_progress");
                    route_current_position :=
                      (default (VNum 0) (flight !! "latitude"),
                       default (VNum 0) (flight !! "longitude")) |}
        end
  end.

Definition get_flights_by_route (source destination : string) (db : store)
  : answer (list (gmap string json)) :=
  let flights :=
    find (fun d => matches "source" (VStr source) d
                   && matches "destination" (VStr destination) d)
      (flights db) in
  match mapM (fun flight => isoformat_field "last_updated" (fetched flight)) flights with
  | None => Raised
  | Some flights => Json flights
  end.

Definition get_flight_path_with_destination (flight_id : string) (db : store)
  : answer flight_path :=
  match find_one (by_flight_id (VStr flight_id)) (flights db) with
  | None => JsonError 404 "Flight not found"
  | Some flight =>
      let tracking_points :=
        sort_by_timestamp (find (by_flight_id (VStr flight_id)) (tracking db)) in
      let source := field flight "source" in
      let destination := field flight "destination" in
      match
        waypoints ←
          (if truthy source && truthy destination
           then get_route_waypoints source destination 20
           else Some []);
        tracking_points ←
          mapM (fun point => isoformat_field "timestamp" (fetched point)) tracking_points;
        Some {| path_flight_id := flight_id;
                path_source := source;
                path_destination := destination;
                path_tracking_points := tracking_points;
                path_route_waypoints := waypoints;
                path_current_progress :=
                  default (VNum 0) (flight !! "route_progress") |}
      with
      | None => Raised
      | Some body => Json body
      end
  end.

End ReadHandlers.

(** ** A reference runtime *)

(** An executable instance of [Runtime], used to run the handlers on
    concrete requests: sine, cosine and arctangent by argument reduction
    and truncated series in binary64 arithmetic, a decimal reader for
    [float(s)] and a reader of [YYYY-MM-DD[Thh:mm[:ss[.fff[fff]]]][+hh:mm]]
    for [fromisoformat]. The general theorems below do not depend on it. *)
Module Reference.
Local Open Scope float_scope.

(** The sum of [n] terms of the alternating series whose current term is
    [term] at index [k] and whose next term is
    [- term * x2 / ((k + 1) * (k + 2))]. *)
Fixpoint series (n : nat) (k term x2 : float) : float :=
  match n with
  | O => 0
  | S n' => term + series n' (k + 2) (- term * x2 / ((k + 1) * (k + 2))) x2
  end.

Definition sin_core (x : float) : float := series 14 1 x (x * x).
Definition cos_core (x : float) : float := series 14 0 1 (x * x).

Definition pio2_hi : float := 0x1.921fb54442d18p+0.
Definition pio2_lo : float := 0x1.1a62633145c07p-54.
Definition pio4 : float := 0x1.921fb54442d18p-1.

(** Brings [x] into [[-pi/4, pi/4]] by quarter turns, counted in [q]. *)
Fixpoint reduce (fuel : nat) (x : float) (q : Z) : float * Z :=
  match fuel with
  | O => (x, q)
  | S fuel' =>
      if pio4 <? x then reduce fuel' (x - pio2_hi - pio2_lo) (q + 1)
      else if x <? - pio4 then reduce fuel' (x + pio2_hi + pio2_lo) (q - 1)
      else (x, q)
  end.

Definition sin (x : float) : float :=
  if negb (is_finite x) then nan
  else
    let '(r, q) := reduce 64 x 0 in
    match (q mod 4)%Z with
    | 0%Z => sin_core r
    | 1%Z => cos_core r
    | 2%Z => - sin_core r
    | _ => - cos_core r
    end.

Definition cos (x : float) : float :=
  if negb (is_finite x) then nan
  else
    let '(r, q) := reduce 64 x 0 in
    match (q mod 4)%Z with
    | 0%Z => cos_core r
    | 1%Z => - sin_core r
    | 2%Z => - cos_core r
    | _ => sin_core r
    end.

(** [n] terms of [t - t^3/3 + t^5/5 - ...]. *)
Fixpoint atan_series (n : nat) (k pw t2 : float) : float :=
  match n with
  | O => 0
  | S n' => pw / k + atan_series n' (k + 2) (- pw * t2) t2
  end.

(** [tan (a / 2)] from [tan a]. *)
Definition halve (t : float) : float := t / (1 + sqrt (1 + t * t)).

Definition atan_small (t : float) : float :=
  let u := halve (halve (halve t)) in
  8 * atan_series 14 1 u (u * u).

Definition atan (t : float) : float :=
  if is_nan t then nan
  else if 1 <? t then (pio2_hi - atan_small (1 / t)) + pio2_lo
  else if t <? -1 then (- pio2_hi - atan_small (1 / t)) - pio2_lo
  else atan_small t.

Definition atan2 (y x : float) : float :=
  if is_nan x || is_nan y then nan
  else if 0 <? x then atan (y / x)
  else if x <? 0 then
    (if y <? 0 then atan (y / x) - 2 * pio2_hi else atan (y / x) + 2 * pio2_hi)
  else if 0 <? y then pio2_hi
  else if y <? 0 then - pio2_hi
  else y.

Local Open Scope Z_scope.

Definition digit_of (c : ascii) : option Z :=
  let n := Z.of_N (N_of_ascii c) in
  if (48 <=? n) && (n <=? 57) then Some (n - 48) else None.

(** The number a non-empty string of decimal digits writes. *)
Fixpoint digits_from (acc : Z) (s : string) : option Z :=
  match s with
  | EmptyString => Some acc
  | String c s' => d ← digit_of c; digits_from (10 * acc + d) s'
  end.

Definition digits (s : string) : option Z :=
  match s with
  | EmptyString => None
  | _ => digits_from 0 s
  end.

(** Splits [s] at the first character that satisfies [p]. *)
Fixpoint split_at (p : ascii -> bool) (s : string) : string * option (ascii * string) :=
  match s with
  | EmptyString => (EmptyString, None)
  | String c s' =>
      if p c then (EmptyString, Some (c, s'))
      else let '(a, b) := split_at p s' in (String c a, b)
  end.

Definition signed (s : string) : bool * string :=
  match s with
  | String "-" s' => (true, s')
  | String "+" s' => (false, s')
  | _ => (false, s)
  end.

(** [float(s)] for [[+-]digits[.digits][e[+-]digits]]. *)
Definition float_of_decimal (s : string) : option float :=
  let '(neg, s) := signed s in
  let '(mant, ex) := split_at (fun c => Ascii.eqb c "e" || Ascii.eqb c "E") s in
  let '(int_part, frac) := split_at (Ascii.eqb ".") mant in
  let frac_part := match frac with Some (_, f) => f | None => EmptyString end in
  e ← match ex with
      | None => Some 0
      | Some (_, es) => let '(eneg, ed) := signed es in
                        v ← digits ed; Some (if eneg then - v else v)
      end;
  m ← digits (int_part +:+ frac_part);
  let scale := e - Z.of_nat (String.length frac_part) in
  let m := if neg then - m else m in
  if m =? 0 then Some (if neg then neg_zero else PrimFloat.zero)
  else
    Some (default (if neg then neg_infinity else infinity)
            (if 0 <=? scale then int_true_divide (m * 10 ^ scale) 1
             else int_true_divide m (10 ^ (- scale)))).

(** Days from 1970-01-01 to the given day of the proleptic Gregorian
    calendar. *)
Definition days_from_civil (y m d : Z) : Z :=
  let y := if m <=? 2 then y - 1 else y in
  let era := y / 400 in
  let yoe := y - era * 400 in
  let doy := (153 * (if 2 <? m then m - 3 else m + 9) + 2) / 5 + d - 1 in
  let doe := yoe * 365 + yoe / 4 - yoe / 100 + doy in
  era * 146097 + doe - 719468.

Definition is_leap (y : Z) : bool :=
  ((y mod 4 =? 0) && negb (y mod 100 =? 0)) || (y mod 400 =? 0).

Definition days_in_month (y m : Z) : Z :=
  if m =? 2 then (if is_leap y then 29 else 28)
  else if (m =? 4) || (m =? 6) || (m =? 9) || (m =? 11) then 30
  else 31.

Definition sub (s : string) (start len : nat) : string := String.substring start len s.

(** [hh:mm[:ss[.fff[fff]]]] as milliseconds within the day. *)
Definition time_of_day (s : string) : option Z :=
  let n := String.length s in
  hh ← digits (sub s 0 2);
  mm ← (if (n =? 2)%nat then Some 0
        else if negb (String.eqb (sub s 2 1) ":") then None
        else digits (sub s 3 2));
  ss ← (if (n <=? 5)%nat then Some 0
        else if negb (String.eqb (sub s 5 1) ":") then None
        else digits (sub s 6 2));
  us ← (if (n <=? 8)%nat then Some 0
        else if negb (String.eqb (sub s 8 1) ".") then None
        else if (n =? 12)%nat then Z.mul 1000 <$> digits (sub s 9 3)
        else if (n =? 15)%nat then digits (sub s 9 6)
        else None);
  if (n =? 2)%nat || (n =? 5)%nat || (n =? 8)%nat || (n =? 12)%nat || (n =? 15)%nat then
    if (hh <? 24) && (mm <? 60) && (ss <? 60)
    then Some (((hh * 60 + mm) * 60 + ss) * 1000 + us / 1000)
    else None
  else None.

(** [+hh:mm] or [-hh:mm] as milliseconds east of UTC. *)
Definition utc_offset (sign : ascii) (s : string) : option Z :=
  if negb ((String.length s =? 5)%nat && String.eqb (sub s 2 1) ":") then None
  else
    hh ← digits (sub s 0 2);
    mm ← digits (sub s 3 2);
    if (hh <? 24) && (mm <? 60)
    then Some ((if Ascii.eqb sign "-" then -1 else 1) * (hh * 60 + mm) * 60000)
    else None.

Definition parse_isoformat (s : string) : option Z :=
  let date := sub s 0 10 in
  y ← digits (sub date 0 4);
  m ← digits (sub date 5 2);
  d ← digits (sub date 8 2);
  if negb ((String.length date =? 10)%nat
           && String.eqb (sub date 4 1) "-" && String.eqb (sub date 7 1) "-"
           && (1 <=? y) && (1 <=? m) && (m <=? 12)
           && (1 <=? d) && (d <=? days_in_month y m))
  then None
  else
    let day_ms := days_from_civil y m d * 86400000 in
    if (String.length s =? 10)%nat then Some day_ms
    else
      let rest := sub s 11 (String.length s - 11) in
      let '(time, zone) :=
        split_at (fun c => Ascii.eqb c "+" || Ascii.eqb c "-") rest in
      t ← time_of_day time;
      off ← match zone with
            | None => Some 0
            | Some (sign, z) => utc_offset sign z
            end;
      Some (day_ms + t - off).

Definition runtime : Runtime :=
  {| c_sin := sin;
     c_cos := cos;
     c_atan2 := atan2;
     float_of_string := float_of_decimal;
     fromisoformat := parse_isoformat |}.

End Reference.

(** ** Vocabulary of the statements *)

(** The waypoint at the fraction [p] of the straight line, in latitude and
    longitude, from [a] to [b]. *)
Definition interpolate (a b : airport) (p : float) : waypoint :=
  {| wp_lat := lat a + (lat b - lat a) * p;
     wp_lon := lon a + (lon b - lon a) * p;
     wp_progress := p * 100 |}%float.

(** [i / 20] as a float, for [i] from 0 to 20. *)
Definition twentieths : list float :=
  [0; 0.05; 0.1; 0.15; 0.2; 0.25; 0.3; 0.35; 0.4; 0.45; 0.5;
   0.55; 0.6; 0.65; 0.7; 0.75; 0.8; 0.85; 0.9; 0.95; 1]%float.

(** Two floats at most [2^-45] apart (about [2.8e-14]). *)
Definition within_rounding (x y : float) : Prop :=
  (abs (x - y) <=? 0x1p-45)%float = true.

(** The report as [update_flight] appends it to the history: its numeric
    fields converted ([data] below is the report after the conversions),
    its timestamp parsed and the reception time added. *)
Definition stored_point (now timestamp : Z) (data : doc) : doc :=
  <["received_at" := VDate now]> (<["timestamp" := VDate timestamp]> data).

(** The fields that [update_flight] rewrites before it stores a report. *)
Definition rewritten_fields : list string :=
  ["latitude"; "longitude"; "altitude"; "speed"; "heading"; "timestamp";
   "received_at"].

(** The latest state of the flight [q], as [GET /api/flight/<id>] reads it. *)
Definition flight_state (q : value) (db : store) : option doc :=
  find_one (by_flight_id q) (flights db).

(** The history of the flight [q]. *)
Definition track_points (q : value) (db : store) : list doc :=
  find (by_flight_id q) (tracking db).

(** The flight [q] is in the active collection. *)
Definition active (q : value) (db : store) : Prop :=
  key_of q ∈ field_key "flight_id" <$> flights db.

(** The flight [q] has an entry in the archive. *)
Definition archived (q : value) (db : store) : Prop :=
  key_of q ∈ (fun e => key_of (log_flight_id e)) <$> logs db.

(** The entries of the archive for the flight [q]. *)
Definition log_entries (q : value) (db : store) : list log_entry :=
  List.filter (fun e => bool_decide (key_of (log_flight_id e) = key_of q)) (logs db).

(** The latest state of the flight [q] carries the completion mark. *)
Definition marked_ready (q : value) (db : store) : Prop :=
  exists d, flight_state q db = Some d
            /\ d !! "ready_for_completion" = Some (VBool true).

(** The store after a sequence of reports, each with the time it is
    received at. *)
Definition apply_reports `{Runtime} (reports : list (Z * doc)) (db : store) : store :=
  foldl (fun db r => (update_flight r.1 r.2 db).2) db reports.

(** A point of the history as [update_flight] writes it: dated, with
    numeric coordinates. *)
Definition point_ok (p : doc) : Prop :=
  (exists t, p !! "timestamp" = Some (VDate t))
  /\ (exists x, p !! "latitude" = Some (VNum x))
  /\ (exists y, p !! "longitude" = Some (VNum y)).

(** What every store the service can come to satisfies: one flight state
    per flight, each with its identifier, and well-formed points. *)
Definition store_ok (db : store) : Prop :=
  NoDup (field_key "flight_id" <$> flights db)
  /\ Forall (fun d => is_Some (d !! "flight_id")) (flights db)
  /\ Forall point_ok (tracking db).

(** The requests that archive. *)
Definition is_archival (r : request) : Prop :=
  match r with
  | PostUpdate _ _ => False
  | PostComplete _ _ | PostAutoComplete _ => True
  end.

(** The flight of the state [f] has at least one point in the history. *)
Definition has_points (db : store) (f : doc) : bool :=
  existsb (by_flight_id (field f "flight_id")) (tracking db).


(** The documents [a] and [b] are of one flight. *)
Definition same_flight (a b : doc) : bool :=
  by_flight_id (field a "flight_id") b.


(** From [db] to [db'] no archive entry is lost and every active flight is
    still active or else archived. *)
Definition advances (db db' : store) : Prop :=
  (forall q, archived q db -> archived q db')
  /\ (forall q, active q db -> active q db' \/ archived q db').

(** The letters of [s] in lower case. *)
Definition lower (c : ascii) : ascii :=
  let n := N_of_ascii c in
  if (65 <=? n)%N && (n <=? 90)%N then ascii_of_N (n + 32) else c.

Fixpoint lowercase (s : string) : string :=
  match s with
  | EmptyString => EmptyString
  | String c s' => String (lower c) (lowercase s')
  end.

(** [needle] occurs in [hay]. *)
Fixpoint contains (needle hay : string) : bool :=
  String.prefix needle hay
  || match hay with
     | EmptyString => false
     | String _ hay' => contains needle hay'
     end.

(** The message of an error names the field [f], in any case. *)
Definition names_field (message f : string) : bool :=
  contains (lowercase f) (lowercase message).

(** The message names none of the fields of a report. *)
Definition names_no_field (message : string) : Prop :=
  existsb (names_field message) (required_fields ++ optional_fields) = false.

Definition numeric_fields : list string :=
  ["latitude"; "longitude"; "altitude"; "speed"; "heading"].

(** The route progress as the specification words it: the clamped
    [100 * (1 - distance(current, destination) / distance(source, destination))],
    0 for an unknown code and 100 for a route of length zero. *)
Definition stated_route_progress `{Runtime}
    (current_lat current_lon : float) (source destination : value) : option float :=
  match airport_of source, airport_of destination with
  | Some s, Some d =>
      total ← calculate_distance (lat s) (lon s) (lat d) (lon d);
      current ← calculate_distance current_lat current_lon (lat d) (lon d);
      Some (if (total =? 0)%float then 100%float
            else py_max 0 (py_min 100 (100 * (1 - current / total)))%float)
  | _, _ => Some 0%float
  end.

(** ** Sample requests *)

(** A well-formed report of the flight [flight_id] at the given position,
    with or without a route. *)
Definition report (flight_id : string) (latitude longitude : float)
    (status timestamp : string) (route : option (string * string)) : doc :=
  let base : doc :=
    list_to_map
      [ ("flight_id", VStr flight_id); ("latitude", VNum latitude);
        ("longitude", VNum longitude); ("altitude", VNum 35000);
        ("speed", VNum 450); ("heading", VNum 270); ("status", VStr status);
        ("timestamp", VStr timestamp) ]%string in
  match route with
  | Some (source, destination) =>
      <["source" := VStr source]> (<["destination" := VStr destination]> base)
  | None => base
  end.

(** The flight TST1 from JFK to LAX, reported over JFK and over LAX. *)
Definition report_at_jfk : doc :=
  report "TST1" 40.6413 (-73.7781) "departed" "2024-01-15T08:00:00Z" (Some ("JFK", "LAX")).

Definition report_at_lax : doc :=
  report "TST1" 33.9416 (-118.4085) "cruising" "2024-01-15T13:30:00Z" (Some ("JFK", "LAX")).

(** TST1 is reported, archived and reported again. *)
Definition reported_again : list request :=
  [ PostUpdate 0 report_at_jfk; PostComplete 1 "TST1"; PostUpdate 2 report_at_lax ].

(** A stored point of the flight [flight_id]. *)
Definition point (flight_id : string) (latitude longitude : float) (timestamp : Z) : doc :=
  list_to_map
    [ ("flight_id", VStr flight_id); ("latitude", VNum latitude);
      ("longitude", VNum longitude); ("status", VStr "cruising");
      ("timestamp", VDate timestamp) ]%string.

(** A stored flight state. *)
Definition state (flight_id status : string) : doc :=
  list_to_map [ ("flight_id", VStr flight_id); ("status", VStr status) ]%string.

(** A store with a landed flight that has two points (TST1), a landed
    flight whose points are gone (TST2) and a flight under way (TST3). *)
Definition sweep_sample : store :=
  {| flights := [ state "TST1" "landed"; state "TST2" "landed"; state "TST3" "cruising" ];
     tracking := [ point "TST1" 40.6413 (-73.7781) 1705305600000;
                   point "TST3" 41.9786 (-87.9048) 1705305700000;
                   point "TST1" 33.9416 (-118.4085) 1705325400000 ];
     logs := [] |}.

(** A report without its speed, and one with a latitude out of range. *)
Definition report_without_speed : doc := delete "speed" report_at_jfk.

Definition report_off_the_globe : doc := <["latitude" := VNum 91]> report_at_jfk.

(** ** Vocabulary of the read side *)

(** [a] is not later than [b]. *)
Definition not_later (a b : doc) : Prop := timestamp_leb a b = true.

(** The point [p] as [get_flight_history] shows it: its timestamp as text,
    its other fields as stored. *)
Definition shown_as (p : doc) (b : gmap string json) : Prop :=
  exists t, p !! "timestamp" = Some (VDate t)
            /\ b = <["timestamp" := IsoText t]> (fetched p).

(** The fields of a point that [get_flight_location_at_time] reads. *)
Definition location_fields : list string :=
  ["latitude"; "longitude"; "altitude"; "speed"; "heading"; "status"].

(** A point of the history with every field that the read handlers use. *)
Definition full_point (p : doc) : Prop :=
  (exists t, p !! "timestamp" = Some (VDate t))
  /\ (exists t, p !! "received_at" = Some (VDate t))
  /\ is_Some (p !! "flight_id")
  /\ Forall (fun f => is_Some (p !! f)) location_fields.

(** A flight state with the two dates that the read handlers render. *)
Definition state_ok (d : doc) : Prop :=
  (exists t, d !! "last_updated" = Some (VDate t))
  /\ (exists t, d !! "received_at" = Some (VDate t)).

(** The location of the stored point [p] as a body gives it. *)
Definition location_of (p : doc) : location :=
  {| loc_latitude := Stored (field p "latitude");
     loc_longitude := Stored (field p "longitude");
     loc_altitude := Stored (field p "altitude");
     loc_speed := Stored (field p "speed");
     loc_heading := Stored (field p "heading");
     loc_status := Stored (field p "status") |}.

(** An archive entry that agrees with its own path: the path is not empty,
    in time order and of the entry's flight, the count is its length, and
    the departure and arrival times are those of its first and last point. *)
Definition entry_ok (e : log_entry) : Prop :=
  log_path e ≠ []
  /\ log_total_tracking_points e = length (log_path e)
  /\ StronglySorted not_later (log_path e)
  /\ Forall (fun p => by_flight_id (log_flight_id e) p = true) (log_path e)
  /\ head (log_path e) ≫= (.!! "timestamp") = Some (log_departure_time e)
  /\ last (log_path e) ≫= (.!! "timestamp") = Some (log_arrival_time e).

(** The keys that [update_flight] can set in a flight state. *)
Definition written_fields : list string :=
  ["flight_id"; "latitude"; "longitude"; "altitude"; "speed"; "heading";
   "status"; "last_updated"; "received_at"; "route_progress";
   "ready_for_completion"] ++ optional_fields.

(** ** Sample stores *)

(** TST1 reported once over JFK, with its route. *)
Definition tracked_once : store :=
  run (H := Reference.runtime) [PostUpdate 0 report_at_jfk].

(** A later report of TST1 that names no route. *)
Definition report_without_route : doc :=
  report "TST1" 39.5 (-98.35) "cruising" "2024-01-15T10:00:00Z" None.

(** TST1 after the two reports, and its state after the first. *)
Definition tracked_twice : store :=
  run (H := Reference.runtime)
    [PostUpdate 0 report_at_jfk; PostUpdate 1 report_without_route].

Definition first_state : doc := default ∅ (flight_state (VStr "TST1") tracked_once).

(** Every active flight has a point in the history. *)
Definition tracked (db : store) : Prop :=
  forall f, f ∈ flights db -> has_points db f = true.

(** What the read handlers rely on: one well-dated state per flight, full
    points, a history for every active flight and archive entries that
    agree with their paths. *)
Definition readable (db : store) : Prop :=
  store_ok db
  /\ Forall state_ok (flights db)
  /\ Forall full_point (tracking db)
  /\ tracked db
  /\ Forall entry_ok (logs db).

(** The entry [e] without the summary that only the sweep writes. *)
Definition without_summary (e : log_entry) : log_entry :=
  {| log_flight_id := log_flight_id e;
     log_path := log_path e;
     log_flight_details := log_flight_details e;
     log_completed_at := log_completed_at e;
     log_total_tracking_points := log_total_tracking_points e;
     log_departure_time := log_departure_time e;
     log_arrival_time := log_arrival_time e;
     log_total_duration_minutes := log_total_duration_minutes e;
     log_auto_completed := None |}.

(** The flight state [d] as the listings show it: the time of its last
    update as text, its other fields as stored. *)
Definition listed_as (d : doc) (b : gmap string json) : Prop :=
  exists t, d !! "last_updated" = Some (VDate t)
            /\ b = <["last_updated" := IsoText t]> (fetched d).

(** TST1 reported twice and then archived. *)
Definition archived_once : store :=
  run (H := Reference.runtime)
    [PostUpdate 0 report_at_jfk; PostUpdate 1 report_without_route;
     PostComplete 5 "TST1"].

(** A flight state with a route between two codes. *)
Definition routed_state (flight_id source destination : string) : doc :=
  <["destination" := VStr destination]>
    (<["source" := VStr source]> (state flight_id "cruising")).

(** * Properties *)

(** ** Waypoints *)

Section Waypoints.
Local Open Scope float_scope.

Lemma airport_in_table (A : string) (a : airport) :
  AIRPORTS !! A = Some a -> (A, a) ∈ airport_table.
Proof. apply elem_of_list_to_map_2. Qed.

Lemma known_airport_passes_guard (A : string) (a : airport) :
  AIRPORTS !! A = Some a ->
  truthy (VStr A) = true /\ in_AIRPORTS (VStr A) = true.
Proof.
  intros HA. split.
  - cbn. destruct (String.eqb_spec A "") as [->|]; [|done].
    vm_compute in HA. discriminate.
  - unfold in_AIRPORTS. apply bool_decide_eq_true. by rewrite HA.
Qed.

(** On two known airports the function is the interpolation at the 21
    fractions [i / 20]. *)
Lemma waypoints_of_known_airports (A B : string) (a b : airport) :
  AIRPORTS !! A = Some a -> AIRPORTS !! B = Some b ->
  get_route_waypoints (VStr A) (VStr B) 20 = Some (interpolate a b <$> twentieths).
Proof.
  intros HA HB.
  destruct (known_airport_passes_guard _ _ HA) as [tA iA].
  destruct (known_airport_passes_guard _ _ HB) as [tB iB].
  unfold get_route_waypoints. rewrite tA, tB, iA, iB.
  unfold airport_of. rewrite HA, HB.
  vm_compute. reflexivity.
Qed.

Lemma twentieths_are_quotients (i : nat) :
  (i <= 20)%nat -> twentieths !! i = int_true_divide (Z.of_nat i) 20.
Proof.
  intros Hi. do 21 (destruct i as [|i]; [vm_compute; reflexivity|]). lia.
Qed.

(** The endpoints of the interpolation over the airport table: the
    fraction 0 gives the source exactly; the fraction 1 gives the
    latitude of the destination exactly and its longitude up to the
    rounding of [s + (d - s)]. *)
Lemma interpolate_endpoints (A B : string) (a b : airport) :
  (A, a) ∈ airport_table -> (B, b) ∈ airport_table ->
  interpolate a b 0 = {| wp_lat := lat a; wp_lon := lon a; wp_progress := 0 |}
  /\ wp_lat (interpolate a b 1) = lat b
  /\ within_rounding (wp_lon (interpolate a b 1)) (lon b)
  /\ wp_progress (interpolate a b 1) = 100.
Proof.
  unfold airport_table. intros HA HB.
  repeat (apply elem_of_cons in HA as [HA|HA]; [injection HA as -> ->|]);
    [..|by apply elem_of_nil in HA];
    repeat (apply elem_of_cons in HB as [HB|HB]; [injection HB as -> ->|]);
    try (by apply elem_of_nil in HB);
    vm_compute; repeat split; reflexivity.
Qed.

End Waypoints.

(** C7, as amended. For every pair of known airports [A] and [B],
    [get_route_waypoints A B 20] returns 21 points; the point of index [i]
    is the linear interpolation in latitude and longitude at the float
    [i / 20] and carries the progress [(i / 20) * 100]; the first point is
    the coordinate of [A] exactly; the last point has the latitude of [B]
    exactly and a longitude within rounding error of that of [B]. *)
Theorem waypoints_of_route (A B : string) (a b : airport) :
  AIRPORTS !! A = Some a -> AIRPORTS !! B = Some b ->
  exists pts : list waypoint,
    get_route_waypoints (VStr A) (VStr B) 20 = Some pts
    /\ length pts = 21%nat
    /\ (forall i : nat, (i <= 20)%nat ->
          exists p, int_true_divide (Z.of_nat i) 20 = Some p
                    /\ pts !! i = Some (interpolate a b p))
    /\ head pts = Some {| wp_lat := lat a; wp_lon := lon a; wp_progress := 0 |}
    /\ exists w, last pts = Some w
                 /\ wp_lat w = lat b
                 /\ within_rounding (wp_lon w) (lon b)
                 /\ wp_progress w = 100%float.
Proof.
  intros HA HB.
  destruct (interpolate_endpoints A B a b) as (E0 & E1 & E2 & E3);
    [by apply airport_in_table..|].
  exists (interpolate a b <$> twentieths). split; [|split; [|split; [|split]]].
  - by apply waypoints_of_known_airports.
  - reflexivity.
  - intros i Hi. rewrite <- (twentieths_are_quotients i Hi).
    rewrite list_lookup_fmap.
    destruct (twentieths !! i) as [p|] eqn:Ep.
    + exists p. done.
    + apply lookup_ge_None in Ep. cbn in Ep. lia.
  - cbn [twentieths fmap list_fmap head]. by rewrite E0.
  - exists (interpolate a b 1). done.
Qed.

Lemma waypoints_of_route_witness :
  exists pts : list waypoint,
    get_route_waypoints (VStr "JFK") (VStr "LAX") 20 = Some pts
    /\ length pts = 21%nat
    /\ (forall i : nat, (i <= 20)%nat ->
          exists p, int_true_divide (Z.of_nat i) 20 = Some p
                    /\ pts !! i
                       = Some (interpolate
                                 {| lat := 40.6413; lon := -73.7781;
                                    name := "John F. Kennedy International" |}
                                 {| lat := 33.9416; lon := -118.4085;
                                    name := "Los Angeles International" |} p))
    /\ head pts = Some {| wp_lat := 40.6413; wp_lon := -73.7781; wp_progress := 0 |}
    /\ exists w, last pts = Some w
                 /\ wp_lat w = 33.9416%float
                 /\ within_rounding (wp_lon w) (-118.4085)
                 /\ wp_progress w = 100%float.
Proof.
  apply (waypoints_of_route "JFK" "LAX"
           {| lat := 40.6413; lon := -73.7781; name := "John F. Kennedy International" |}
           {| lat := 33.9416; lon := -118.4085; name := "Los Angeles International" |});
    vm_compute; reflexivity.
Defined.

(** C7 as stated fails: on the route from JFK to LHR the last waypoint
    has the longitude [-0.45430000000000348], not the longitude
    [-0.4543] of LHR. *)
Lemma waypoints_last_point_inexact :
  exists (pts : list waypoint) (w : waypoint) (b : airport),
    get_route_waypoints (VStr "JFK") (VStr "LHR") 20 = Some pts
    /\ last pts = Some w
    /\ AIRPORTS !! "LHR" = Some b
    /\ wp_lon w = (-0x1.d13404ea4a9p-2)%float
    /\ lon b = (-0.4543)%float
    /\ wp_lon w <> lon b.
Proof.
  eexists _, _, _. split; [vm_compute; reflexivity|].
  split; [vm_compute; reflexivity|].
  split; [vm_compute; reflexivity|].
  split; [vm_compute; reflexivity|].
  split; [reflexivity|].
  cbn. intros E.
  apply (f_equal (fun x => (x =? -0.4543)%float)) in E.
  vm_compute in E. discriminate.
Qed.

(** ** The store operations *)

Section StoreLemmas.

Lemma matches_true (f : string) (q : value) (d : doc) :
  matches f q d = true <-> field_key f d = key_of q.
Proof. unfold matches. apply bool_decide_eq_true. Qed.

Lemma matches_false (f : string) (q : value) (d : doc) :
  matches f q d = false <-> field_key f d <> key_of q.
Proof. unfold matches. apply bool_decide_eq_false. Qed.

(** Two queries with one key select the same documents. *)
Lemma matches_key (f : string) (q q' : value) (d : doc) :
  key_of q = key_of q' -> matches f q d = matches f q' d.
Proof. unfold matches. by intros ->. Qed.

Lemma key_of_str (v : value) (s : string) : key_of v = KStr s <-> v = VStr s.
Proof.
  split; [|by intros ->].
  intros E. destruct v; try discriminate E. by injection E as ->.
Qed.

Lemma key_of_bool (v : value) (b : bool) : key_of v = KBool b <-> v = VBool b.
Proof.
  split; [|by intros ->].
  intros E. destruct v; try discriminate E. by injection E as ->.
Qed.

Lemma matches_str (f s : string) (d : doc) :
  matches f (VStr s) d = true <-> d !! f = Some (VStr s).
Proof.
  rewrite matches_true. unfold field_key.
  change (key_of (VStr s)) with (KStr s).
  destruct (d !! f) as [v|]; cbn -[key_of].
  - rewrite key_of_str. split; congruence.
  - split; discriminate.
Qed.

Lemma matches_bool (f : string) (b : bool) (d : doc) :
  matches f (VBool b) d = true <-> d !! f = Some (VBool b).
Proof.
  rewrite matches_true. unfold field_key.
  change (key_of (VBool b)) with (KBool b).
  destruct (d !! f) as [v|]; cbn -[key_of].
  - rewrite key_of_bool. split; congruence.
  - split; discriminate.
Qed.

Lemma field_key_lookup (f : string) (d : doc) (v : value) :
  d !! f = Some v -> field_key f d = key_of v.
Proof. unfold field_key. by intros ->. Qed.

(** A [$set] that writes the queried field keeps the key of the
    document it is merged into. *)
Lemma field_key_union (f : string) (upd d : doc) (q : value) :
  upd !! f = Some q -> field_key f (upd ∪ d) = key_of q.
Proof.
  intros Hq. apply field_key_lookup. by apply lookup_union_Some_l.
Qed.

Lemma find_one_cons (p : doc -> bool) (d : doc) (c : list doc) :
  find_one p (d :: c) = if p d then Some d else find_one p c.
Proof. unfold find_one, find. cbn. by destruct (p d). Qed.

Lemma find_one_Some_elem (p : doc -> bool) (c : list doc) (d : doc) :
  find_one p c = Some d -> d ∈ c /\ p d = true.
Proof.
  induction c as [|x c IH]; [done|].
  rewrite find_one_cons. destruct (p x) eqn:Ex.
  - intros [= ->]. split; [apply list_elem_of_here|done].
  - intros Hd. destruct (IH Hd). split; [by apply list_elem_of_further|done].
Qed.

Lemma find_one_None (p : doc -> bool) (c : list doc) :
  find_one p c = None <-> forall d, d ∈ c -> p d = false.
Proof.
  induction c as [|x c IH].
  - split; [|done]. intros _ d Hd. by apply elem_of_nil in Hd.
  - rewrite find_one_cons. destruct (p x) eqn:Ex.
    + split; [done|]. intros Hall. rewrite (Hall x) in Ex; [done|apply list_elem_of_here].
    + rewrite IH. split.
      * intros Hall d [->|Hd]%elem_of_cons; auto.
      * intros Hall d Hd. apply Hall. by apply list_elem_of_further.
Qed.

Lemma find_nil (p : doc -> bool) (c : list doc) :
  find p c = [] <-> forall d, d ∈ c -> p d = false.
Proof.
  unfold find. induction c as [|x c IH]; cbn.
  - split; [|done]. intros _ d Hd. by apply elem_of_nil in Hd.
  - destruct (p x) eqn:Ex.
    + split; [done|]. intros Hall. rewrite (Hall x) in Ex; [done|apply list_elem_of_here].
    + rewrite IH. split.
      * intros Hall d [->|Hd]%elem_of_cons; auto.
      * intros Hall d Hd. apply Hall. by apply list_elem_of_further.
Qed.

Lemma elem_of_find (p : doc -> bool) (c : list doc) (d : doc) :
  d ∈ find p c <-> d ∈ c /\ p d = true.
Proof.
  unfold find. rewrite !list_elem_of_In, List.filter_In. done.
Qed.

Lemma find_app (p : doc -> bool) (c c' : list doc) :
  find p (c ++ c') = find p c ++ find p c'.
Proof. unfold find. apply List.filter_app. Qed.

Lemma elem_of_delete_many (p : doc -> bool) (c : list doc) (d : doc) :
  d ∈ delete_many p c <-> d ∈ c /\ p d = false.
Proof.
  unfold delete_many. rewrite !list_elem_of_In, List.filter_In.
  by rewrite negb_true_iff.
Qed.

Lemma find_delete_many (p : doc -> bool) (c : list doc) :
  find p (delete_many p c) = [].
Proof.
  apply find_nil. intros d Hd. by apply elem_of_delete_many in Hd as [_ ?].
Qed.

(** Deleting by one predicate and finding by another one that never
    holds together with it. *)
Lemma find_delete_many_other (p p' : doc -> bool) (c : list doc) :
  (forall d, d ∈ c -> p d = true -> p' d = false) ->
  find p (delete_many p' c) = find p c.
Proof.
  unfold find, delete_many. induction c as [|x c IH]; [done|].
  intros Hdisj. cbn.
  assert (IH' : List.filter p (List.filter (fun d => negb (p' d)) c) = List.filter p c).
  { apply IH. intros d Hd. apply Hdisj. by apply list_elem_of_further. }
  destruct (p' x) eqn:Ex'; cbn.
  - destruct (p x) eqn:Ex; [|done].
    rewrite (Hdisj x) in Ex'; [done|apply list_elem_of_here|done].
  - by rewrite IH'.
Qed.

Lemma elem_of_delete_one (p : doc -> bool) (c : list doc) (d : doc) :
  d ∈ delete_one p c -> d ∈ c.
Proof.
  induction c as [|x c IH]; [done|]. cbn. destruct (p x).
  - apply list_elem_of_further.
  - intros [->|Hd]%elem_of_cons; [apply list_elem_of_here|].
    apply list_elem_of_further. auto.
Qed.

Lemma delete_one_no_match (p : doc -> bool) (c : list doc) :
  (forall d, d ∈ c -> p d = false) -> delete_one p c = c.
Proof.
  induction c as [|x c IH]; [done|]. intros Hall. cbn.
  rewrite (Hall x) by apply list_elem_of_here. f_equal. apply IH.
  intros d Hd. apply Hall. by apply list_elem_of_further.
Qed.

(** A document that the predicate rejects survives [delete_one]. *)
Lemma elem_of_delete_one_other (p : doc -> bool) (c : list doc) (d : doc) :
  d ∈ c -> p d = false -> d ∈ delete_one p c.
Proof.
  induction c as [|x c IH]; [done|]. cbn.
  intros [->|Hd]%elem_of_cons Hp.
  - rewrite Hp. apply list_elem_of_here.
  - destruct (p x); [done|]. apply list_elem_of_further. auto.
Qed.

End StoreLemmas.

Section UpdateOne.
Variables (f : string) (q : value) (upd : doc).
Hypothesis upd_sets_field : upd !! f = Some q.

Lemma matches_merged (d : doc) : matches f q (upd ∪ d) = true.
Proof. apply matches_true. by apply field_key_union. Qed.

(** The merge keeps the key of the document it updates. *)
Lemma field_key_merged (d : doc) :
  matches f q d = true -> field_key f (upd ∪ d) = field_key f d.
Proof.
  intros Hd%matches_true. rewrite Hd. by apply field_key_union.
Qed.

Lemma find_one_update_one_set (c : list doc) :
  find_one (matches f q) (update_one_set f q upd c)
  = Some (upd ∪ default {[ f := q ]} (find_one (matches f q) c)).
Proof.
  induction c as [|d c IH]; cbn [update_one_set].
  - rewrite find_one_cons, matches_merged. done.
  - rewrite (find_one_cons _ d c). destruct (matches f q d) eqn:Ed.
    + rewrite find_one_cons, matches_merged. done.
    + rewrite find_one_cons, Ed. exact IH.
Qed.

Lemma update_one_set_keys (c : list doc) :
  field_key f <$> update_one_set f q upd c
  = if existsb (matches f q) c then field_key f <$> c
    else (field_key f <$> c) ++ [key_of q].
Proof.
  induction c as [|d c IH]; cbn [update_one_set existsb].
  - cbn. f_equal. by apply field_key_union.
  - destruct (matches f q d) eqn:Ed; cbn [orb].
    + rewrite !fmap_cons. f_equal. by apply field_key_merged.
    + rewrite !fmap_cons, IH. by destruct (existsb (matches f q) c).
Qed.

Lemma existsb_matches_key (c : list doc) :
  existsb (matches f q) c = true <-> key_of q ∈ field_key f <$> c.
Proof.
  rewrite existsb_exists, list_elem_of_fmap. split.
  - intros (d & Hd%list_elem_of_In & Hm%matches_true). eauto.
  - intros (d & Hk & Hd%list_elem_of_In). exists d. split; [done|].
    by apply matches_true.
Qed.

Lemma update_one_set_NoDup (c : list doc) :
  NoDup (field_key f <$> c) -> NoDup (field_key f <$> update_one_set f q upd c).
Proof.
  intros Hc. rewrite update_one_set_keys.
  destruct (existsb (matches f q) c) eqn:Ex; [done|].
  apply NoDup_app. split; [done|]. split; [|apply NoDup_singleton].
  intros k Hk ->%list_elem_of_singleton.
  apply existsb_matches_key in Hk. congruence.
Qed.

(** Whatever key a query has, the documents it selects keep their place. *)
Lemma update_one_set_key_elem (c : list doc) (k : key) :
  k ∈ field_key f <$> c -> k ∈ field_key f <$> update_one_set f q upd c.
Proof.
  rewrite update_one_set_keys. destruct (existsb (matches f q) c); [done|].
  intros Hk. apply elem_of_app. by left.
Qed.

Lemma update_one_set_new_key (c : list doc) :
  key_of q ∈ field_key f <$> update_one_set f q upd c.
Proof.
  rewrite update_one_set_keys. destruct (existsb (matches f q) c) eqn:Ex.
  - by apply existsb_matches_key.
  - apply elem_of_app. right. apply list_elem_of_here.
Qed.

(** A property of documents that the merge preserves still holds of the
    first document that a query selects. *)
Lemma find_one_update_one_set_preserved (P : doc -> Prop) (q' : value)
    (c : list doc) (d : doc) :
  (forall x, P x -> P (upd ∪ x)) ->
  find_one (matches f q') c = Some d -> P d ->
  exists d', find_one (matches f q') (update_one_set f q upd c) = Some d' /\ P d'.
Proof.
  intros Hmerge. induction c as [|x c IH]; [done|].
  rewrite find_one_cons. cbn [update_one_set].
  destruct (matches f q x) eqn:Eq.
  - rewrite find_one_cons.
    assert (Ek : matches f q' (upd ∪ x) = matches f q' x).
    { unfold matches. by rewrite field_key_merged. }
    rewrite Ek. destruct (matches f q' x).
    + intros [= ->] HP. eauto.
    + intros Hd HP. eauto.
  - rewrite find_one_cons. destruct (matches f q' x).
    + intros [= ->] HP. eauto.
    + apply IH.
Qed.

Lemma update_one_set_Forall (P : doc -> Prop) (c : list doc) :
  (forall x, P x -> P (upd ∪ x)) -> P (upd ∪ {[ f := q ]}) ->
  Forall P c -> Forall P (update_one_set f q upd c).
Proof.
  intros Hmerge Hnew. induction 1 as [|x c Hx Hc IH]; cbn [update_one_set].
  - by constructor.
  - destruct (matches f q x); constructor; auto.
Qed.

End UpdateOne.

Section Sorting.

Lemma insert_by_timestamp_perm (d : doc) (l : list doc) :
  insert_by_timestamp d l ≡ₚ d :: l.
Proof.
  induction l as [|x l IH]; [done|]. cbn.
  destruct (timestamp_leb x d); [|done].
  rewrite IH. apply Permutation_swap.
Qed.

Lemma sort_by_timestamp_perm (l : list doc) : sort_by_timestamp l ≡ₚ l.
Proof.
  unfold sort_by_timestamp.
  assert (Hgen : forall acc,
            foldl (fun acc d => insert_by_timestamp d acc) acc l ≡ₚ l ++ acc).
  { induction l as [|x l IH]; intros acc; cbn; [done|].
    rewrite IH, insert_by_timestamp_perm. by rewrite Permutation_middle. }
  rewrite Hgen. by rewrite app_nil_r.
Qed.

Lemma sort_by_timestamp_nil (l : list doc) : sort_by_timestamp l = [] <-> l = [].
Proof.
  split; [|by intros ->].
  intros Hs. apply Permutation_nil_r. rewrite <- Hs.
  symmetry. apply sort_by_timestamp_perm.
Qed.

Lemma sort_by_timestamp_length (l : list doc) :
  length (sort_by_timestamp l) = length l.
Proof. by rewrite sort_by_timestamp_perm. Qed.

Lemma sort_by_timestamp_Forall (P : doc -> Prop) (l : list doc) :
  Forall P l -> Forall P (sort_by_timestamp l).
Proof. by rewrite sort_by_timestamp_perm. Qed.

End Sorting.

(** ** Ingestion *)

Section UpdateFlight.
Context `{Runtime}.
Local Open Scope float_scope.

Lemma check_numeric_fields_inr (data data1 : doc) :
  check_numeric_fields data = inr data1 ->
  exists latitude longitude altitude speed heading,
    field_float data "latitude" = Some latitude
    /\ field_float data "longitude" = Some longitude
    /\ field_float data "altitude" = Some altitude
    /\ field_float data "speed" = Some speed
    /\ field_float data "heading" = Some heading
    /\ data1 = <["heading" := VNum heading]>
               (<["speed" := VNum speed]>
                (<["altitude" := VNum altitude]>
                 (<["longitude" := VNum longitude]>
                  (<["latitude" := VNum latitude]> data)))).
Proof.
  unfold check_numeric_fields.
  destruct (field_float data "latitude") as [latitude|]; [|done].
  destruct (field_float data "longitude") as [longitude|]; [|done].
  destruct (field_float data "altitude") as [altitude|]; [|done].
  destruct (field_float data "speed") as [speed|]; [|done].
  destruct (field_float data "heading") as [heading|]; [|done].
  cbn [mbind option_bind].
  repeat (match goal with |- context [if ?b then _ else _] => destruct b end;
          [done|]).
  intros [= <-]. by exists latitude, longitude, altitude, speed, heading.
Qed.

Lemma check_numeric_fields_other (data data1 : doc) (k : string) :
  check_numeric_fields data = inr data1 ->
  k ∉ rewritten_fields -> data1 !! k = data !! k.
Proof.
  intros (latitude & longitude & altitude & speed & heading
          & _ & _ & _ & _ & _ & ->)%check_numeric_fields_inr Hk.
  unfold rewritten_fields in Hk. rewrite !not_elem_of_cons in Hk.
  destruct Hk as (? & ? & ? & ? & ? & _).
  by rewrite !lookup_insert_ne.
Qed.

Lemma check_numeric_fields_coordinates (data data1 : doc) :
  check_numeric_fields data = inr data1 ->
  exists latitude longitude,
    field_float data "latitude" = Some latitude
    /\ field_float data "longitude" = Some longitude
    /\ data1 !! "latitude" = Some (VNum latitude)
    /\ data1 !! "longitude" = Some (VNum longitude).
Proof.
  intros (latitude & longitude & altitude & speed & heading
          & ? & ? & _ & _ & _ & ->)%check_numeric_fields_inr.
  exists latitude, longitude. by simplify_map_eq.
Qed.

Lemma stored_point_other (now ts : Z) (data : doc) (k : string) :
  k ∉ rewritten_fields -> stored_point now ts data !! k = data !! k.
Proof.
  unfold rewritten_fields, stored_point. rewrite !not_elem_of_cons.
  intros (_ & _ & _ & _ & _ & ? & ? & _). by rewrite !lookup_insert_ne.
Qed.

Lemma stored_point_timestamp (now ts : Z) (data : doc) :
  stored_point now ts data !! "timestamp" = Some (VDate ts)
  /\ stored_point now ts data !! "received_at" = Some (VDate now).
Proof. unfold stored_point. by simplify_map_eq. Qed.

Lemma stored_point_coordinate (now ts : Z) (data : doc) (k : string) :
  k ≠ "timestamp" -> k ≠ "received_at" ->
  stored_point now ts data !! k = data !! k.
Proof. intros. unfold stored_point. by rewrite !lookup_insert_ne. Qed.

(** Copying the optional fields leaves the other fields alone. *)
Lemma copy_fields_other (data : doc) (fs : list string) (m : doc) (k : string) :
  k ∉ fs ->
  foldl (fun upd f => match data !! f with
                      | Some v => <[f := v]> upd
                      | None => upd
                      end) m fs !! k = m !! k.
Proof.
  revert m. induction fs as [|f fs IH]; intros m Hk; [done|].
  apply not_elem_of_cons in Hk as [Hkf Hk]. cbn [foldl].
  rewrite IH by done. destruct (data !! f); [|done].
  by rewrite lookup_insert_ne.
Qed.

Lemma base_flight_update_flight_id (data : doc) :
  base_flight_update data !! "flight_id" = Some (field data "flight_id").
Proof.
  unfold base_flight_update. rewrite copy_fields_other; [done|].
  unfold optional_fields. rewrite !not_elem_of_cons, elem_of_nil. naive_solver.
Qed.

Lemma base_flight_update_not_ready (data : doc) :
  base_flight_update data !! "ready_for_completion" = None.
Proof.
  unfold base_flight_update. rewrite copy_fields_other; [done|].
  unfold optional_fields. rewrite !not_elem_of_cons, elem_of_nil. naive_solver.
Qed.

Lemma add_route_progress_other (data upd upd' : doc) (k : string) :
  add_route_progress data upd = Some upd' ->
  k ≠ "route_progress" -> k ≠ "status" -> k ≠ "ready_for_completion" ->
  upd' !! k = upd !! k.
Proof.
  unfold add_route_progress. intros Hadd ? ? ?.
  destruct (has_field data "source" && has_field data "destination"); [|congruence].
  destruct (calculate_route_progress _ _ _ _) as [p|]; [|done].
  cbn [mbind option_bind] in Hadd.
  destruct (95 <=? p); injection Hadd as <-; by rewrite !lookup_insert_ne.
Qed.

(** The update never carries a ready mark other than [True]. *)
Lemma add_route_progress_ready (data upd upd' : doc) :
  add_route_progress data upd = Some upd' ->
  upd' !! "ready_for_completion" = Some (VBool true)
  \/ upd' !! "ready_for_completion" = upd !! "ready_for_completion".
Proof.
  unfold add_route_progress. intros Hadd.
  destruct (has_field data "source" && has_field data "destination");
    [|right; congruence].
  destruct (calculate_route_progress _ _ _ _) as [p|]; [|done].
  cbn [mbind option_bind] in Hadd.
  destruct (95 <=? p); injection Hadd as <-.
  - left. by simplify_map_eq.
  - right. by rewrite lookup_insert_ne.
Qed.

Lemma add_route_progress_landed (data upd upd' : doc) (p : float) :
  has_field data "source" = true -> has_field data "destination" = true ->
  calculate_route_progress
    (field_number data "latitude") (field_number data "longitude")
    (field data "source") (field data "destination") = Some p ->
  (95 <=? p) = true ->
  add_route_progress data upd = Some upd' ->
  upd' !! "status" = Some (VStr "landed")
  /\ upd' !! "ready_for_completion" = Some (VBool true)
  /\ upd' !! "route_progress" = Some (VNum p).
Proof.
  unfold add_route_progress. intros -> -> -> Hp. cbn [andb mbind option_bind].
  rewrite Hp. intros [= <-]. by simplify_map_eq.
Qed.

(** What [update_flight] does to the store, by cases on its answer. *)
Lemma update_flight_outcome (now : Z) (data : doc) (db : store) :
  ((update_flight now data db).2 = db
   /\ ((update_flight now data db).1 = Unhandled
       \/ exists message, (update_flight now data db).1 = Error 400 message))
  \/ exists data1 s ts,
       check_numeric_fields data = inr data1
       /\ data1 !! "timestamp" = Some (VStr s)
       /\ fromisoformat (replace_Z s) = Some ts
       /\ tracking (update_flight now data db).2
          = tracking db ++ [stored_point now ts data1]
       /\ logs (update_flight now data db).2 = logs db
       /\ (((update_flight now data db).1 = Unhandled
            /\ flights (update_flight now data db).2 = flights db)
           \/ exists upd,
                add_route_progress (stored_point now ts data1)
                  (base_flight_update (stored_point now ts data1)) = Some upd
                /\ (update_flight now data db).1
                   = Updated (field (stored_point now ts data1) "flight_id") ts
                /\ flights (update_flight now data db).2
                   = update_one_set "flight_id"
                       (field (stored_point now ts data1) "flight_id") upd
                       (flights db)).
Proof.
  unfold update_flight.
  destruct (negb (forallb (has_field data) required_fields)); [by eauto|].
  destruct (check_numeric_fields data) as [message|data1] eqn:Echeck;
    [by eauto|].
  destruct (data1 !! "timestamp") as [[| | |s|]|] eqn:Ets; try by eauto.
  destruct (fromisoformat (replace_Z s)) as [ts|] eqn:Eparse; [|by eauto].
  right. exists data1, s, ts. fold (stored_point now ts data1).
  destruct (add_route_progress _ _) as [upd|] eqn:Eadd; cbn; eauto 10.
Qed.

End UpdateFlight.

Section Apply.
Context `{Runtime}.
Local Open Scope float_scope.

Lemma flight_update_sets_flight_id (data upd : doc) :
  add_route_progress data (base_flight_update data) = Some upd ->
  upd !! "flight_id" = Some (field data "flight_id").
Proof.
  intros Hadd. rewrite (add_route_progress_other _ _ _ _ Hadd) by done.
  apply base_flight_update_flight_id.
Qed.

(** Merging a flight update into a stored state never removes the
    completion mark. *)
Lemma flight_update_keeps_ready (data upd d : doc) :
  add_route_progress data (base_flight_update data) = Some upd ->
  d !! "ready_for_completion" = Some (VBool true) ->
  (upd ∪ d) !! "ready_for_completion" = Some (VBool true).
Proof.
  intros Hadd Hd.
  destruct (add_route_progress_ready _ _ _ Hadd) as [Hr|Hr].
  - by apply lookup_union_Some_l.
  - rewrite base_flight_update_not_ready in Hr.
    rewrite lookup_union_r by done. done.
Qed.

Lemma update_flight_keeps_ready (now : Z) (data : doc) (q : value) (db : store) :
  marked_ready q db -> marked_ready q (update_flight now data db).2.
Proof.
  intros (d & Hd & Hready).
  destruct (update_flight_outcome now data db)
    as [[-> _]|(data1 & s & ts & _ & _ & _ & _ & _ & [[_ Hfl]|(upd & Hadd & _ & Hfl)])].
  - by exists d.
  - exists d. unfold flight_state. by rewrite Hfl.
  - unfold marked_ready, flight_state. rewrite Hfl.
    apply (find_one_update_one_set_preserved "flight_id" _ upd
             (flight_update_sets_flight_id _ _ Hadd)
             (fun x => x !! "ready_for_completion" = Some (VBool true)) q _ d);
      [|done..].
    intros x. apply (flight_update_keeps_ready _ _ _ Hadd).
Qed.

End Apply.

Lemma marked_ready_from_lookup (q : value) (db : store) :
  flight_state q db ≫= (.!! "ready_for_completion") = Some (VBool true) ->
  marked_ready q db.
Proof.
  unfold marked_ready. destruct (flight_state q db) as [d|]; [|done].
  intros Hd. by exists d.
Qed.

Lemma track_points_from_existsb (q : value) (db : store) :
  existsb (by_flight_id q) (tracking db) = true -> track_points q db ≠ [].
Proof.
  unfold track_points, find. induction (tracking db) as [|x c IH]; [done|].
  cbn. destruct (by_flight_id q x); [done|]. exact IH.
Qed.

(** C1. A validated report that carries a source and a destination and
    whose computed route progress is at least 95 leaves a flight state
    whose status is ["landed"] and whose completion mark is set, whatever
    status the report carried. *)
Theorem landed_status_is_forced `{Runtime} (now : Z) (data : doc) (db db' : store)
    (id : value) (ts : Z) (latitude longitude p : float) :
  update_flight now data db = (Updated id ts, db') ->
  is_Some (data !! "source") -> is_Some (data !! "destination") ->
  field_float data "latitude" = Some latitude ->
  field_float data "longitude" = Some longitude ->
  calculate_route_progress latitude longitude
    (field data "source") (field data "destination") = Some p ->
  (95 <=? p)%float = true ->
  id = field data "flight_id"
  /\ exists d, flight_state id db' = Some d
               /\ d !! "status" = Some (VStr "landed")
               /\ d !! "ready_for_completion" = Some (VBool true).
Proof.
  intros Hupd Hsrc Hdst Hlat Hlon Hprog Hp.
  destruct (update_flight_outcome now data db)
    as [[_ [Hr|[m Hr]]]
       |(data1 & s & t & Hcheck & _ & _ & _ & _ & [[Hr _]|(upd & Hadd & Hr & Hfl)])];
    rewrite Hupd in *; cbn [fst snd] in *; try discriminate.
  injection Hr as -> ->.
  assert (Hother : forall k, k ∉ rewritten_fields ->
                             stored_point now t data1 !! k = data !! k).
  { intros k Hk. rewrite stored_point_other by done.
    by apply check_numeric_fields_other. }
  assert (Hnotin : forall k, k = "source"%string \/ k = "destination"%string
                             \/ k = "flight_id"%string -> k ∉ rewritten_fields).
  { intros k Hk. unfold rewritten_fields. rewrite !not_elem_of_cons, elem_of_nil.
    destruct Hk as [-> | [-> | ->]]; repeat split; (discriminate || tauto). }
  assert (Hid : field (stored_point now t data1) "flight_id" = field data "flight_id").
  { unfold field. rewrite Hother; auto. }
  destruct (check_numeric_fields_coordinates _ _ Hcheck)
    as (la & lo & Hla & Hlo & Hla1 & Hlo1).
  rewrite Hlat in Hla. rewrite Hlon in Hlo. injection Hla as <-. injection Hlo as <-.
  destruct (add_route_progress_landed (stored_point now t data1)
              (base_flight_update (stored_point now t data1)) upd p)
    as (Hstatus & Hready & _); [..|done|done|].
  - unfold has_field. rewrite Hother by auto. by apply bool_decide_eq_true.
  - unfold has_field. rewrite Hother by auto. by apply bool_decide_eq_true.
  - unfold field_number, field.
    rewrite (stored_point_coordinate _ _ _ "latitude") by done.
    rewrite (stored_point_coordinate _ _ _ "longitude") by done.
    rewrite Hla1, Hlo1, !Hother by auto. done.
  - split; [done|]. unfold flight_state, by_flight_id. rewrite Hfl.
    rewrite find_one_update_one_set by (by apply flight_update_sets_flight_id).
    eexists. split; [done|]. split; by apply lookup_union_Some_l.
Qed.

(** C8. Once the latest state of a flight carries the completion mark, no
    sequence of later reports, of this flight or of others, accepted or
    rejected, clears it: only archival, which removes the state, ends it. *)
Theorem completion_mark_is_kept `{Runtime} (q : value) (db : store)
    (reports : list (Z * doc)) :
  marked_ready q db -> marked_ready q (apply_reports reports db).
Proof.
  unfold apply_reports. revert db.
  induction reports as [|[now data] reports IH]; intros db Hready; [done|].
  cbn [foldl]. apply IH. by apply update_flight_keeps_ready.
Qed.

(** C10. The point that an accepted report appends to the history is the
    report itself with its five numeric fields converted to floats, its
    timestamp parsed and the reception time added: every other field,
    the status among them, is the submitted one, whatever the route
    progress did to the flight state. *)
Theorem history_point_is_the_report `{Runtime} (now : Z) (data : doc)
    (db db' : store) (id : value) (ts : Z) :
  update_flight now data db = (Updated id ts, db') ->
  exists point : doc,
    tracking db' = tracking db ++ [point]
    /\ point !! "status" = data !! "status"
    /\ (forall k, k ∉ rewritten_fields -> point !! k = data !! k)
    /\ (forall k, k ∈ ["latitude"; "longitude"; "altitude"; "speed"; "heading"]%string ->
                  point !! k = VNum <$> field_float data k)
    /\ point !! "timestamp" = Some (VDate ts)
    /\ point !! "received_at" = Some (VDate now).
Proof.
  intros Hupd.
  destruct (update_flight_outcome now data db)
    as [[_ [Hr|[m Hr]]]
       |(data1 & s & t & Hcheck & _ & _ & Htr & _ & [[Hr _]|(upd & _ & Hr & _)])];
    rewrite Hupd in *; cbn [fst snd] in *; try discriminate.
  injection Hr as -> ->.
  assert (Hother : forall k, k ∉ rewritten_fields ->
                             stored_point now t data1 !! k = data !! k).
  { intros k Hk. rewrite stored_point_other by done.
    by apply check_numeric_fields_other. }
  exists (stored_point now t data1). split; [done|]. split.
  { apply Hother. unfold rewritten_fields.
    rewrite !not_elem_of_cons, elem_of_nil. repeat split; (discriminate || tauto). }
  split; [done|]. split; [|apply stored_point_timestamp].
  intros k Hk. rewrite stored_point_coordinate.
  - destruct (check_numeric_fields_inr _ _ Hcheck)
      as (la & lo & al & sp & he & Hla & Hlo & Hal & Hsp & Hhe & ->).
    rewrite !elem_of_cons, elem_of_nil in Hk.
    destruct Hk as [->|[->|[->|[->|[->|[]]]]]];
      [rewrite Hla|rewrite Hlo|rewrite Hal|rewrite Hsp|rewrite Hhe];
      by simplify_map_eq.
  - intros ->. rewrite !elem_of_cons, elem_of_nil in Hk.
    repeat (destruct Hk as [Hk|Hk]; [discriminate|]). done.
  - intros ->. rewrite !elem_of_cons, elem_of_nil in Hk.
    repeat (destruct Hk as [Hk|Hk]; [discriminate|]). done.
Qed.

(** C5. Archiving a flight that has no point in the history answers 404
    and leaves the three collections as they are. *)
Theorem complete_flight_not_found (now : Z) (flight_id : string) (db : store) :
  track_points (VStr flight_id) db = [] ->
  complete_flight now flight_id db = (Error 404 "No data for this flight", db).
Proof.
  unfold track_points, complete_flight. intros ->.
  done.
Qed.

Lemma landed_status_is_forced_witness :
  calculate_route_progress (H := Reference.runtime) 33.9416 (-118.4085)
    (VStr "JFK") (VStr "LAX") = Some 100%float
  /\ exists d,
       flight_state (VStr "TST1")
         (update_flight (H := Reference.runtime) 0 report_at_lax empty_store).2 = Some d
       /\ d !! "status" = Some (VStr "landed")
       /\ d !! "ready_for_completion" = Some (VBool true).
Proof.
  split; [vm_compute; reflexivity|].
  apply (landed_status_is_forced (H := Reference.runtime) 0 report_at_lax empty_store
           (update_flight (H := Reference.runtime) 0 report_at_lax empty_store).2
           (VStr "TST1") 1705325400000 33.9416 (-118.4085) 100);
    try (vm_compute; reflexivity); vm_compute; eauto.
Defined.

Lemma completion_mark_is_kept_witness :
  marked_ready (VStr "TST1")
    (apply_reports (H := Reference.runtime) [(1, report_at_jfk)]
       (update_flight (H := Reference.runtime) 0 report_at_lax empty_store).2).
Proof.
  apply (completion_mark_is_kept (H := Reference.runtime)).
  apply marked_ready_from_lookup. vm_compute. reflexivity.
Defined.

Lemma history_point_is_the_report_witness :
  exists point : doc,
    tracking (update_flight (H := Reference.runtime) 0 report_at_lax empty_store).2
    = [] ++ [point]
    /\ point !! "status" = Some (VStr "cruising").
Proof.
  destruct (history_point_is_the_report (H := Reference.runtime) 0 report_at_lax
              empty_store
              (update_flight (H := Reference.runtime) 0 report_at_lax empty_store).2
              (VStr "TST1") 1705325400000) as (point & Htr & Hstatus & _).
  - vm_compute. reflexivity.
  - exists point. split; [exact Htr|]. rewrite Hstatus. vm_compute. reflexivity.
Defined.

Lemma complete_flight_not_found_witness :
  complete_flight 0 "TST1" empty_store
  = (Error 404 "No data for this flight", empty_store).
Proof.
  apply (complete_flight_not_found 0 "TST1" empty_store). reflexivity.
Defined.

(** ** Archival of one flight *)

Section Archive.

Lemma delete_one_key_split (p : doc -> bool) (c : list doc) (k : key) :
  k ∈ field_key "flight_id" <$> c ->
  k ∈ field_key "flight_id" <$> delete_one p c
  \/ exists d, d ∈ c /\ p d = true /\ field_key "flight_id" d = k.
Proof.
  induction c as [|x c IH]; cbn [delete_one]; [by rewrite fmap_nil, elem_of_nil|].
  rewrite fmap_cons, elem_of_cons.
  destruct (p x) eqn:Ex.
  - intros [->|Hk]; [right|left; done].
    exists x. split; [apply list_elem_of_here|done].
  - rewrite fmap_cons, elem_of_cons. intros [->|Hk]; [by left; left|].
    destruct (IH Hk) as [?|(d & ? & ? & ?)]; [by left; right|].
    right. exists d. split; [by apply list_elem_of_further|done].
Qed.

Lemma delete_one_keys_NoDup (p : doc -> bool) (c : list doc) :
  NoDup (field_key "flight_id" <$> c) ->
  NoDup (field_key "flight_id" <$> delete_one p c).
Proof.
  induction c as [|x c IH]; cbn [delete_one]; [done|].
  rewrite fmap_cons, NoDup_cons. intros [Hx Hc].
  destruct (p x); [done|].
  rewrite fmap_cons, NoDup_cons. split; [|auto].
  intros (d & Hd & Hin%elem_of_delete_one)%list_elem_of_fmap.
  apply Hx. apply list_elem_of_fmap. eauto.
Qed.

(** With one state per flight, deleting the state of a flight leaves none. *)
Lemma delete_one_removes_key (q : value) (c : list doc) :
  NoDup (field_key "flight_id" <$> c) ->
  key_of q ∉ field_key "flight_id" <$> delete_one (by_flight_id q) c.
Proof.
  induction c as [|x c IH]; cbn [delete_one];
    [intros _; rewrite fmap_nil; apply not_elem_of_nil|].
  rewrite fmap_cons, NoDup_cons. intros [Hx Hc].
  destruct (by_flight_id q x) eqn:Ex.
  - apply matches_true in Ex. by rewrite <- Ex.
  - apply matches_false in Ex. rewrite fmap_cons, not_elem_of_cons. split; [done|auto].
Qed.

Lemma delete_one_Forall (P : doc -> Prop) (p : doc -> bool) (c : list doc) :
  Forall P c -> Forall P (delete_one p c).
Proof.
  rewrite !Forall_forall. intros Hc d Hd%elem_of_delete_one. auto.
Qed.

Lemma delete_many_Forall (P : doc -> Prop) (p : doc -> bool) (c : list doc) :
  Forall P c -> Forall P (delete_many p c).
Proof.
  rewrite !Forall_forall. intros Hc d [Hd _]%elem_of_delete_many. auto.
Qed.

Lemma find_Forall (P : doc -> Prop) (p : doc -> bool) (c : list doc) :
  Forall P c -> Forall P (find p c).
Proof.
  rewrite !Forall_forall. intros Hc d [Hd _]%elem_of_find. auto.
Qed.

(** The first and the last point of a non-empty well-formed track are
    dated, so its duration is defined. *)
Lemma track_ends_dated (path_data : list doc) :
  Forall point_ok path_data -> path_data ≠ [] ->
  exists t0 t1,
    head path_data ≫= (.!! "timestamp") = Some (VDate t0)
    /\ last path_data ≫= (.!! "timestamp") = Some (VDate t1).
Proof.
  intros Hok Hne.
  destruct (head path_data) as [first|] eqn:Ehead;
    [|by apply head_None in Ehead].
  destruct (last path_data) as [final|] eqn:Elast;
    [|by apply last_None in Elast].
  rewrite Forall_forall in Hok.
  destruct (Hok first) as [[t0 Ht0] _]; [by eapply head_Some_elem_of|].
  destruct (Hok final) as [[t1 Ht1] _]; [by eapply last_Some_elem_of|].
  exists t0, t1. cbn. by rewrite Ht0, Ht1.
Qed.

Lemma track_duration_defined (path_data : list doc) :
  Forall point_ok path_data -> path_data ≠ [] ->
  is_Some (track_duration path_data).
Proof.
  intros Hok Hne. destruct (track_ends_dated _ Hok Hne) as (t0 & t1 & E0 & E1).
  unfold track_duration. rewrite E0, E1. cbn. eauto.
Qed.

(** On a store with well-formed points, archiving a flight that has points
    succeeds, and this is what it writes. *)
Lemma complete_flight_succeeds (now : Z) (flight_id : string) (db : store) :
  Forall point_ok (tracking db) ->
  track_points (VStr flight_id) db ≠ [] ->
  exists e,
    complete_flight now flight_id db
    = (Completed flight_id (length (track_points (VStr flight_id) db))
         (log_total_duration_minutes e),
       {| flights := delete_one (by_flight_id (VStr flight_id)) (flights db);
          tracking := delete_many (by_flight_id (VStr flight_id)) (tracking db);
          logs := logs db ++ [e] |})
    /\ log_flight_id e = VStr flight_id
    /\ log_path e = sort_by_timestamp (track_points (VStr flight_id) db)
    /\ log_flight_details e = flight_state (VStr flight_id) db
    /\ log_total_tracking_points e = length (track_points (VStr flight_id) db)
    /\ log_auto_completed e = None.
Proof.
  intros Hok Hne. unfold complete_flight, track_points in *.
  set (path_data := sort_by_timestamp (find (by_flight_id (VStr flight_id)) (tracking db))).
  assert (Hpne : path_data ≠ []) by (unfold path_data; by rewrite sort_by_timestamp_nil).
  assert (Hpok : Forall point_ok path_data)
    by (by apply sort_by_timestamp_Forall, find_Forall).
  rewrite bool_decide_eq_false_2 by done.
  destruct (track_ends_dated _ Hpok Hpne) as (t0 & t1 & E0 & E1).
  destruct (track_duration_defined _ Hpok Hpne) as [dur Edur].
  rewrite E0, E1, Edur. cbn [mbind option_bind fmap option_fmap option_map].
  rewrite <- (sort_by_timestamp_length (find _ _)). fold path_data.
  destruct (1 <? length path_data)%nat; cbn [mbind option_bind];
    (eexists; split; [reflexivity|done]).
Qed.

(** The three outcomes of [complete_flight]. *)
Lemma complete_flight_outcome (now : Z) (flight_id : string) (db : store) :
  (complete_flight now flight_id db).2 = db
  \/ exists e,
       (complete_flight now flight_id db).2
       = {| flights := delete_one (by_flight_id (VStr flight_id)) (flights db);
            tracking := delete_many (by_flight_id (VStr flight_id)) (tracking db);
            logs := logs db ++ [e] |}
       /\ log_flight_id e = VStr flight_id.
Proof.
  unfold complete_flight.
  destruct (bool_decide _); [by left|].
  match goal with |- context [match ?o with Some _ => _ | None => _ end] =>
    destruct o as [e|] eqn:Ee end; [|by left].
  right. exists e. split; [done|].
  destruct (head _ ≫= _); [|discriminate Ee].
  destruct (last _ ≫= _); [|discriminate Ee].
  cbn [mbind option_bind] in Ee.
  destruct (if (1 <? _)%nat then _ else _); [|discriminate Ee].
  by injection Ee as <-.
Qed.

End Archive.

(** ** The sweep *)

Section Sweep.
Context `{Runtime}.

(** What one turn of the sweep does when no exception leaves it. *)
Lemma auto_complete_flight_outcome (now : Z) (flight : doc) (db : store)
    (r : bool * store) :
  auto_complete_flight now flight db = Some r ->
  exists id,
    flight !! "flight_id" = Some id
    /\ ((track_points id db = [] /\ r = (false, db))
        \/ (track_points id db ≠ []
            /\ exists e,
                 r = (true,
                      {| flights := delete_one (by_flight_id id) (flights db);
                         tracking := delete_many (by_flight_id id) (tracking db);
                         logs := logs db ++ [e] |})
                 /\ log_flight_id e = id
                 /\ is_Some (log_auto_completed e)
                 /\ log_path e = sort_by_timestamp (track_points id db)
                 /\ log_total_tracking_points e = length (track_points id db))).
Proof.
  unfold auto_complete_flight, track_points.
  destruct (flight !! "flight_id") as [id|]; [|done]. cbn [mbind option_bind].
  intros Hr. exists id. split; [done|].
  destruct (bool_decide _) eqn:Eempty.
  - left. apply bool_decide_eq_true in Eempty.
    apply (proj1 (sort_by_timestamp_nil _)) in Eempty.
    split; [done|]. by injection Hr as <-.
  - right. apply bool_decide_eq_false in Eempty.
    rewrite sort_by_timestamp_nil in Eempty. split; [done|].
    destruct (head _ ≫= _); [|discriminate Hr].
    destruct (last _ ≫= _); [|discriminate Hr].
    cbn [mbind option_bind] in Hr.
    destruct (if (1 <? _)%nat then _ else _); [|discriminate Hr].
    cbn [mbind option_bind] in Hr.
    destruct (calculate_flight_distance _); [|discriminate Hr].
    cbn [mbind option_bind] in Hr. injection Hr as <-.
    eexists. split; [reflexivity|]. cbn.
    rewrite sort_by_timestamp_length. eauto.
Qed.


Lemma advances_refl (db : store) : advances db db.
Proof. split; auto. Qed.

Lemma advances_trans (db1 db2 db3 : store) :
  advances db1 db2 -> advances db2 db3 -> advances db1 db3.
Proof.
  intros [Ha1 Hb1] [Ha2 Hb2]. split; [auto|].
  intros q Hq. destruct (Hb1 q Hq) as [?|?]; auto.
Qed.

(** Removing the state of one flight while adding an archive entry for it. *)
Lemma advances_archive (db : store) (id : value) (e : log_entry) (tr : list doc) :
  log_flight_id e = id ->
  advances db {| flights := delete_one (by_flight_id id) (flights db);
                 tracking := tr;
                 logs := logs db ++ [e] |}.
Proof.
  intros He. unfold advances, archived, active. cbn [flights logs]. split.
  - intros q Hq. rewrite fmap_app, elem_of_app. by left.
  - intros q Hq.
    destruct (delete_one_key_split (by_flight_id id) _ _ Hq)
      as [?|(d & _ & Hd%matches_true & Hk)]; [by left|].
    right. rewrite fmap_app, elem_of_app. right.
    cbn. rewrite He, <- Hk, Hd. apply list_elem_of_here.
Qed.

Lemma auto_complete_flight_advances (now : Z) (flight : doc) (db db' : store)
    (archived : bool) :
  auto_complete_flight now flight db = Some (archived, db') -> advances db db'.
Proof.
  intros (id & _ & [[_ [= _ ->]]|(_ & e & [= _ ->] & He & _)])%auto_complete_flight_outcome.
  - apply advances_refl.
  - by apply advances_archive.
Qed.

Lemma auto_complete_loop_advances (now : Z) (landed_flights : list doc) (db : store)
    (completed_count : nat) :
  advances db (auto_complete_loop now landed_flights db completed_count).2.
Proof.
  revert db completed_count.
  induction landed_flights as [|flight rest IH]; intros db n; cbn [auto_complete_loop].
  - apply advances_refl.
  - destruct (auto_complete_flight now flight db) as [[a db1]|] eqn:E.
    + eapply advances_trans; [by eapply auto_complete_flight_advances|apply IH].
    + apply advances_refl.
Qed.

Lemma update_flight_advances (now : Z) (data : doc) (db : store) :
  advances db (update_flight now data db).2
  /\ (forall q, active q db -> active q (update_flight now data db).2).
Proof.
  assert (Hact : forall q, active q db -> active q (update_flight now data db).2).
  { intros q Hq. unfold active in *.
    destruct (update_flight_outcome now data db)
      as [[-> _]|(data1 & s & ts & _ & _ & _ & _ & _
                  & [[_ ->]|(upd & Hadd & _ & ->)])]; [done..|].
    apply update_one_set_key_elem; [|done].
    by apply flight_update_sets_flight_id. }
  split; [|done]. split; [|auto].
  intros q. unfold archived.
  destruct (update_flight_outcome now data db)
    as [[-> _]|(data1 & s & ts & _ & _ & _ & _ & -> & _)]; done.
Qed.

Lemma complete_flight_advances (now : Z) (flight_id : string) (db : store) :
  advances db (complete_flight now flight_id db).2.
Proof.
  destruct (complete_flight_outcome now flight_id db) as [->|(e & -> & He)].
  - apply advances_refl.
  - by apply advances_archive.
Qed.

Lemma handle_advances (r : request) (db : store) : advances db (handle r db).2.
Proof.
  destruct r as [now data|now flight_id|now]; cbn [handle].
  - apply update_flight_advances.
  - apply complete_flight_advances.
  - apply auto_complete_loop_advances.
Qed.

(** An accepted report leaves its flight active. *)
Lemma update_flight_activates (now : Z) (data : doc) (db : store) (id : value) (ts : Z) :
  (update_flight now data db).1 = Updated id ts ->
  active id (update_flight now data db).2.
Proof.
  intros Hr. unfold active.
  destruct (update_flight_outcome now data db)
    as [[_ [Hu|[m Hu]]]
       |(data1 & s & t & _ & _ & _ & _ & _ & [[Hu _]|(upd & Hadd & Hu & ->)])];
    rewrite Hr in Hu; try discriminate Hu.
  injection Hu as -> ->.
  apply update_one_set_new_key. by apply flight_update_sets_flight_id.
Qed.

End Sweep.

(** ** Reachable stores *)

Section Reachable.
Context `{Runtime}.

Lemma store_ok_archive (db : store) (id : value) (e : log_entry) :
  store_ok db ->
  store_ok {| flights := delete_one (by_flight_id id) (flights db);
              tracking := delete_many (by_flight_id id) (tracking db);
              logs := logs db ++ [e] |}.
Proof.
  intros (Hnd & Hid & Hpts). split; [|split]; cbn [flights tracking].
  - by apply delete_one_keys_NoDup.
  - by apply delete_one_Forall.
  - by apply delete_many_Forall.
Qed.

Lemma update_flight_store_ok (now : Z) (data : doc) (db : store) :
  store_ok db -> store_ok (update_flight now data db).2.
Proof.
  intros (Hnd & Hid & Hpts).
  destruct (update_flight_outcome now data db)
    as [[-> _]|(data1 & s & ts & Hcheck & _ & _ & Htr & _ & Hfl)]; [done|].
  assert (Hpts' : Forall point_ok (tracking (update_flight now data db).2)).
  { rewrite Htr. apply Forall_app. split; [done|]. apply Forall_singleton.
    destruct (check_numeric_fields_coordinates _ _ Hcheck)
      as (la & lo & _ & _ & Hla & Hlo).
    split; [|split].
    - eexists. apply stored_point_timestamp.
    - exists la. by rewrite stored_point_coordinate.
    - exists lo. by rewrite stored_point_coordinate. }
  unfold store_ok.
  destruct Hfl as [[_ Hfl]|(upd & Hadd & _ & Hfl)]; rewrite Hfl.
  - done.
  - pose proof (flight_update_sets_flight_id _ _ Hadd) as Hq.
    split; [|split; [|done]].
    + by apply update_one_set_NoDup.
    + apply update_one_set_Forall; [..|done].
      * intros x _. exists (field (stored_point now ts data1) "flight_id").
        by apply lookup_union_Some_l.
      * exists (field (stored_point now ts data1) "flight_id").
        by apply lookup_union_Some_l.
Qed.

Lemma complete_flight_store_ok (now : Z) (flight_id : string) (db : store) :
  store_ok db -> store_ok (complete_flight now flight_id db).2.
Proof.
  intros Hok. destruct (complete_flight_outcome now flight_id db) as [->|(e & -> & _)].
  - done.
  - by apply store_ok_archive.
Qed.

Lemma auto_complete_loop_store_ok (now : Z) (landed_flights : list doc) (db : store)
    (completed_count : nat) :
  store_ok db -> store_ok (auto_complete_loop now landed_flights db completed_count).2.
Proof.
  revert db completed_count.
  induction landed_flights as [|flight rest IH]; intros db n Hok;
    cbn [auto_complete_loop]; [done|].
  destruct (auto_complete_flight now flight db) as [[a db1]|] eqn:E; [|done].
  apply IH.
  apply auto_complete_flight_outcome in E
    as (id & _ & [[_ [= _ ->]]|(_ & e & [= _ ->] & _)]); [done|].
  by apply store_ok_archive.
Qed.

Lemma handle_store_ok (r : request) (db : store) :
  store_ok db -> store_ok (handle r db).2.
Proof.
  destruct r as [now data|now flight_id|now]; cbn [handle].
  - apply update_flight_store_ok.
  - apply complete_flight_store_ok.
  - apply auto_complete_loop_store_ok.
Qed.

Lemma empty_store_ok : store_ok empty_store.
Proof. split; [|split]; cbn; constructor. Qed.

Lemma reachable_store_ok (db : store) : reachable db -> store_ok db.
Proof.
  induction 1 as [|r db _ IH]; [apply empty_store_ok|by apply handle_store_ok].
Qed.

Lemma reachable_foldl (requests : list request) (db : store) :
  reachable db -> reachable (foldl (fun db r => (handle r db).2) db requests).
Proof.
  revert db. induction requests as [|r requests IH]; intros db Hdb; [done|].
  cbn [foldl]. apply IH. by constructor.
Qed.

Lemma run_reachable (requests : list request) : reachable (run requests).
Proof. apply reachable_foldl. constructor. Qed.

Lemma advances_foldl (requests : list request) (db : store) :
  advances db (foldl (fun db r => (handle r db).2) db requests).
Proof.
  revert db. induction requests as [|r requests IH]; intros db; cbn [foldl].
  - apply advances_refl.
  - eapply advances_trans; [apply handle_advances|apply IH].
Qed.

End Reachable.

(** C6, as amended. In every reachable store, archiving a flight that has
    at least one point succeeds; afterwards the flight has no active state
    and no point in the history, and the archive holds exactly one entry
    more for it than before (so exactly one when the flight was never
    archived before). *)
Theorem archive_moves_the_flight `{Runtime} (now : Z) (flight_id : string)
    (db : store) :
  reachable db ->
  track_points (VStr flight_id) db ≠ [] ->
  exists (n : nat) (duration : float) (db' : store) (e : log_entry),
    complete_flight now flight_id db = (Completed flight_id n duration, db')
    /\ ~ active (VStr flight_id) db'
    /\ flight_state (VStr flight_id) db' = None
    /\ track_points (VStr flight_id) db' = []
    /\ logs db' = logs db ++ [e]
    /\ log_flight_id e = VStr flight_id
    /\ log_entries (VStr flight_id) db' = log_entries (VStr flight_id) db ++ [e].
Proof.
  intros (Hnd & _ & Hpts)%reachable_store_ok Hne.
  destruct (complete_flight_succeeds now flight_id db Hpts Hne)
    as (e & Hc & He & _).
  eexists _, _, _, e. split; [exact Hc|].
  assert (Hact : key_of (VStr flight_id)
                 ∉ field_key "flight_id"
                   <$> delete_one (by_flight_id (VStr flight_id)) (flights db))
    by (by apply delete_one_removes_key).
  split; [exact Hact|]. split; [|split; [|split; [|split]]].
  - unfold flight_state. cbn [flights]. apply find_one_None.
    intros d Hd. apply matches_false. intros Hk. apply Hact.
    rewrite <- Hk. by apply list_elem_of_fmap_2.
  - unfold track_points. cbn [tracking]. apply find_delete_many.
  - done.
  - done.
  - unfold log_entries. cbn [logs]. rewrite List.filter_app. cbn.
    rewrite He. by rewrite bool_decide_eq_true_2.
Qed.

Lemma archive_moves_the_flight_witness :
  exists (n : nat) (duration : float) (db' : store) (e : log_entry),
    complete_flight 3 "TST1" (run (H := Reference.runtime) reported_again)
    = (Completed "TST1" n duration, db')
    /\ ~ active (VStr "TST1") db'
    /\ flight_state (VStr "TST1") db' = None
    /\ track_points (VStr "TST1") db' = []
    /\ logs db' = logs (run (H := Reference.runtime) reported_again) ++ [e]
    /\ log_flight_id e = VStr "TST1"
    /\ log_entries (VStr "TST1") db'
       = log_entries (VStr "TST1") (run (H := Reference.runtime) reported_again) ++ [e].
Proof.
  apply (archive_moves_the_flight (H := Reference.runtime) 3 "TST1"
           (run (H := Reference.runtime) reported_again)).
  - apply run_reachable.
  - apply track_points_from_existsb. vm_compute. reflexivity.
Defined.

(** C6 as stated fails: a flight that is reported, archived, reported
    again and archived again has two entries in the archive. *)
Lemma archived_twice_is_logged_twice :
  exists (n : nat) (duration : float) (db' : store),
    complete_flight 3 "TST1" (run (H := Reference.runtime) reported_again)
    = (Completed "TST1" n duration, db')
    /\ length (log_entries (VStr "TST1") db') = 2%nat.
Proof.
  eexists _, _, _. split; vm_compute; reflexivity.
Qed.

(** C2, as amended. A flight whose report was accepted is, after any
    further requests, in the active collection or in the archive (never in
    neither); nothing removes an archive entry; and a flight leaves the
    active collection only by an archival request, which puts it into
    the archive. (It is in both once it is reported again after an
    archival: the old entry stays and a new state is created.) *)
Theorem reported_flight_stays_tracked `{Runtime} (before after : list request)
    (now : Z) (data : doc) (id : value) (ts : Z) :
  (update_flight now data (run before)).1 = Updated id ts ->
  (active id (run (before ++ PostUpdate now data :: after))
   \/ archived id (run (before ++ PostUpdate now data :: after)))
  /\ forall (r : request) (db : store),
       (archived id db -> archived id (handle r db).2)
       /\ (active id db -> ~ active id (handle r db).2 ->
           is_archival r /\ archived id (handle r db).2).
Proof.
  intros Hr. split.
  - unfold run. rewrite foldl_app. cbn [foldl handle].
    apply (advances_foldl after). by apply (update_flight_activates _ _ _ _ ts).
  - intros r db. destruct (handle_advances r db) as [Harch Hact].
    split; [apply Harch|]. intros Hin Hout.
    split; [|by destruct (Hact id Hin)].
    destruct r as [now' data'| |]; cbn; [|done..].
    destruct Hout. by apply update_flight_advances.
Qed.

Lemma reported_flight_stays_tracked_witness :
  (active (VStr "TST1")
     (run (H := Reference.runtime)
        ([] ++ PostUpdate 0 report_at_jfk :: [PostComplete 1 "TST1"]))
   \/ archived (VStr "TST1")
        (run (H := Reference.runtime)
           ([] ++ PostUpdate 0 report_at_jfk :: [PostComplete 1 "TST1"])))
  /\ forall (r : request) (db : store),
       (archived (VStr "TST1") db
        -> archived (VStr "TST1") (handle (H := Reference.runtime) r db).2)
       /\ (active (VStr "TST1") db
           -> ~ active (VStr "TST1") (handle (H := Reference.runtime) r db).2
           -> is_archival r
              /\ archived (VStr "TST1") (handle (H := Reference.runtime) r db).2).
Proof.
  apply (reported_flight_stays_tracked (H := Reference.runtime) []
           [PostComplete 1 "TST1"] 0 report_at_jfk (VStr "TST1") 1705305600000).
  vm_compute. reflexivity.
Defined.

(** C2 as stated fails: after TST1 is reported, archived and reported
    again it is both in the active collection and in the archive. *)
Lemma reported_again_is_active_and_archived :
  active (VStr "TST1") (run (H := Reference.runtime) reported_again)
  /\ archived (VStr "TST1") (run (H := Reference.runtime) reported_again).
Proof.
  unfold active, archived.
  split; apply (bool_decide_unpack _); vm_compute; exact I.
Qed.

(** ** The sweep in closed form *)

Section SweepClosedForm.
Context `{Runtime}.






Lemma existsb_find_nil (p : doc -> bool) (c : list doc) :
  existsb p c = negb (bool_decide (find p c = [])).
Proof.
  unfold find. induction c as [|x c IH]; [done|]. cbn.
  destruct (p x); [done|]. by rewrite IH.
Qed.

Lemma has_points_track_points (db : store) (f : doc) :
  has_points db f = negb (bool_decide (track_points (field f "flight_id") db = [])).
Proof. apply existsb_find_nil. Qed.

Lemma has_points_true (db : store) (f : doc) :
  has_points db f = true <-> track_points (field f "flight_id") db ≠ [].
Proof.
  rewrite has_points_track_points, negb_true_iff. apply bool_decide_eq_false.
Qed.


(** With one state per flight, two states of one flight are one state. *)
Lemma same_flight_unique (c : list doc) (f d : doc) :
  NoDup (field_key "flight_id" <$> c) -> f ∈ c -> d ∈ c ->
  same_flight f d = true -> f = d.
Proof.
  intros Hnd Hf Hd Hsame%matches_true.
  apply list_elem_of_lookup in Hf as [i Hi]. apply list_elem_of_lookup in Hd as [j Hj].
  assert (i = j) as ->; [|congruence].
  eapply NoDup_lookup; [exact Hnd|..].
  - rewrite list_lookup_fmap, Hi. reflexivity.
  - rewrite list_lookup_fmap, Hj. cbn. f_equal. exact Hsame.
Qed.



(** Deleting the points of one flight leaves the points of a flight with
    another key. *)
Lemma track_points_delete_other (id id' : value) (db : store) (fl : list doc)
    (lg : list log_entry) :
  key_of id ≠ key_of id' ->
  track_points id' {| flights := fl;
                      tracking := delete_many (by_flight_id id) (tracking db);
                      logs := lg |}
  = track_points id' db.
Proof.
  intros Hk. unfold track_points. cbn [tracking].
  apply find_delete_many_other. intros d _ Hd%matches_true.
  apply matches_false. congruence.
Qed.

End SweepClosedForm.

Section SweepLoop.
Context `{Runtime}.


End SweepLoop.

Section SweepSelection.
Local Open Scope float_scope.

(** What the filter of the sweep selects. *)
Lemma landed_filter_true (f : doc) :
  landed_filter f = true
  <-> f !! "status" = Some (VStr "landed")
      \/ f !! "ready_for_completion" = Some (VBool true)
      \/ exists p, f !! "route_progress" = Some (VNum p) /\ (95 <=? p) = true.
Proof.
  unfold landed_filter. rewrite !orb_true_iff, matches_str, matches_bool.
  unfold matches_gte. split.
  - intros [[?|?]|Hp]; [by left|by right; left|right; right].
    destruct (f !! "route_progress") as [[| |p| |]|]; try discriminate Hp. eauto.
  - intros [?|[?|(p & -> & ?)]]; auto.
Qed.

End SweepSelection.



(** ** Validation *)

Section Validation.
Context `{Runtime}.
Local Open Scope float_scope.

Lemma forallb_false_elem (p : string -> bool) (l : list string) :
  forallb p l = false -> exists x, x ∈ l /\ p x = false.
Proof.
  induction l as [|x l IH]; [done|]. cbn. destruct (p x) eqn:Ex; cbn.
  - intros (y & Hy & Hp)%IH. exists y. split; [by apply list_elem_of_further|done].
  - intros _. exists x. split; [apply list_elem_of_here|done].
Qed.

(** The rejections of the [try] block of [update_flight]. *)
Lemma check_numeric_fields_inl (data : doc) (message : string) :
  check_numeric_fields data = inl message ->
  (message = "Invalid data types for numeric fields"%string
   /\ exists f, f ∈ numeric_fields /\ field_float data f = None)
  \/ (message = "Latitude must be between -90 and 90"%string
      /\ exists x, field_float data "latitude" = Some x
                   /\ (-90 <=? x) && (x <=? 90) = false)
  \/ (message = "Longitude must be between -180 and 180"%string
      /\ exists x, field_float data "longitude" = Some x
                   /\ (-180 <=? x) && (x <=? 180) = false)
  \/ (message = "Altitude must be positive"%string
      /\ exists x, field_float data "altitude" = Some x /\ (x <? 0) = true)
  \/ (message = "Speed must be positive"%string
      /\ exists x, field_float data "speed" = Some x /\ (x <? 0) = true)
  \/ (message = "Heading must be between 0 and 360"%string
      /\ exists x, field_float data "heading" = Some x
                   /\ (0 <=? x) && (x <=? 360) = false).
Proof.
  unfold check_numeric_fields.
  assert (Hin : forall f, f ∈ numeric_fields
                          <-> f = "latitude"%string \/ f = "longitude"%string
                              \/ f = "altitude"%string \/ f = "speed"%string
                              \/ f = "heading"%string).
  { intros f. unfold numeric_fields. rewrite !elem_of_cons, elem_of_nil. tauto. }
  destruct (field_float data "latitude") as [latitude|] eqn:E1;
    [|intros [= <-]; left; split; [done|]; exists "latitude"%string;
      rewrite Hin; auto].
  destruct (field_float data "longitude") as [longitude|] eqn:E2;
    [|intros [= <-]; left; split; [done|]; exists "longitude"%string;
      rewrite Hin; auto].
  destruct (field_float data "altitude") as [altitude|] eqn:E3;
    [|intros [= <-]; left; split; [done|]; exists "altitude"%string;
      rewrite Hin; auto 6].
  destruct (field_float data "speed") as [speed|] eqn:E4;
    [|intros [= <-]; left; split; [done|]; exists "speed"%string;
      rewrite Hin; auto 6].
  destruct (field_float data "heading") as [heading|] eqn:E5;
    [|intros [= <-]; left; split; [done|]; exists "heading"%string;
      rewrite Hin; auto 6].
  cbn [mbind option_bind].
  destruct ((-90 <=? latitude) && (latitude <=? 90)) eqn:C1; cbn [negb];
    [|intros [= <-]; right; left; eauto].
  destruct ((-180 <=? longitude) && (longitude <=? 180)) eqn:C2; cbn [negb];
    [|intros [= <-]; right; right; left; eauto].
  destruct (altitude <? 0) eqn:C3;
    [intros [= <-]; right; right; right; left; eauto|].
  destruct (speed <? 0) eqn:C4;
    [intros [= <-]; right; right; right; right; left; eauto|].
  destruct ((0 <=? heading) && (heading <=? 360)) eqn:C5; cbn [negb];
    [done|intros [= <-]; right; right; right; right; right; eauto].
Qed.

(** The conversions leave the fields that are not numeric alone. *)
Lemma check_numeric_fields_keeps (data data1 : doc) (k : string) :
  check_numeric_fields data = inr data1 ->
  k ∉ numeric_fields -> data1 !! k = data !! k.
Proof.
  intros (latitude & longitude & altitude & speed & heading
          & _ & _ & _ & _ & _ & ->)%check_numeric_fields_inr Hk.
  unfold numeric_fields in Hk. rewrite !not_elem_of_cons in Hk.
  destruct Hk as (? & ? & ? & ? & ? & _).
  by rewrite !lookup_insert_ne.
Qed.

End Validation.

(** C9, as amended. Every rejection that the validation of a report
    produces is a 400 error that leaves the store as it was. When a
    numeric field is out of its range the message names that field, and a
    timestamp string that does not parse is reported as an invalid
    timestamp; when a required field is missing, or a numeric field does
    not convert to a number, the message is a fixed one that names no
    field. *)
Theorem rejections_are_client_errors `{Runtime} (now : Z) (data : doc) (db : store)
    (code : Z) (message : string) :
  (update_flight now data db).1 = Error code message ->
  code = 400
  /\ (update_flight now data db).2 = db
  /\ ((message = "Missing one or more required fields"%string
       /\ names_no_field message
       /\ exists f, f ∈ required_fields /\ data !! f = None)
      \/ (message = "Invalid data types for numeric fields"%string
          /\ names_no_field message
          /\ exists f, f ∈ numeric_fields /\ field_float data f = None)
      \/ (message = "Latitude must be between -90 and 90"%string
          /\ names_field message "latitude" = true
          /\ exists x, field_float data "latitude" = Some x
                       /\ ((-90 <=? x) && (x <=? 90))%float = false)
      \/ (message = "Longitude must be between -180 and 180"%string
          /\ names_field message "longitude" = true
          /\ exists x, field_float data "longitude" = Some x
                       /\ ((-180 <=? x) && (x <=? 180))%float = false)
      \/ (message = "Altitude must be positive"%string
          /\ names_field message "altitude" = true
          /\ exists x, field_float data "altitude" = Some x /\ (x <? 0)%float = true)
      \/ (message = "Speed must be positive"%string
          /\ names_field message "speed" = true
          /\ exists x, field_float data "speed" = Some x /\ (x <? 0)%float = true)
      \/ (message = "Heading must be between 0 and 360"%string
          /\ names_field message "heading" = true
          /\ exists x, field_float data "heading" = Some x
                       /\ ((0 <=? x) && (x <=? 360))%float = false)
      \/ (message = "Invalid timestamp format. Use ISO format"%string
          /\ names_field message "timestamp" = true
          /\ exists s, data !! "timestamp" = Some (VStr s)
                       /\ fromisoformat (replace_Z s) = None)).
Proof.
  unfold update_flight.
  destruct (forallb (has_field data) required_fields) eqn:Ereq; cbn [negb].
  - destruct (check_numeric_fields data) as [m|data1] eqn:Echeck.
    + intros [= <- <-]. split; [done|]. split; [done|].
      destruct (check_numeric_fields_inl _ _ Echeck)
        as [[-> ?]|[[-> ?]|[[-> ?]|[[-> ?]|[[-> ?]|[-> ?]]]]]];
        [right; left|do 2 right; left|do 3 right; left|do 4 right; left
        |do 5 right; left|do 6 right; left];
        (split; [done|]); (split; [vm_compute; reflexivity|done]).
    + destruct (data1 !! "timestamp") as [[| | |s|]|] eqn:Ets; try discriminate.
      destruct (fromisoformat (replace_Z s)) as [ts|] eqn:Eparse.
      * destruct (add_route_progress _ _); discriminate.
      * intros [= <- <-]. split; [done|]. split; [done|].
        do 7 right. split; [done|]. split; [vm_compute; reflexivity|].
        exists s. split; [|done].
        rewrite <- (check_numeric_fields_keeps _ _ "timestamp" Echeck); [done|].
        unfold numeric_fields. rewrite !not_elem_of_cons, elem_of_nil.
        repeat split; (discriminate || tauto).
  - intros [= <- <-]. split; [done|]. split; [done|]. left.
    split; [done|]. split; [vm_compute; reflexivity|].
    destruct (forallb_false_elem _ _ Ereq) as (f & Hf & Hnone).
    exists f. split; [done|]. unfold has_field in Hnone.
    apply bool_decide_eq_false in Hnone. by apply eq_None_not_Some.
Qed.

Lemma rejections_are_client_errors_witness :
  (update_flight (H := Reference.runtime) 0 report_off_the_globe empty_store).1
  = Error 400 "Latitude must be between -90 and 90"
  /\ (update_flight (H := Reference.runtime) 0 report_off_the_globe empty_store).2
     = empty_store.
Proof.
  destruct (rejections_are_client_errors (H := Reference.runtime) 0
              report_off_the_globe empty_store 400
              "Latitude must be between -90 and 90") as (_ & Hdb & _).
  - vm_compute. reflexivity.
  - split; [vm_compute; reflexivity|exact Hdb].
Defined.

(** C9 as stated fails: a report without its speed is rejected with a
    message that names neither the speed nor any other field. *)
Lemma missing_field_is_not_named :
  report_without_speed !! "speed" = None
  /\ (update_flight (H := Reference.runtime) 0 report_without_speed empty_store).1
     = Error 400 "Missing one or more required fields"
  /\ names_field "Missing one or more required fields" "speed" = false
  /\ names_no_field "Missing one or more required fields".
Proof. repeat split; vm_compute; reflexivity. Qed.

(** ** Floats *)

Section FloatFacts.
Local Open Scope float_scope.

Lemma ltb_leb (x y : float) : (x <? y) = true -> (x <=? y) = true.
Proof.
  rewrite ltb_spec, leb_spec. unfold SFltb, SFleb.
  by destruct (SFcompare _ _) as [[]|].
Qed.

(** The clamp of the source lands in [[0, 100]] whatever it is given, a
    NaN included. *)
Lemma clamp_range (x : float) :
  (0 <=? py_max 0 (py_min 100 x)) = true
  /\ (py_max 0 (py_min 100 x) <=? 100) = true.
Proof.
  unfold py_max, py_min.
  destruct (x <? 100) eqn:Ex.
  - destruct (0 <? x) eqn:E0.
    + split; by apply ltb_leb.
    + split; reflexivity.
  - change (0 <? 100) with true. cbn. split; reflexivity.
Qed.

Lemma digits2_pos_bound (m : positive) :
  (Zpos m < 2 ^ Zpos (digits2_pos m))%Z.
Proof.
  induction m as [m IH|m IH|]; cbn [digits2_pos].
  - rewrite Pos2Z.inj_succ, Z.pow_succ_r by lia. lia.
  - rewrite Pos2Z.inj_succ, Z.pow_succ_r by lia. lia.
  - reflexivity.
Qed.

(** A valid binary64 mantissa has at most 53 bits. *)
Lemma valid_mantissa_bound (m : positive) (e : Z) :
  bounded prec emax m e = true -> (Zpos m < 2 ^ 53)%Z.
Proof.
  unfold bounded, canonical_mantissa, fexp.
  intros [Hc%Z.eqb_eq _]%andb_true_iff.
  pose proof (digits2_pos_bound m) as Hm.
  assert (Hd : (Zpos (digits2_pos m) <= 53)%Z) by (unfold prec in Hc; lia).
  eapply Z.lt_le_trans; [exact Hm|].
  apply Z.pow_le_mono_r; lia.
Qed.

Lemma round_half_even_bounds (n d : Z) :
  (0 <= n)%Z -> (0 < d)%Z ->
  (n / d <= round_half_even n d <= n / d + 1)%Z
  /\ ((n mod d)%Z = 0%Z -> round_half_even n d = (n / d)%Z).
Proof.
  intros Hn Hd. unfold round_half_even.
  pose proof (Z.mod_pos_bound n d Hd) as Hr.
  destruct (Z.compare_spec (2 * (n mod d))%Z d) as [E|E|E].
  - destruct (Z.even (n / d)); split; try lia.
  - split; lia.
  - split; lia.
Qed.

(** The hundredths kept for a float between 0 and 100. *)
Lemma hundredths_range (m : positive) (e : Z) :
  bounded prec emax m e = true ->
  SFleb (S754_finite false m e) (S754_finite false 7036874417766400 (-46)) = true ->
  (0 <= hundredths m e <= 10000)%Z.
Proof.
  intros Hm%valid_mantissa_bound. unfold SFleb, SFcompare.
  destruct (Z.compare_spec e (-46)) as [->|He|He]; [| |done].
  - (* the binade of 100 *)
    intros Hle.
    assert (Zpos m <= 7036874417766400)%Z.
    { apply Pos2Z.pos_le_pos. unfold Pos.le, Pos.compare.
      by destruct (Pos.compare_cont Eq m _). }
    unfold hundredths. change (0 <=? -46)%Z with false.
    change (2 ^ (- (-46)))%Z with 70368744177664%Z.
    destruct (round_half_even_bounds (Zpos m * 100)%Z 70368744177664%Z) as [Hb Hex];
      [lia..|].
    pose proof (Z.div_mod (Zpos m * 100)%Z 70368744177664%Z ltac:(lia)) as Hdm.
    pose proof (Z.mod_pos_bound (Zpos m * 100)%Z 70368744177664%Z ltac:(lia)) as Hr.
    assert (Zpos m * 100 / 70368744177664 <= 10000)%Z
      by (apply Z.div_le_upper_bound; lia).
    destruct (Z.eq_dec ((Zpos m * 100) mod 70368744177664)%Z 0%Z) as [E0|E0].
    + rewrite (Hex E0). split; [apply Z.div_pos; lia|lia].
    + assert (Zpos m * 100 / 70368744177664 < 10000)%Z by lia.
      split; [|lia]. assert (0 <= Zpos m * 100 / 70368744177664)%Z
        by (apply Z.div_pos; lia). lia.
  - (* below the binade of 100 *)
    intros _. unfold hundredths.
    assert (He0 : (0 <=? e)%Z = false) by (apply Z.leb_gt; lia).
    rewrite He0.
    assert (Hd : (2 ^ 47 <= 2 ^ (- e))%Z) by (apply Z.pow_le_mono_r; lia).
    assert (Hd0 : (0 < 2 ^ (- e))%Z) by (apply Z.pow_pos_nonneg; lia).
    destruct (round_half_even_bounds (Zpos m * 100)%Z (2 ^ (- e))%Z) as [Hb _];
      [lia|done|].
    assert (Hq : (Zpos m * 100 / 2 ^ (- e) <= Zpos m * 100 / 2 ^ 47)%Z)
      by (apply Z.div_le_compat_l; lia).
    assert (Hq' : (Zpos m * 100 / 2 ^ 47 < 6400)%Z)
      by (apply Z.div_lt_upper_bound; lia).
    assert (0 <= Zpos m * 100 / 2 ^ (- e))%Z by (apply Z.div_pos; lia).
    lia.
Qed.

(** Every float [k / 100] with [k] from 1 to 10000 is between 0 and 100. *)
Lemma hundredth_floats_in_range :
  forallb (fun k => (0 <=? div_nearest (Z.of_nat k) 100)
                    && (div_nearest (Z.of_nat k) 100 <=? 100))
          (seq 1 (Z.to_nat 10000)) = true.
Proof. vm_compute. reflexivity. Qed.

Lemma div_nearest_hundredths_range (k : Z) :
  (0 < k <= 10000)%Z ->
  (0 <=? div_nearest k 100) = true /\ (div_nearest k 100 <=? 100) = true.
Proof.
  intros Hk. pose proof hundredth_floats_in_range as Hall.
  rewrite forallb_forall in Hall.
  specialize (Hall (Z.to_nat k)). rewrite Z2Nat.id in Hall by lia.
  apply andb_true_iff, Hall, in_seq. lia.
Qed.

(** Rounding to two decimals keeps a float between 0 and 100 there. *)
Lemma py_round2_range (c : float) :
  (0 <=? c) = true -> (c <=? 100) = true ->
  (0 <=? py_round2 c) = true /\ (py_round2 c <=? 100) = true.
Proof.
  intros H0 H100. pose proof (Prim2SF_valid c) as Hv.
  assert (H0' := H0). assert (H100' := H100).
  rewrite leb_spec in H0', H100'.
  change (Prim2SF 0) with (S754_zero false) in H0'.
  change (Prim2SF 100) with (S754_finite false 7036874417766400 (-46)) in H100'.
  unfold py_round2.
  destruct (Prim2SF c) as [s|s| |s m e]; try done.
  destruct s; [discriminate H0'|].
  pose proof (hundredths_range m e Hv H100') as Hk.
  destruct (hundredths m e =? 0)%Z eqn:Ek.
  - split; reflexivity.
  - apply Z.eqb_neq in Ek. apply div_nearest_hundredths_range. lia.
Qed.

(** A finite float times zero is a zero. *)
Lemma finite_times_zero (y : float) :
  is_finite y = true -> y * 0 = 0 \/ y * 0 = -0.
Proof.
  unfold is_finite. intros [Hnan Hinf]%negb_true_iff%orb_false_iff.
  assert (Hsf : exists s, Prim2SF (y * 0) = S754_zero s).
  { rewrite mul_spec. change (Prim2SF 0) with (S754_zero false).
    unfold Prim2SF. rewrite Hnan, Hinf.
    destruct (is_zero y); [by eexists|].
    destruct (Z.frexp y) as [r ex].
    destruct (shr_fexp _ _ _ _ _) as [shr e'].
    destruct (shr_m shr); by eexists. }
  destruct Hsf as [s Hs]. rewrite <- (SF2Prim_Prim2SF (y * 0)), Hs.
  destruct s; [by right|by left].
Qed.

End FloatFacts.

(** ** Route progress *)

Section RouteProgress.
Context `{Runtime}.
Local Open Scope float_scope.

Lemma airport_of_known (v : value) (a : airport) :
  airport_of v = Some a -> truthy v = true /\ in_AIRPORTS v = true.
Proof.
  destruct v as [| | |A|]; try discriminate. apply known_airport_passes_guard.
Qed.

Lemma airport_of_unknown (v : value) :
  airport_of v = None -> in_AIRPORTS v = false.
Proof.
  destruct v as [| | |A|]; try done. unfold airport_of, in_AIRPORTS.
  intros ->. apply bool_decide_eq_false. by intros [? ?].
Qed.

(** The function by cases on the two codes. *)
Lemma calculate_route_progress_cases
    (current_lat current_lon : float) (source destination : value) :
  calculate_route_progress current_lat current_lon source destination
  = match airport_of source, airport_of destination with
    | Some s, Some d =>
        total ← calculate_distance (lat s) (lon s) (lat d) (lon d);
        current ← calculate_distance current_lat current_lon (lat d) (lon d);
        Some (if total =? 0 then 100
              else py_round2 (py_max 0 (py_min 100 ((total - current) / total * 100))))
    | _, _ => Some 0
    end.
Proof.
  unfold calculate_route_progress.
  destruct (airport_of source) as [s|] eqn:Es.
  - destruct (airport_of_known _ _ Es) as [-> ->].
    destruct (airport_of destination) as [d|] eqn:Ed.
    + destruct (airport_of_known _ _ Ed) as [-> ->].
      cbn [negb orb mbind option_bind].
      destruct (calculate_distance (lat s) _ _ _) as [total|]; [|done].
      destruct (calculate_distance current_lat _ _ _) as [current|]; [|done].
      cbn [mbind option_bind]. by destruct (total =? 0).
    + rewrite (airport_of_unknown _ Ed). by destruct (truthy destination).
  - rewrite (airport_of_unknown _ Es).
    by destruct (truthy source), (truthy destination).
Qed.

Lemma airport_self_difference (v : value) (a : airport) :
  airport_of v = Some a -> lat a - lat a = 0 /\ lon a - lon a = 0.
Proof.
  destruct v as [| | |A|]; try discriminate. cbn [airport_of].
  intros HA%airport_in_table. unfold airport_table in HA.
  repeat (apply elem_of_cons in HA as [HA|HA]; [injection HA as _ ->|]);
    [..|by apply elem_of_nil in HA]; split; reflexivity.
Qed.

(** The distance from a point to itself is zero on a C library that maps
    zero to zero in [sin] and in [atan2(., 1)] and whose cosine at the
    latitude is finite, with a finite square. *)
Lemma same_point_distance (la lo : float) :
  la - la = 0 -> lo - lo = 0 ->
  c_sin 0 = 0 -> c_atan2 0 1 = 0 ->
  is_finite (c_cos (math_radians la)) = true ->
  is_finite (c_cos (math_radians la) * c_cos (math_radians la)) = true ->
  calculate_distance la lo la lo = Some 0.
Proof.
  intros Hla Hlo Hsin Hatan Hcos Hsq. unfold calculate_distance.
  rewrite Hla, Hlo. change (math_radians 0 / 2) with 0.
  assert (Hs : math_sin 0 = Some 0)
    by (unfold math_sin, math_1; rewrite Hsin; reflexivity).
  assert (Hc : math_cos (math_radians la) = Some (c_cos (math_radians la))).
  { unfold math_cos, math_1. unfold is_finite in Hcos.
    apply negb_true_iff, orb_false_iff in Hcos as [-> ->]. reflexivity. }
  assert (Ha : math_atan2 0 1 = Some 0)
    by (unfold math_atan2, math_2; rewrite Hatan; reflexivity).
  rewrite Hs, Hc. cbn [mbind option_bind].
  destruct (finite_times_zero _ Hsq) as [-> | ->].
  - change (0 * 0 + 0 * 0) with 0. change (math_sqrt 0) with (Some 0).
    change (math_sqrt (1 - 0)) with (Some 1). cbn [mbind option_bind].
    rewrite Ha. reflexivity.
  - change (0 * 0 + -0 * 0) with 0. change (math_sqrt 0) with (Some 0).
    change (math_sqrt (1 - 0)) with (Some 1). cbn [mbind option_bind].
    rewrite Ha. reflexivity.
Qed.

End RouteProgress.

(** C3, as amended. [calculate_route_progress] returns 0 when either code
    is absent or not in the airport table; otherwise, unless one of the
    two distance computations raises, it returns 100 when the total route
    distance is zero and else the percentage
    [(total - current_to_dest) / total * 100] clamped to [[0, 100]] and
    rounded to two decimals. Every value it returns lies in [[0, 100]].
    The total distance is zero, and the result 100, when source and
    destination have the same coordinates (on a C library with
    [sin 0 = 0], [atan2 0 1 = 0] and a finite cosine). *)
Theorem route_progress_is_a_rounded_percentage `{Runtime}
    (current_lat current_lon : float) (source destination : value) :
  calculate_route_progress current_lat current_lon source destination
  = match airport_of source, airport_of destination with
    | Some s, Some d =>
        total ← calculate_distance (lat s) (lon s) (lat d) (lon d);
        current ← calculate_distance current_lat current_lon (lat d) (lon d);
        Some (if (total =? 0)%float then 100%float
              else py_round2
                     (py_max 0 (py_min 100 ((total - current) / total * 100)))%float)
    | _, _ => Some 0%float
    end
  /\ (forall r,
        calculate_route_progress current_lat current_lon source destination = Some r ->
        (0 <=? r)%float = true /\ (r <=? 100)%float = true)
  /\ (forall s d,
        airport_of source = Some s -> airport_of destination = Some d ->
        lat s = lat d -> lon s = lon d ->
        c_sin 0 = 0%float -> c_atan2 0 1 = 0%float ->
        is_finite (c_cos (math_radians (lat d))) = true ->
        is_finite (c_cos (math_radians (lat d)) * c_cos (math_radians (lat d)))%float
        = true ->
        is_Some (calculate_distance current_lat current_lon (lat d) (lon d)) ->
        calculate_route_progress current_lat current_lon source destination
        = Some 100%float).
Proof.
  split; [apply calculate_route_progress_cases|]. split.
  - intros r. rewrite calculate_route_progress_cases.
    destruct (airport_of source) as [s|];
      [|intros [= <-]; split; reflexivity].
    destruct (airport_of destination) as [d|];
      [|intros [= <-]; split; reflexivity].
    destruct (calculate_distance (lat s) _ _ _) as [total|]; [|done].
    destruct (calculate_distance current_lat _ _ _) as [current|]; [|done].
    cbn [mbind option_bind]. intros [= <-].
    destruct (total =? 0)%float; [split; reflexivity|].
    apply py_round2_range; apply clamp_range.
  - intros s d Hs Hd Hlat Hlon Hsin Hatan Hcos Hsq [current Hcur].
    rewrite calculate_route_progress_cases, Hs, Hd, Hlat, Hlon, Hcur.
    destruct (airport_self_difference _ _ Hd) as [Hla Hlo].
    rewrite (same_point_distance _ _ Hla Hlo Hsin Hatan Hcos Hsq).
    reflexivity.
Qed.

(** C3 as stated fails: over Chicago on the route from JFK to LAX the
    function returns 29.49, the clamped percentage rounded to two
    decimals, and not the clamped percentage itself, which lies strictly
    between 29.49 and 29.5. *)
Lemma route_progress_is_not_the_stated_formula :
  calculate_route_progress (H := Reference.runtime) 41.9786 (-87.9048)
    (VStr "JFK") (VStr "LAX") = Some 29.49%float
  /\ exists p,
       stated_route_progress (H := Reference.runtime) 41.9786 (-87.9048)
         (VStr "JFK") (VStr "LAX") = Some p
       /\ (29.49 <? p)%float = true /\ (p <? 29.5)%float = true.
Proof.
  split; [vm_compute; reflexivity|].
  eexists. split; [vm_compute; reflexivity|]. split; reflexivity.
Qed.

(** The reference runtime meets the conditions of the last part of C3, and
    a route from an airport to itself is complete wherever the flight is. *)
Example same_airport_route_is_complete :
  c_sin (Runtime := Reference.runtime) 0 = 0%float
  /\ c_atan2 (Runtime := Reference.runtime) 0 1 = 0%float
  /\ is_finite (c_cos (Runtime := Reference.runtime) (math_radians 40.6413)) = true
  /\ calculate_distance (H := Reference.runtime) 40.6413 (-73.7781) 40.6413 (-73.7781)
     = Some 0%float
  /\ calculate_route_progress (H := Reference.runtime) 34.5 (-116)
       (VStr "JFK") (VStr "JFK") = Some 100%float.
Proof. repeat split; vm_compute; reflexivity. Qed.

(** A report whose timestamp is not a string is not rejected by the
    validation: the exception leaves the handler. *)
Example timestamp_of_wrong_type_is_unhandled :
  update_flight (H := Reference.runtime) 0
    (<["timestamp" := VNum 1705305600]> report_at_jfk) empty_store
  = (Unhandled, empty_store).
Proof. vm_compute. reflexivity. Qed.

(** * The read side *)

(** ** Time order *)

Section TimeOrder.

Lemma timestamp_leb_total (a b : doc) :
  timestamp_leb a b = true \/ timestamp_leb b a = true.
Proof.
  unfold timestamp_leb.
  destruct (timestamp_key a), (timestamp_key b); auto. lia.
Qed.

Lemma not_later_trans (a b c : doc) : not_later a b -> not_later b c -> not_later a c.
Proof.
  unfold not_later, timestamp_leb.
  destruct (timestamp_key a), (timestamp_key b), (timestamp_key c);
    try done; lia.
Qed.

Lemma insert_by_timestamp_sorted (d : doc) (l : list doc) :
  StronglySorted not_later l -> StronglySorted not_later (insert_by_timestamp d l).
Proof.
  induction 1 as [|x l Hl IH Hx]; cbn.
  - repeat constructor.
  - destruct (timestamp_leb x d) eqn:E.
    + constructor; [done|].
      rewrite (insert_by_timestamp_perm d l). by constructor.
    + assert (Hdx : not_later d x)
        by (by destruct (timestamp_leb_total x d) as [E'|E']; [rewrite E in E'|]).
      constructor; [by constructor|].
      constructor; [done|].
      eapply Forall_impl; [exact Hx|]. intros y Hy. by eapply not_later_trans.
Qed.

Lemma sort_by_timestamp_snoc (l : list doc) (d : doc) :
  sort_by_timestamp (l ++ [d]) = insert_by_timestamp d (sort_by_timestamp l).
Proof. unfold sort_by_timestamp. by rewrite foldl_app. Qed.

Lemma sort_by_timestamp_sorted (l : list doc) :
  StronglySorted not_later (sort_by_timestamp l).
Proof.
  induction l as [|d l IH] using rev_ind; [constructor|].
  rewrite sort_by_timestamp_snoc. by apply insert_by_timestamp_sorted.
Qed.

Lemma insert_by_timestamp_desc_perm (d : doc) (l : list doc) :
  insert_by_timestamp_desc d l ≡ₚ d :: l.
Proof.
  induction l as [|x l IH]; cbn; [done|].
  destruct (timestamp_leb d x); [|done].
  rewrite IH. apply Permutation_swap.
Qed.

Lemma sort_by_timestamp_desc_snoc (l : list doc) (d : doc) :
  sort_by_timestamp_desc (l ++ [d])
  = insert_by_timestamp_desc d (sort_by_timestamp_desc l).
Proof. unfold sort_by_timestamp_desc. by rewrite foldl_app. Qed.

Lemma sort_by_timestamp_desc_perm (l : list doc) : sort_by_timestamp_desc l ≡ₚ l.
Proof.
  induction l as [|d l IH] using rev_ind; [done|].
  rewrite sort_by_timestamp_desc_snoc, insert_by_timestamp_desc_perm, IH.
  by rewrite Permutation_app_comm.
Qed.

Lemma insert_by_timestamp_desc_sorted (d : doc) (l : list doc) :
  StronglySorted (flip not_later) l ->
  StronglySorted (flip not_later) (insert_by_timestamp_desc d l).
Proof.
  induction 1 as [|x l Hl IH Hx]; cbn.
  - repeat constructor.
  - destruct (timestamp_leb d x) eqn:E.
    + constructor; [done|].
      rewrite (insert_by_timestamp_desc_perm d l). by constructor.
    + assert (Hxd : not_later x d)
        by (by destruct (timestamp_leb_total x d) as [E'|E']; [|rewrite E in E']).
      constructor; [by constructor|].
      constructor; [done|].
      eapply Forall_impl; [exact Hx|]. intros y Hy. by eapply not_later_trans.
Qed.

Lemma sort_by_timestamp_desc_sorted (l : list doc) :
  StronglySorted (flip not_later) (sort_by_timestamp_desc l).
Proof.
  induction l as [|d l IH] using rev_ind; [constructor|].
  rewrite sort_by_timestamp_desc_snoc. by apply insert_by_timestamp_desc_sorted.
Qed.

End TimeOrder.

(** ** Rendering of dates *)

Section Rendering.

Lemma isoformat_field_fetched (f : string) (d : doc) (t : Z) :
  d !! f = Some (VDate t) ->
  isoformat_field f (fetched d) = Some (<[f := IsoText t]> (fetched d)).
Proof.
  intros E. unfold isoformat_field, fetched. by rewrite lookup_fmap, E.
Qed.

Lemma isoformat_field_fetched_inv (f : string) (d : doc) (b : gmap string json) :
  isoformat_field f (fetched d) = Some b ->
  exists t, d !! f = Some (VDate t) /\ b = <[f := IsoText t]> (fetched d).
Proof.
  unfold isoformat_field, fetched. rewrite lookup_fmap.
  destruct (d !! f) as [[| | | |t]|]; cbn; try done.
  intros [= <-]. eauto.
Qed.

Lemma isoformat_field_again (f g : string) (d : gmap string json) (t : Z) :
  f ≠ g -> d !! g = Some (Stored (VDate t)) ->
  isoformat_field g (<[f := IsoText t]> d) = Some (<[g := IsoText t]> (<[f := IsoText t]> d)).
Proof.
  intros Hfg E. unfold isoformat_field. by rewrite lookup_insert_ne, E.
Qed.

Lemma shown_points (l : list doc) :
  Forall point_ok l ->
  exists body,
    mapM (fun item => isoformat_field "timestamp" (fetched item)) l = Some body
    /\ Forall2 shown_as l body.
Proof.
  induction 1 as [|p l [[t Ht] _] _ (body & Hbody & Hshown)].
  - by exists [].
  - exists (<["timestamp" := IsoText t]> (fetched p) :: body). split.
    + cbn. rewrite (isoformat_field_fetched _ _ _ Ht). cbn.
      by rewrite Hbody.
    + constructor; [|done]. by exists t.
Qed.

End Rendering.

(** ** The history of a flight *)

(** X1. On a store whose points are well formed, [get_flight_history]
    answers 404 exactly for a flight without points; otherwise its body
    holds each point of the flight once, in the order of their timestamps,
    every point unchanged but for its timestamp, which is rendered as
    text. *)
Theorem history_is_in_time_order (flight_id : string) (db : store) :
  Forall point_ok (tracking db) ->
  (track_points (VStr flight_id) db = [] ->
   get_flight_history flight_id db = JsonError 404 "No tracking data found")
  /\ (track_points (VStr flight_id) db ≠ [] ->
      exists (history : list doc) (body : list (gmap string json)),
        get_flight_history flight_id db = Json body
        /\ history ≡ₚ track_points (VStr flight_id) db
        /\ StronglySorted not_later history
        /\ Forall2 shown_as history body).
Proof.
  intros Hok. unfold get_flight_history, track_points. split.
  - intros ->. done.
  - intros Hne.
    rewrite bool_decide_eq_false_2 by (by rewrite sort_by_timestamp_nil).
    destruct (shown_points (sort_by_timestamp (find (by_flight_id (VStr flight_id))
                                                 (tracking db))))
      as (body & -> & Hshown).
    { by apply sort_by_timestamp_Forall, find_Forall. }
    eexists _, body. split; [done|].
    split; [apply sort_by_timestamp_perm|].
    split; [apply sort_by_timestamp_sorted|done].
Qed.

Lemma sweep_sample_points_ok : Forall point_ok (tracking sweep_sample).
Proof. repeat constructor; eexists; vm_compute; reflexivity. Qed.

Lemma history_is_in_time_order_witness :
  (track_points (VStr "TST1") sweep_sample = [] ->
   get_flight_history "TST1" sweep_sample = JsonError 404 "No tracking data found")
  /\ (track_points (VStr "TST1") sweep_sample ≠ [] ->
      exists (history : list doc) (body : list (gmap string json)),
        get_flight_history "TST1" sweep_sample = Json body
        /\ history ≡ₚ track_points (VStr "TST1") sweep_sample
        /\ StronglySorted not_later history
        /\ Forall2 shown_as history body).
Proof.
  apply (history_is_in_time_order "TST1" sweep_sample).
  apply sweep_sample_points_ok.
Defined.

(** ** What the handlers write *)

Section Written.
Context `{Runtime}.

(** The outcomes of [update_flight] that change the store. *)
Lemma update_flight_writes (now : Z) (data : doc) (db : store) :
  (update_flight now data db).2 = db
  \/ exists data1 s ts,
       forallb (has_field data) required_fields = true
       /\ check_numeric_fields data = inr data1
       /\ data !! "timestamp" = Some (VStr s)
       /\ fromisoformat (replace_Z s) = Some ts
       /\ ((update_flight now data db
            = (Unhandled,
               {| flights := flights db;
                  tracking := tracking db ++ [stored_point now ts data1];
                  logs := logs db |})
            /\ add_route_progress (stored_point now ts data1)
                 (base_flight_update (stored_point now ts data1)) = None)
           \/ exists upd,
                add_route_progress (stored_point now ts data1)
                  (base_flight_update (stored_point now ts data1)) = Some upd
                /\ update_flight now data db
                   = (Updated (field data "flight_id") ts,
                      {| flights := update_one_set "flight_id"
                                      (field data "flight_id") upd (flights db);
                         tracking := tracking db ++ [stored_point now ts data1];
                         logs := logs db |})).
Proof.
  unfold update_flight.
  destruct (forallb (has_field data) required_fields) eqn:Ereq; [|by left].
  cbn [negb].
  destruct (check_numeric_fields data) as [message|data1] eqn:Echeck; [by left|].
  assert (Ets : data1 !! "timestamp" = data !! "timestamp").
  { apply (check_numeric_fields_keeps _ _ _ Echeck).
    unfold numeric_fields. rewrite !not_elem_of_cons, elem_of_nil.
    repeat split; (discriminate || tauto). }
  assert (Eid : data1 !! "flight_id" = data !! "flight_id").
  { apply (check_numeric_fields_keeps _ _ _ Echeck).
    unfold numeric_fields. rewrite !not_elem_of_cons, elem_of_nil.
    repeat split; (discriminate || tauto). }
  rewrite Ets.
  destruct (data !! "timestamp") as [[| | |s|]|] eqn:Ets'; try by left.
  destruct (fromisoformat (replace_Z s)) as [ts|] eqn:Eparse; [|by left].
  right. exists data1, s, ts. fold (stored_point now ts data1).
  repeat (split; [done|]).
  assert (Eid' : field (stored_point now ts data1) "flight_id" = field data "flight_id").
  { unfold field. rewrite stored_point_coordinate by done. by rewrite Eid. }
  rewrite Eid'.
  destruct (add_route_progress _ _) as [upd|] eqn:Eadd; [right|left]; eauto.
Qed.
Lemma required_field_present (data : doc) (f : string) :
  forallb (has_field data) required_fields = true -> f ∈ required_fields ->
  exists v, data !! f = Some v.
Proof.
  intros Hreq Hf. rewrite forallb_forall in Hreq.
  apply list_elem_of_In, Hreq, bool_decide_eq_true in Hf. exact Hf.
Qed.

End Written.

Section FlightUpdate.
Context `{Runtime}.

(** The keys that [base_flight_update] always writes, with the field of
    the report each is taken from. *)
Lemma base_flight_update_fixed (data : doc) (k k' : string) :
  (k, k') ∈ [ ("flight_id", "flight_id"); ("latitude", "latitude");
              ("longitude", "longitude"); ("altitude", "altitude");
              ("speed", "speed"); ("heading", "heading"); ("status", "status");
              ("last_updated", "timestamp"); ("received_at", "received_at") ]%string ->
  base_flight_update data !! k = Some (field data k').
Proof.
  intros Hk. unfold base_flight_update.
  repeat (apply elem_of_cons in Hk as [[= -> ->]|Hk];
          [rewrite copy_fields_other;
           [done|unfold optional_fields; rewrite !not_elem_of_cons, elem_of_nil;
                 repeat split; (discriminate || tauto)]|]).
  by apply elem_of_nil in Hk.
Qed.

(** Copying the optional fields: a field of the report wins. *)
Lemma copy_fields_lookup (data : doc) (fs : list string) (m : doc) (k : string) :
  k ∈ fs ->
  foldl (fun upd f => match data !! f with
                      | Some v => <[f := v]> upd
                      | None => upd
                      end) m fs !! k
  = match data !! k with Some v => Some v | None => m !! k end.
Proof.
  revert m. induction fs as [|f fs IH]; intros m Hk; [by apply elem_of_nil in Hk|].
  cbn [foldl]. destruct (decide (k ∈ fs)) as [Hin|Hout].
  - rewrite IH by done. destruct (data !! k) eqn:Ek; [done|].
    destruct (data !! f) eqn:Ef; [|done].
    rewrite lookup_insert_ne; [done|]. intros ->. congruence.
  - apply elem_of_cons in Hk as [->|Hk]; [|done].
    rewrite copy_fields_other by done.
    destruct (data !! f) eqn:Ef; [by rewrite lookup_insert_eq|done].
Qed.

Lemma base_flight_update_optional (data : doc) (k : string) :
  k ∈ optional_fields -> base_flight_update data !! k = data !! k.
Proof.
  intros Hk. unfold base_flight_update. rewrite copy_fields_lookup by done.
  destruct (data !! k) eqn:Ek; [done|].
  unfold optional_fields in Hk.
  repeat (apply elem_of_cons in Hk as [->|Hk]; [done|]).
  by apply elem_of_nil in Hk.
Qed.

Lemma base_flight_update_unwritten (data : doc) (k : string) :
  k ∉ written_fields -> base_flight_update data !! k = None.
Proof.
  unfold written_fields. rewrite not_elem_of_app. intros [Hfix Hopt].
  unfold base_flight_update. rewrite copy_fields_other by done.
  rewrite !not_elem_of_cons in Hfix.
  destruct Hfix as (? & ? & ? & ? & ? & ? & ? & ? & ? & ? & ? & _).
  unfold list_to_map. cbn [foldr fst snd].
  by rewrite !lookup_insert_ne, lookup_empty.
Qed.

Lemma base_flight_update_unwritten_route (data : doc) :
  base_flight_update data !! "route_progress" = None.
Proof.
  unfold base_flight_update. rewrite copy_fields_other; [done|].
  unfold optional_fields. rewrite !not_elem_of_cons, elem_of_nil.
  repeat split; (discriminate || tauto).
Qed.

Lemma add_route_progress_cases (data upd upd' : doc) :
  add_route_progress data upd = Some upd' ->
  (has_field data "source" && has_field data "destination" = false /\ upd' = upd)
  \/ exists p,
       has_field data "source" && has_field data "destination" = true
       /\ calculate_route_progress
            (field_number data "latitude") (field_number data "longitude")
            (field data "source") (field data "destination") = Some p
       /\ upd' = if (95 <=? p)%float
                 then <["ready_for_completion" := VBool true]>
                        (<["status" := VStr "landed"]>
                           (<["route_progress" := VNum p]> upd))
                 else <["route_progress" := VNum p]> upd.
Proof.
  unfold add_route_progress. intros Hadd.
  destruct (has_field data "source" && has_field data "destination");
    [|left; split; congruence].
  destruct (calculate_route_progress _ _ _ _) as [p|]; [|done].
  cbn [mbind option_bind] in Hadd. right. exists p.
  split; [done|]. split; [done|].
  by destruct (95 <=? p)%float; injection Hadd as <-.
Qed.


(** The update that an accepted report makes of a flight state. *)
Section Accepted.
Variables (now ts : Z) (data data1 upd : doc).
Hypothesis Hcheck : check_numeric_fields data = inr data1.
Hypothesis Hadd :
  add_route_progress (stored_point now ts data1)
    (base_flight_update (stored_point now ts data1)) = Some upd.

Lemma stored_point_keeps (k : string) :
  k ∉ numeric_fields -> k ≠ "timestamp" -> k ≠ "received_at" ->
  stored_point now ts data1 !! k = data !! k.
Proof.
  intros Hk ? ?. rewrite stored_point_coordinate by done.
  by apply check_numeric_fields_keeps.
Qed.

Lemma stored_point_number (k : string) :
  k ∈ numeric_fields ->
  exists x, field_float data k = Some x
            /\ stored_point now ts data1 !! k = Some (VNum x).
Proof.
  clear Hadd. intros Hk.
  destruct (check_numeric_fields_inr _ _ Hcheck)
    as (latitude & longitude & altitude & speed & heading
        & Hlat & Hlon & Halt & Hspeed & Hhead & ->).
  unfold numeric_fields in Hk.
  repeat (apply elem_of_cons in Hk as [->|Hk];
          [eexists; split; [eassumption|];
           rewrite stored_point_coordinate by done; by simplify_map_eq|]).
  by apply elem_of_nil in Hk.
Qed.


Lemma flight_update_dates :
  upd !! "last_updated" = Some (VDate ts) /\ upd !! "received_at" = Some (VDate now).
Proof.
  destruct (stored_point_timestamp now ts data1) as [Hts Hnow].
  rewrite !(add_route_progress_other _ _ _ _ Hadd) by done.
  rewrite (base_flight_update_fixed _ "last_updated" "timestamp")
    by (rewrite !elem_of_cons; tauto).
  rewrite (base_flight_update_fixed _ "received_at" "received_at")
    by (rewrite !elem_of_cons; tauto).
  unfold field. by rewrite Hts, Hnow.
Qed.

Lemma flight_update_optional (k : string) :
  k ∈ optional_fields -> upd !! k = data !! k.
Proof.
  intros Hk.
  assert (Hne : k ≠ "route_progress" /\ k ≠ "status" /\ k ≠ "ready_for_completion"
                /\ k ≠ "timestamp" /\ k ≠ "received_at" /\ k ∉ numeric_fields).
  { unfold optional_fields, numeric_fields in *.
    rewrite !not_elem_of_cons, elem_of_nil.
    repeat (apply elem_of_cons in Hk as [->|Hk];
            [repeat split; (discriminate || tauto)|]).
    by apply elem_of_nil in Hk. }
  destruct Hne as (? & ? & ? & ? & ? & ?).
  rewrite (add_route_progress_other _ _ _ k Hadd) by done.
  rewrite base_flight_update_optional by done.
  by apply stored_point_keeps.
Qed.


Lemma stored_point_route (k : string) :
  k = "source" \/ k = "destination" ->
  has_field (stored_point now ts data1) k = has_field data k.
Proof.
  intros Hk. unfold has_field. rewrite stored_point_keeps; [done| | |];
    destruct Hk as [-> | ->]; try done;
    unfold numeric_fields; rewrite !not_elem_of_cons, elem_of_nil;
    repeat split; (discriminate || tauto).
Qed.

Lemma flight_update_without_route :
  has_field data "source" && has_field data "destination" = false ->
  upd = base_flight_update (stored_point now ts data1).
Proof.
  intros Hroute.
  destruct (add_route_progress_cases _ _ _ Hadd) as [[_ ->]|(p & Hr & _)]; [done|].
  rewrite !stored_point_route in Hr by tauto. congruence.
Qed.

Lemma flight_update_unwritten (k : string) :
  k ∉ written_fields -> upd !! k = None.
Proof.
  intros Hk. rewrite (add_route_progress_other _ _ _ k Hadd).
  - by apply base_flight_update_unwritten.
  - intros ->. apply Hk. unfold written_fields. rewrite elem_of_app, !elem_of_cons. tauto.
  - intros ->. apply Hk. unfold written_fields. rewrite elem_of_app, !elem_of_cons. tauto.
  - intros ->. apply Hk. unfold written_fields. rewrite elem_of_app, !elem_of_cons. tauto.
Qed.

End Accepted.

(** The accepted report. *)
Lemma update_flight_updated (now : Z) (data : doc) (db db' : store)
    (id : value) (ts : Z) :
  update_flight now data db = (Updated id ts, db') ->
  exists data1 upd,
    forallb (has_field data) required_fields = true
    /\ check_numeric_fields data = inr data1
    /\ id = field data "flight_id"
    /\ add_route_progress (stored_point now ts data1)
         (base_flight_update (stored_point now ts data1)) = Some upd
    /\ upd !! "flight_id" = Some id
    /\ db' = {| flights := update_one_set "flight_id" id upd (flights db);
                tracking := tracking db ++ [stored_point now ts data1];
                logs := logs db |}.
Proof.
  intros Hup.
  destruct (update_flight_writes now data db)
    as [Hsame|(data1 & s & ts' & Hreq & Hcheck & Hts & Hparse
               & [[Hun _]|(upd & Hadd & Hres)])].
  - exfalso. rewrite Hup in Hsame. cbn in Hsame. subst db'.
    unfold update_flight in Hup.
    destruct (negb _); [discriminate Hup|].
    destruct (check_numeric_fields data); [discriminate Hup|].
    destruct (_ !! "timestamp") as [[| | |s|]|]; try discriminate Hup.
    destruct (fromisoformat _); [|discriminate Hup].
    destruct (add_route_progress _ _); [|discriminate Hup].
    injection Hup as _ _ Hdb. apply (f_equal tracking) in Hdb. cbn in Hdb.
    apply (f_equal length) in Hdb. rewrite length_app in Hdb. cbn in Hdb. lia.
  - congruence.
  - rewrite Hup in Hres. injection Hres as -> -> ->.
    exists data1, upd. repeat (split; [done|]). split; [|done].
    rewrite (flight_update_sets_flight_id _ _ Hadd). unfold field.
    rewrite (stored_point_keeps _ _ _ _ Hcheck); [done| |done|done].
    unfold numeric_fields. rewrite !not_elem_of_cons, elem_of_nil.
    repeat split; (discriminate || tauto).
Qed.

End FlightUpdate.

(** ** Reading back a report *)



(** X3. An accepted report merges into the stored state of its flight: a
    field that the report cannot set, and an optional field that it does
    not have, keep the value of the earlier state; a report that lacks
    the source or the destination leaves the route progress and the
    completion mark of the earlier state in place and stores its own
    status. *)
Theorem unreported_fields_are_kept `{Runtime} (now : Z) (data : doc)
    (db db' : store) (id : value) (ts : Z) (d0 : doc) :
  update_flight now data db = (Updated id ts, db') ->
  flight_state id db = Some d0 ->
  exists d : doc,
    flight_state id db' = Some d
    /\ (forall k, k ∈ optional_fields -> data !! k = None -> d !! k = d0 !! k)
    /\ (forall k, k ∉ written_fields -> d !! k = d0 !! k)
    /\ (data !! "source" = None \/ data !! "destination" = None ->
        d !! "route_progress" = d0 !! "route_progress"
        /\ d !! "ready_for_completion" = d0 !! "ready_for_completion"
        /\ d !! "status" = data !! "status").
Proof.
  intros (data1 & upd & Hreq & Hcheck & -> & Hadd & Hupd & ->)%update_flight_updated Hd0.
  assert (Hstate : find_one (by_flight_id (field data "flight_id"))
                     (update_one_set "flight_id" (field data "flight_id") upd (flights db))
                   = Some (upd ∪ d0)).
  { unfold flight_state, by_flight_id in *.
    rewrite find_one_update_one_set by done. by rewrite Hd0. }
  exists (upd ∪ d0). split; [exact Hstate|].
  assert (Hr : forall k, upd !! k = None -> (upd ∪ d0) !! k = d0 !! k)
    by (intros k Hk; by apply lookup_union_r).
  split; [|split].
  - intros k Hk Hnone. apply Hr.
    by rewrite (flight_update_optional _ _ _ _ _ Hcheck Hadd k Hk).
  - intros k Hk. apply Hr. by apply (flight_update_unwritten _ _ _ _ Hadd).
  - intros Hroute.
    assert (Hno : has_field data "source" && has_field data "destination" = false).
    { unfold has_field. destruct Hroute as [-> | ->].
      - by rewrite bool_decide_eq_false_2 by (by intros [? ?]).
      - rewrite (bool_decide_eq_false_2 (is_Some None)) by (by intros [? ?]).
        apply andb_false_r. }
    pose proof (flight_update_without_route _ _ _ _ _ Hcheck Hadd Hno) as ->.
    split; [|split].
    + apply Hr. apply base_flight_update_unwritten_route.
    + apply Hr. apply base_flight_update_not_ready.
    + destruct (required_field_present data "status" Hreq) as [v Hv];
        [unfold required_fields; rewrite !elem_of_cons; tauto|].
      rewrite Hv. apply lookup_union_Some_l.
      rewrite (base_flight_update_fixed _ "status" "status")
        by (rewrite !elem_of_cons; tauto).
      unfold field. rewrite (stored_point_keeps _ _ _ _ Hcheck); [by rewrite Hv| |done|done].
      unfold numeric_fields. rewrite !not_elem_of_cons, elem_of_nil.
      repeat split; (discriminate || tauto).
Qed.

Lemma unreported_fields_are_kept_witness :
  exists d : doc,
    flight_state (VStr "TST1") tracked_twice = Some d
    /\ (forall k, k ∈ optional_fields -> report_without_route !! k = None ->
          d !! k = first_state !! k)
    /\ (forall k, k ∉ written_fields -> d !! k = first_state !! k)
    /\ (report_without_route !! "source" = None
        \/ report_without_route !! "destination" = None ->
        d !! "route_progress" = first_state !! "route_progress"
        /\ d !! "ready_for_completion" = first_state !! "ready_for_completion"
        /\ d !! "status" = report_without_route !! "status").
Proof.
  apply (unreported_fields_are_kept (H := Reference.runtime) 1 report_without_route
           tracked_once tracked_twice (VStr "TST1") 1705312800000 first_state).
  - vm_compute. reflexivity.
  - vm_compute. reflexivity.
Defined.

(** ** Requests about one flight leave the others alone *)

Section Frame.
Context `{Runtime}.

Lemma find_one_update_one_set_other (f : string) (q q' : value) (upd : doc)
    (c : list doc) :
  upd !! f = Some q -> key_of q' ≠ key_of q ->
  find_one (matches f q') (update_one_set f q upd c) = find_one (matches f q') c.
Proof.
  intros Hupd Hne.
  assert (Hmerged : forall d, matches f q' (upd ∪ d) = false).
  { intros d. apply matches_false. rewrite (field_key_union _ _ _ _ Hupd). congruence. }
  induction c as [|d c IH]; cbn [update_one_set].
  - by rewrite find_one_cons, Hmerged.
  - destruct (matches f q d) eqn:Ed.
    + rewrite !find_one_cons, Hmerged.
      apply matches_true in Ed.
      assert (Hd : matches f q' d = false) by (apply matches_false; congruence).
      by rewrite Hd.
    + rewrite !find_one_cons. by rewrite IH.
Qed.

Lemma find_one_delete_one_other (q q' : value) (c : list doc) :
  key_of q' ≠ key_of q ->
  find_one (by_flight_id q') (delete_one (by_flight_id q) c)
  = find_one (by_flight_id q') c.
Proof.
  intros Hne. induction c as [|d c IH]; [done|]. cbn [delete_one].
  destruct (by_flight_id q d) eqn:Ed.
  - rewrite find_one_cons.
    apply matches_true in Ed.
    assert (Hd : by_flight_id q' d = false) by (apply matches_false; congruence).
    by rewrite Hd.
  - rewrite !find_one_cons. by rewrite IH.
Qed.

End Frame.

(** X4. A report, whatever becomes of it, changes nothing for a flight
    of another identifier: the state of that flight, its history and the
    archive are as before. *)
Theorem report_leaves_other_flights `{Runtime} (now : Z) (data : doc) (db : store)
    (q : value) :
  key_of q ≠ key_of (field data "flight_id") ->
  flight_state q (update_flight now data db).2 = flight_state q db
  /\ track_points q (update_flight now data db).2 = track_points q db
  /\ logs (update_flight now data db).2 = logs db.
Proof.
  intros Hne.
  destruct (update_flight_writes now data db)
    as [->|(data1 & s & ts & Hreq & Hcheck & Hts & Hparse & Hcases)]; [done|].
  assert (Hpoint : by_flight_id q (stored_point now ts data1) = false).
  { apply matches_false. unfold field_key.
    rewrite (stored_point_keeps _ _ _ _ Hcheck); [done| |done|done].
    unfold numeric_fields. rewrite !not_elem_of_cons, elem_of_nil.
    repeat split; (discriminate || tauto). }
  assert (Htrack : find (by_flight_id q) (tracking db ++ [stored_point now ts data1])
                   = find (by_flight_id q) (tracking db)).
  { rewrite find_app. unfold find at 2. cbn [List.filter]. rewrite Hpoint.
    apply app_nil_r. }
  destruct Hcases as [[-> _]|(upd & Hadd & ->)]; cbn [snd];
    unfold flight_state, track_points; cbn [flights tracking logs].
  - done.
  - split; [|done].
    apply find_one_update_one_set_other; [|done].
    rewrite (flight_update_sets_flight_id _ _ Hadd). unfold field.
    rewrite (stored_point_keeps _ _ _ _ Hcheck); [done| |done|done].
    unfold numeric_fields. rewrite !not_elem_of_cons, elem_of_nil.
    repeat split; (discriminate || tauto).
Qed.

Lemma report_leaves_other_flights_witness :
  flight_state (VStr "TST3")
    (update_flight (H := Reference.runtime) 0 report_at_jfk sweep_sample).2
  = flight_state (VStr "TST3") sweep_sample
  /\ track_points (VStr "TST3")
       (update_flight (H := Reference.runtime) 0 report_at_jfk sweep_sample).2
     = track_points (VStr "TST3") sweep_sample
  /\ logs (update_flight (H := Reference.runtime) 0 report_at_jfk sweep_sample).2
     = logs sweep_sample.
Proof.
  apply (report_leaves_other_flights (H := Reference.runtime) 0 report_at_jfk
           sweep_sample (VStr "TST3")).
  vm_compute. discriminate.
Defined.

(** X5. Archiving a flight, whatever becomes of the request, changes
    nothing for a flight of another identifier: its state, its history
    and its archive entries are as before. *)
Theorem archive_leaves_other_flights (now : Z) (flight_id : string) (db : store)
    (q : value) :
  key_of q ≠ KStr flight_id ->
  flight_state q (complete_flight now flight_id db).2 = flight_state q db
  /\ track_points q (complete_flight now flight_id db).2 = track_points q db
  /\ log_entries q (complete_flight now flight_id db).2 = log_entries q db.
Proof.
  intros Hne.
  destruct (complete_flight_outcome now flight_id db) as [->|(e & -> & He)]; [done|].
  split; [|split].
  - unfold flight_state. cbn [flights]. by apply find_one_delete_one_other.
  - apply track_points_delete_other. intros Hk. apply Hne. by rewrite <- Hk.
  - unfold log_entries. cbn [logs]. rewrite List.filter_app. cbn [List.filter].
    rewrite He, bool_decide_eq_false_2 by (intros Hk; apply Hne; by rewrite <- Hk).
    apply app_nil_r.
Qed.

Lemma archive_leaves_other_flights_witness :
  flight_state (VStr "TST3") (complete_flight 0 "TST1" sweep_sample).2
  = flight_state (VStr "TST3") sweep_sample
  /\ track_points (VStr "TST3") (complete_flight 0 "TST1" sweep_sample).2
     = track_points (VStr "TST3") sweep_sample
  /\ log_entries (VStr "TST3") (complete_flight 0 "TST1" sweep_sample).2
     = log_entries (VStr "TST3") sweep_sample.
Proof.
  apply (archive_leaves_other_flights 0 "TST1" sweep_sample (VStr "TST3")).
  vm_compute. discriminate.
Defined.

(** ** The archive entry *)

Section Entries.
Context `{Runtime}.

(** A sorted track starts at its earliest point and ends at its latest. *)
Lemma not_later_refl (a : doc) : not_later a a.
Proof. unfold not_later, timestamp_leb. destruct (timestamp_key a); [lia|done]. Qed.

Lemma sorted_head_first (l : list doc) (a b : doc) :
  StronglySorted not_later l -> head l = Some a -> b ∈ l -> not_later a b.
Proof.
  intros Hs Ha Hb. destruct Hs as [|x l Hs Hx]; [done|].
  injection Ha as ->. apply elem_of_cons in Hb as [->|Hb]; [apply not_later_refl|].
  rewrite Forall_forall in Hx. by apply Hx.
Qed.

Lemma sorted_last_latest (l : list doc) (z b : doc) :
  StronglySorted not_later l -> last l = Some z -> b ∈ l -> not_later b z.
Proof.
  induction 1 as [|x l Hs IH Hx]; [done|]. intros Hz Hb.
  destruct l as [|y l].
  - injection Hz as ->. apply list_elem_of_singleton in Hb as ->. apply not_later_refl.
  - change (last (x :: y :: l)) with (last (y :: l)) in Hz.
    apply elem_of_cons in Hb as [->|Hb]; [|by apply IH].
    rewrite Forall_forall in Hx. apply Hx. by eapply last_Some_elem_of.
Qed.

Lemma not_later_dated (a b : doc) (s t : Z) :
  a !! "timestamp" = Some (VDate s) -> b !! "timestamp" = Some (VDate t) ->
  not_later a b <-> s <= t.
Proof.
  intros Ha Hb. unfold not_later, timestamp_leb, timestamp_key.
  rewrite Ha, Hb. apply Z.leb_le.
Qed.

(** What [complete_flight] writes when it answers that the flight is
    completed. *)
Lemma complete_flight_completed (now : Z) (flight_id : string) (db db' : store)
    (n : nat) (duration : float) :
  complete_flight now flight_id db = (Completed flight_id n duration, db') ->
  exists departure_time arrival_time,
    let path_data := sort_by_timestamp (track_points (VStr flight_id) db) in
    path_data ≠ []
    /\ n = length path_data
    /\ head path_data ≫= (.!! "timestamp") = Some departure_time
    /\ last path_data ≫= (.!! "timestamp") = Some arrival_time
    /\ (if (1 <? length path_data)%nat
        then py_round2 <$> track_duration path_data
        else Some 0%float) = Some duration
    /\ db' = {| flights := delete_one (by_flight_id (VStr flight_id)) (flights db);
                tracking := delete_many (by_flight_id (VStr flight_id)) (tracking db);
                logs := logs db
                        ++ [ {| log_flight_id := VStr flight_id;
                                log_path := path_data;
                                log_flight_details := flight_state (VStr flight_id) db;
                                log_completed_at := now;
                                log_total_tracking_points := length path_data;
                                log_departure_time := departure_time;
                                log_arrival_time := arrival_time;
                                log_total_duration_minutes := duration;
                                log_auto_completed := None |} ] |}.
Proof.
  unfold complete_flight, track_points, flight_state. cbv zeta.
  destruct (bool_decide _) eqn:Eempty; [discriminate|].
  apply bool_decide_eq_false in Eempty.
  destruct (head _ ≫= _) as [departure_time|]; [|discriminate].
  destruct (last _ ≫= _) as [arrival_time|]; [|discriminate].
  cbn [mbind option_bind].
  destruct (if (1 <? _)%nat then _ else _) as [dur|]; [|discriminate].
  cbn [mbind option_bind log_total_duration_minutes].
  intros [= <- <- <-]. by exists departure_time, arrival_time.
Qed.

(** What a turn of the sweep writes when it archives. *)
Lemma auto_complete_flight_archived (now : Z) (flight : doc) (db db' : store) :
  auto_complete_flight now flight db = Some (true, db') ->
  exists flight_id departure_time arrival_time total_duration summary,
    let path_data := sort_by_timestamp (track_points flight_id db) in
    flight !! "flight_id" = Some flight_id
    /\ path_data ≠ []
    /\ head path_data ≫= (.!! "timestamp") = Some departure_time
    /\ last path_data ≫= (.!! "timestamp") = Some arrival_time
    /\ (if (1 <? length path_data)%nat
        then track_duration path_data
        else Some 0%float) = Some total_duration
    /\ calculate_flight_distance path_data = Some (summary_total_distance_km summary)
    /\ db' = {| flights := delete_one (by_flight_id flight_id) (flights db);
                tracking := delete_many (by_flight_id flight_id) (tracking db);
                logs := logs db
                        ++ [ {| log_flight_id := flight_id;
                                log_path := path_data;
                                log_flight_details := flight_state flight_id db;
                                log_completed_at := now;
                                log_total_tracking_points := length path_data;
                                log_departure_time := departure_time;
                                log_arrival_time := arrival_time;
                                log_total_duration_minutes := py_round2 total_duration;
                                log_auto_completed := Some summary |} ] |}.
Proof.
  unfold auto_complete_flight, track_points, flight_state. cbv zeta.
  destruct (flight !! "flight_id") as [id|]; [|discriminate]. cbn [mbind option_bind].
  destruct (bool_decide _) eqn:Eempty; [discriminate|].
  apply bool_decide_eq_false in Eempty.
  destruct (head _ ≫= _) as [departure_time|] eqn:Ehead; [|discriminate].
  destruct (last _ ≫= _) as [arrival_time|] eqn:Elast; [|discriminate].
  cbn [mbind option_bind].
  destruct (if (1 <? _)%nat then _ else _) as [dur|] eqn:Edur; [|discriminate].
  cbn [mbind option_bind].
  destruct (calculate_flight_distance _) as [km|] eqn:Ekm; [|discriminate].
  cbn [mbind option_bind]. intros [= <-].
  eexists id, departure_time, arrival_time, dur, _.
  cbv zeta. do 5 (split; [done|]). split; revgoals; [reflexivity|done].
Qed.

End Entries.

(** X6. On a store with well-formed points, the entry that
    [complete_flight] adds to the archive spans the history of the
    flight: its path holds every point once, in time order, its count is
    their number, its departure and arrival times are the earliest and
    the latest timestamp, and the duration answered is the rounded number
    of minutes between the two, zero for a single point. *)
Theorem archive_entry_spans_the_track (now : Z) (flight_id : string)
    (db db' : store) (n : nat) (duration : float) :
  Forall point_ok (tracking db) ->
  complete_flight now flight_id db = (Completed flight_id n duration, db') ->
  exists (e : log_entry) (t0 t1 : Z),
    logs db' = logs db ++ [e]
    /\ n = length (track_points (VStr flight_id) db)
    /\ (1 <= n)%nat
    /\ log_total_tracking_points e = n
    /\ log_path e ≡ₚ track_points (VStr flight_id) db
    /\ StronglySorted not_later (log_path e)
    /\ log_flight_details e = flight_state (VStr flight_id) db
    /\ log_departure_time e = VDate t0
    /\ log_arrival_time e = VDate t1
    /\ (forall p t, p ∈ track_points (VStr flight_id) db ->
                    p !! "timestamp" = Some (VDate t) -> t0 <= t <= t1)
    /\ (exists p, p ∈ track_points (VStr flight_id) db
                  /\ p !! "timestamp" = Some (VDate t0))
    /\ (exists p, p ∈ track_points (VStr flight_id) db
                  /\ p !! "timestamp" = Some (VDate t1))
    /\ log_total_duration_minutes e = duration
    /\ duration = (if (1 <? n)%nat
                   then py_round2 (div_nearest ((t1 - t0) * 1000) 1000000 / 60)
                   else 0)%float.
Proof.
  intros Hok (departure_time & arrival_time & Hne & Hn & Hhead & Hlast & Hdur & ->)
           %complete_flight_completed.
  cbv zeta in *.
  set (path_data := sort_by_timestamp (track_points (VStr flight_id) db)) in *.
  assert (Hperm : path_data ≡ₚ track_points (VStr flight_id) db)
    by apply sort_by_timestamp_perm.
  assert (Hsorted : StronglySorted not_later path_data)
    by apply sort_by_timestamp_sorted.
  assert (Hpok : Forall point_ok path_data)
    by (by apply sort_by_timestamp_Forall, find_Forall).
  destruct (track_ends_dated _ Hpok Hne) as (t0 & t1 & E0 & E1).
  rewrite E0 in Hhead. rewrite E1 in Hlast.
  injection Hhead as <-. injection Hlast as <-.
  apply bind_Some in E0 as (first & Hfirst & Ht0).
  apply bind_Some in E1 as (final & Hfinal & Ht1).
  assert (Hlen : length path_data = length (track_points (VStr flight_id) db))
    by apply sort_by_timestamp_length.
  eexists _, t0, t1. cbn [logs log_total_tracking_points log_path log_flight_details
                           log_departure_time log_arrival_time
                           log_total_duration_minutes].
  split; [reflexivity|].
  split; [congruence|].
  split; [destruct path_data; [done|cbn in Hn; lia]|].
  split; [done|]. split; [done|]. split; [done|]. split; [done|].
  split; [done|]. split; [done|].
  split; [|split; [|split; [|split; [done|]]]].
  - intros p t Hp Ht. rewrite <- Hperm in Hp. split.
    + apply (not_later_dated first p); [done..|]. by eapply sorted_head_first.
    + apply (not_later_dated p final); [done..|]. by eapply sorted_last_latest.
  - exists first. split; [|done]. rewrite <- Hperm. by eapply head_Some_elem_of.
  - exists final. split; [|done]. rewrite <- Hperm. by eapply last_Some_elem_of.
  - rewrite <- Hn in Hdur. destruct (1 <? n)%nat; [|congruence].
    unfold track_duration in Hdur. rewrite Hfirst, Hfinal in Hdur. cbn in Hdur.
    rewrite Ht0, Ht1 in Hdur. cbn in Hdur. congruence.
Qed.

Lemma archive_entry_spans_the_track_witness :
  exists (e : log_entry) (t0 t1 : Z),
    logs (complete_flight 9 "TST1" sweep_sample).2 = logs sweep_sample ++ [e]
    /\ 2%nat = length (track_points (VStr "TST1") sweep_sample)
    /\ (1 <= 2)%nat
    /\ log_total_tracking_points e = 2%nat
    /\ log_path e ≡ₚ track_points (VStr "TST1") sweep_sample
    /\ StronglySorted not_later (log_path e)
    /\ log_flight_details e = flight_state (VStr "TST1") sweep_sample
    /\ log_departure_time e = VDate t0
    /\ log_arrival_time e = VDate t1
    /\ (forall p t, p ∈ track_points (VStr "TST1") sweep_sample ->
                    p !! "timestamp" = Some (VDate t) -> t0 <= t <= t1)
    /\ (exists p, p ∈ track_points (VStr "TST1") sweep_sample
                  /\ p !! "timestamp" = Some (VDate t0))
    /\ (exists p, p ∈ track_points (VStr "TST1") sweep_sample
                  /\ p !! "timestamp" = Some (VDate t1))
    /\ log_total_duration_minutes e = 330%float
    /\ 330%float = (if (1 <? 2)%nat
                    then py_round2 (div_nearest ((t1 - t0) * 1000) 1000000 / 60)
                    else 0)%float.
Proof.
  apply (archive_entry_spans_the_track 9 "TST1" sweep_sample
           (complete_flight 9 "TST1" sweep_sample).2 2 330).
  - apply sweep_sample_points_ok.
  - vm_compute. reflexivity.
Defined.

(** ** What every reachable store satisfies *)

Section Readable.
Context `{Runtime}.

Lemma elem_of_update_one_set (f : string) (q : value) (upd : doc) (c : list doc)
    (x : doc) :
  x ∈ update_one_set f q upd c -> x ∈ c \/ exists d, x = upd ∪ d.
Proof.
  induction c as [|d c IH]; cbn [update_one_set].
  - intros ->%list_elem_of_singleton. eauto.
  - destruct (matches f q d).
    + intros [->|Hx]%elem_of_cons; [eauto|]. left. by apply list_elem_of_further.
    + intros [->|Hx]%elem_of_cons; [left; apply list_elem_of_here|].
      destruct (IH Hx) as [?|?]; [left; by apply list_elem_of_further|by right].
Qed.

Lemma has_points_more (db db' : store) (f : doc) :
  (forall p, p ∈ tracking db -> p ∈ tracking db') ->
  has_points db f = true -> has_points db' f = true.
Proof.
  unfold has_points. intros Hsub (p & Hp%list_elem_of_In & Hm)%existsb_exists.
  apply existsb_exists. exists p. split; [|done]. by apply list_elem_of_In, Hsub.
Qed.

(** The entry of an archived track agrees with its path. *)
Lemma entry_of_track_ok (id : value) (db : store) (details : option doc) (now : Z)
    (departure_time arrival_time : value) (duration : float)
    (summary : option auto_summary) :
  let path_data := sort_by_timestamp (track_points id db) in
  path_data ≠ [] ->
  head path_data ≫= (.!! "timestamp") = Some departure_time ->
  last path_data ≫= (.!! "timestamp") = Some arrival_time ->
  entry_ok {| log_flight_id := id;
              log_path := path_data;
              log_flight_details := details;
              log_completed_at := now;
              log_total_tracking_points := length path_data;
              log_departure_time := departure_time;
              log_arrival_time := arrival_time;
              log_total_duration_minutes := duration;
              log_auto_completed := summary |}.
Proof.
  intros path_data Hne Hhead Hlast. unfold entry_ok. cbn.
  repeat split; try done.
  - apply sort_by_timestamp_sorted.
  - apply sort_by_timestamp_Forall, Forall_forall.
    by intros p [_ Hp]%elem_of_find.
Qed.

Lemma readable_archive (db : store) (id : value) (e : log_entry) :
  readable db -> entry_ok e ->
  readable {| flights := delete_one (by_flight_id id) (flights db);
              tracking := delete_many (by_flight_id id) (tracking db);
              logs := logs db ++ [e] |}.
Proof.
  intros (Hok & Hst & Hpts & Htr & Hlogs) He.
  split; [by apply store_ok_archive|]. cbn [flights tracking logs].
  split; [by apply delete_one_Forall|].
  split; [by apply delete_many_Forall|].
  split; [|by apply Forall_app; split; [|apply Forall_singleton]].
  intros f Hf. cbn [flights] in Hf.
  pose proof (Htr f (elem_of_delete_one _ _ _ Hf)) as Hp.
  unfold has_points in *. cbn [tracking].
  apply existsb_exists in Hp as (p & Hp%list_elem_of_In & Hm).
  apply existsb_exists. exists p. split; [|done].
  apply list_elem_of_In, elem_of_delete_many. split; [done|].
  apply not_true_iff_false. intros Hid.
  destruct Hok as (Hnd & _ & _).
  apply (delete_one_removes_key id (flights db) Hnd).
  apply matches_true in Hm, Hid.
  rewrite <- Hid, Hm.
  change (key_of (field f "flight_id")) with (field_key "flight_id" f).
  by apply list_elem_of_fmap_2.
Qed.

Lemma full_stored_point (now ts : Z) (data data1 : doc) :
  forallb (has_field data) required_fields = true ->
  check_numeric_fields data = inr data1 ->
  full_point (stored_point now ts data1).
Proof.
  intros Hreq Hcheck.
  assert (Hkept : forall k, k ∈ ["flight_id"; "status"]%string ->
                            is_Some (stored_point now ts data1 !! k)).
  { intros k Hk. rewrite (stored_point_keeps _ _ _ _ Hcheck).
    - destruct (required_field_present data k Hreq) as [v Hv]; [|by exists v].
      unfold required_fields. rewrite !elem_of_cons in *. tauto.
    - unfold numeric_fields. rewrite !elem_of_cons, elem_of_nil in Hk.
      rewrite !not_elem_of_cons, elem_of_nil.
      destruct Hk as [-> | [-> | []]]; repeat split; (discriminate || tauto).
    - rewrite !elem_of_cons, elem_of_nil in Hk. by destruct Hk as [-> | [-> | []]].
    - rewrite !elem_of_cons, elem_of_nil in Hk. by destruct Hk as [-> | [-> | []]]. }
  assert (Hnum : forall k, k ∈ numeric_fields ->
                           is_Some (stored_point now ts data1 !! k)).
  { intros k Hk. destruct (stored_point_number now ts _ _ Hcheck k Hk) as (x & _ & Hx).
    by exists (VNum x). }
  destruct (stored_point_timestamp now ts data1) as [Hts Hnow].
  split; [by exists ts|]. split; [by exists now|].
  split; [apply Hkept; rewrite !elem_of_cons; tauto|].
  unfold location_fields. repeat apply Forall_cons_2; [..|constructor].
  - apply Hnum. unfold numeric_fields. rewrite !elem_of_cons. tauto.
  - apply Hnum. unfold numeric_fields. rewrite !elem_of_cons. tauto.
  - apply Hnum. unfold numeric_fields. rewrite !elem_of_cons. tauto.
  - apply Hnum. unfold numeric_fields. rewrite !elem_of_cons. tauto.
  - apply Hnum. unfold numeric_fields. rewrite !elem_of_cons. tauto.
  - apply Hkept. rewrite !elem_of_cons. tauto.
Qed.

Lemma update_flight_readable (now : Z) (data : doc) (db : store) :
  readable db -> readable (update_flight now data db).2.
Proof.
  intros Hdb.
  pose proof (update_flight_store_ok now data db (proj1 Hdb)) as Hok'.
  destruct Hdb as (Hok & Hst & Hpts & Htr & Hlogs).
  destruct (update_flight_writes now data db)
    as [->|(data1 & s & ts & Hreq & Hcheck & Hts & Hparse & Hcases)]; [done|].
  pose proof (full_stored_point now ts _ _ Hreq Hcheck) as Hfull.
  assert (Hpts' : Forall full_point (tracking db ++ [stored_point now ts data1]))
    by (apply Forall_app; split; [done|by apply Forall_singleton]).
  assert (Hmore : forall p, p ∈ tracking db ->
                            p ∈ tracking db ++ [stored_point now ts data1])
    by (intros p Hp; apply elem_of_app; by left).
  destruct Hcases as [[Hres _]|(upd & Hadd & Hres)]; rewrite Hres in Hok' |- *;
    cbn [snd] in *; (split; [done|]); cbn [flights tracking logs].
  - split; [done|]. split; [done|]. split; [|done].
    intros f Hf. apply (has_points_more db); [done|by apply Htr].
  - pose proof (flight_update_dates _ _ _ _ Hadd) as [Hlast Hrecv].
    assert (Hid : upd !! "flight_id" = Some (field data "flight_id")).
    { rewrite (flight_update_sets_flight_id _ _ Hadd). unfold field.
      rewrite (stored_point_keeps _ _ _ _ Hcheck); [done| |done|done].
      unfold numeric_fields. rewrite !not_elem_of_cons, elem_of_nil.
      repeat split; (discriminate || tauto). }
    split; [|split; [done|split; [|done]]].
    + apply update_one_set_Forall; [| |done].
      * intros x _. split; eexists; by apply lookup_union_Some_l.
      * split; eexists; by apply lookup_union_Some_l.
    + intros f [Hf|[d ->]]%elem_of_update_one_set.
      * apply (has_points_more db); [done|by apply Htr].
      * unfold has_points. cbn [tracking]. rewrite existsb_app.
        apply orb_true_iff. right. cbn [existsb]. rewrite orb_false_r.
        apply matches_true. unfold field, field_key.
        rewrite (lookup_union_Some_l _ _ _ _ Hid). cbn [default].
        rewrite (stored_point_keeps _ _ _ _ Hcheck); [done| |done|done].
        unfold numeric_fields. rewrite !not_elem_of_cons, elem_of_nil.
        repeat split; (discriminate || tauto).
Qed.

Lemma complete_flight_answer (now : Z) (flight_id : string) (db : store) :
  (complete_flight now flight_id db).2 = db
  \/ exists n duration db',
       complete_flight now flight_id db = (Completed flight_id n duration, db').
Proof.
  unfold complete_flight. destruct (bool_decide _); [by left|].
  destruct (_ ≫= _); [right; eauto|by left].
Qed.

Lemma complete_flight_readable (now : Z) (flight_id : string) (db : store) :
  readable db -> readable (complete_flight now flight_id db).2.
Proof.
  intros Hdb.
  destruct (complete_flight_answer now flight_id db) as [->|(n & duration & db' & E)];
    [done|].
  rewrite E. cbn [snd].
  apply complete_flight_completed in E
    as (departure_time & arrival_time & Hne & _ & Hhead & Hlast & _ & ->).
  apply readable_archive; [done|]. by apply entry_of_track_ok.
Qed.

Lemma auto_complete_flight_readable (now : Z) (flight : doc) (db db' : store)
    (archived : bool) :
  readable db -> auto_complete_flight now flight db = Some (archived, db') ->
  readable db'.
Proof.
  intros Hdb E. destruct archived.
  - apply auto_complete_flight_archived in E
      as (id & departure_time & arrival_time & dur & summary
          & _ & Hne & Hhead & Hlast & _ & _ & ->).
    apply readable_archive; [done|]. by apply entry_of_track_ok.
  - apply auto_complete_flight_outcome in E
      as (id & _ & [[_ [= ->]]|(_ & e & [=] & _)]). done.
Qed.

Lemma auto_complete_loop_readable (now : Z) (landed_flights : list doc) (db : store)
    (completed_count : nat) :
  readable db -> readable (auto_complete_loop now landed_flights db completed_count).2.
Proof.
  revert db completed_count.
  induction landed_flights as [|flight rest IH]; intros db n Hdb;
    cbn [auto_complete_loop]; [done|].
  destruct (auto_complete_flight now flight db) as [[a db1]|] eqn:E; [|done].
  apply IH. by eapply auto_complete_flight_readable.
Qed.

Lemma handle_readable (r : request) (db : store) :
  readable db -> readable (handle r db).2.
Proof.
  destruct r as [now data|now flight_id|now]; cbn [handle].
  - apply update_flight_readable.
  - apply complete_flight_readable.
  - apply auto_complete_loop_readable.
Qed.

Lemma reachable_readable (db : store) : reachable db -> readable db.
Proof.
  induction 1 as [|r db _ IH]; [|by apply handle_readable].
  split; [apply empty_store_ok|]. cbn.
  split; [constructor|]. split; [constructor|]. split; [|constructor].
  intros f Hf. by apply elem_of_nil in Hf.
Qed.

End Readable.

(** ** The position at a time *)

Section AtTime.
Context `{Runtime}.

Lemma sort_by_timestamp_desc_nil (l : list doc) :
  sort_by_timestamp_desc l = [] <-> l = [].
Proof.
  split; [|by intros ->].
  intros E. apply Permutation_nil_r. rewrite <- E.
  symmetry. apply sort_by_timestamp_desc_perm.
Qed.

Lemma latest_of_sorted (l rest : list doc) (p : doc) :
  sort_by_timestamp_desc l = p :: rest ->
  p ∈ l /\ forall p', p' ∈ l -> not_later p' p.
Proof.
  intros E. pose proof (sort_by_timestamp_desc_perm l) as Hperm.
  pose proof (sort_by_timestamp_desc_sorted l) as Hsorted.
  rewrite E in Hperm, Hsorted. split.
  - rewrite <- Hperm. apply list_elem_of_here.
  - intros p' Hp'. rewrite <- Hperm in Hp'.
    apply elem_of_cons in Hp' as [->|Hp']; [apply not_later_refl|].
    apply StronglySorted_inv in Hsorted as [_ Hall].
    rewrite Forall_forall in Hall. by apply Hall.
Qed.

Lemma matches_lte_true (f : string) (bound : Z) (d : doc) :
  matches_lte f bound d = true <-> exists t, d !! f = Some (VDate t) /\ t <= bound.
Proof.
  unfold matches_lte. split.
  - destruct (d !! f) as [[| | | |t]|]; try done. intros Ht%Z.leb_le. eauto.
  - intros (t & -> & Ht). by apply Z.leb_le.
Qed.

(** The body that [get_flight_location_at_time] makes of a full point. *)
Lemma location_body (flight_id : string) (target_time t : Z) (p : doc) :
  full_point p -> p !! "timestamp" = Some (VDate t) ->
  (point ← isoformat_field "timestamp" (fetched p);
   point ← isoformat_field "received_at" point;
   actual_time ← point !! "timestamp";
   latitude ← point !! "latitude";
   longitude ← point !! "longitude";
   altitude ← point !! "altitude";
   speed ← point !! "speed";
   heading ← point !! "heading";
   status ← point !! "status";
   Some {| at_flight_id := flight_id;
           requested_time := IsoText target_time;
           actual_time := actual_time;
           at_location :=
             {| loc_latitude := latitude;
                loc_longitude := longitude;
                loc_altitude := altitude;
                loc_speed := speed;
                loc_heading := heading;
                loc_status := status |} |})
  = Some {| at_flight_id := flight_id;
            requested_time := IsoText target_time;
            actual_time := IsoText t;
            at_location := location_of p |}.
Proof.
  intros (_ & [r Hr] & _ & Hfields) Ht.
  rewrite (isoformat_field_fetched _ _ _ Ht). cbn [mbind option_bind].
  unfold isoformat_field at 1. rewrite lookup_insert_ne by done.
  unfold fetched at 1. rewrite lookup_fmap, Hr. cbn [fmap option_fmap option_map].
  cbn [mbind option_bind].
  set (point := <["received_at" := IsoText r]> _).
  assert (Hl : forall k v, k ≠ "timestamp"%string -> k ≠ "received_at"%string ->
                           p !! k = Some v -> point !! k = Some (Stored v)).
  { intros k v ? ? Hk. unfold point, fetched.
    by rewrite !lookup_insert_ne, lookup_fmap, Hk by done. }
  assert (Hactual : point !! "timestamp" = Some (IsoText t)).
  { unfold point. by rewrite lookup_insert_ne, lookup_insert_eq by done. }
  rewrite Hactual. cbn [mbind option_bind].
  unfold location_fields in Hfields.
  repeat match goal with
         | Hf : Forall _ (_ :: _) |- _ =>
             apply Forall_cons_1 in Hf as [[? ?] Hf]
         end.
  unfold location_of, field.
  repeat match goal with
         | E : p !! ?k = Some ?v |- context [point !! ?k] =>
             rewrite (Hl k v) by done; rewrite !E; cbn [mbind option_bind default]
         end.
  done.
Qed.

End AtTime.

(** X7. On a store that the service can reach, a request for the
    position of a flight at a time that parses answers 404 when every
    point of the flight is later; otherwise it answers with a point of the
    flight that is not later than the requested time and that no other
    such point of the flight comes after, with the six location fields of
    that point as they are stored. *)
Theorem location_at_time_is_the_latest_point `{Runtime} (flight_id s : string)
    (target_time : Z) (db : store) :
  reachable db ->
  s ≠ ""%string ->
  fromisoformat (replace_Z s) = Some target_time ->
  ((forall p t, p ∈ track_points (VStr flight_id) db ->
                p !! "timestamp" = Some (VDate t) -> target_time < t) ->
   get_flight_location_at_time flight_id (Some s) db
   = JsonError 404 "No tracking data found for the specified time")
  /\ (forall p0 t0,
        p0 ∈ track_points (VStr flight_id) db ->
        p0 !! "timestamp" = Some (VDate t0) -> t0 <= target_time ->
        exists (p : doc) (t : Z),
          get_flight_location_at_time flight_id (Some s) db
          = Json {| at_flight_id := flight_id;
                    requested_time := IsoText target_time;
                    actual_time := IsoText t;
                    at_location := location_of p |}
          /\ p ∈ track_points (VStr flight_id) db
          /\ p !! "timestamp" = Some (VDate t)
          /\ t0 <= t <= target_time
          /\ forall p' t', p' ∈ track_points (VStr flight_id) db ->
                           p' !! "timestamp" = Some (VDate t') ->
                           t' <= target_time -> t' <= t).
Proof.
  intros (_ & _ & Hpts & _)%reachable_readable Hs Hparse.
  unfold get_flight_location_at_time.
  assert (Htruthy : truthy (VStr s) = true).
  { cbn. apply negb_true_iff, String.eqb_neq. done. }
  rewrite Htruthy, Hparse. cbn [negb].
  set (seen := find (fun d => by_flight_id (VStr flight_id) d
                              && matches_lte "timestamp" target_time d)
                 (tracking db)).
  assert (Hseen : forall p, p ∈ seen
                  <-> p ∈ track_points (VStr flight_id) db
                      /\ exists t, p !! "timestamp" = Some (VDate t) /\ t <= target_time).
  { intros p. unfold seen, track_points.
    rewrite !elem_of_find, andb_true_iff, matches_lte_true. tauto. }
  split.
  - intros Hlater.
    assert (Hnone : seen = []).
    { apply elem_of_nil_inv. intros p (Hp & t & Ht & Hle)%Hseen.
      specialize (Hlater p t Hp Ht). lia. }
    by rewrite Hnone.
  - intros p0 t0 Hp0 Ht0 Hle0.
    assert (Hin0 : p0 ∈ seen) by (apply Hseen; eauto).
    destruct (sort_by_timestamp_desc seen) as [|p rest] eqn:Esort.
    { apply (proj1 (sort_by_timestamp_desc_nil _)) in Esort. rewrite Esort in Hin0.
      by apply elem_of_nil in Hin0. }
    destruct (latest_of_sorted _ _ _ Esort) as [Hp Hlatest].
    apply Hseen in Hp as (Hp & t & Ht & Hle).
    assert (Hfull : full_point p).
    { rewrite Forall_forall in Hpts. apply Hpts.
      unfold track_points in Hp. by apply elem_of_find in Hp as [? _]. }
    exists p, t. cbn [take].
    rewrite (location_body flight_id target_time t p Hfull Ht).
    split; [done|]. split; [done|]. split; [done|]. split.
    + split; [|done]. apply (not_later_dated p0 p); [done..|]. by apply Hlatest.
    + intros p' t' Hp' Ht' Hle'.
      apply (not_later_dated p' p); [done..|]. apply Hlatest, Hseen. eauto.
Qed.

Lemma location_at_time_is_the_latest_point_witness :
  ((forall p t, p ∈ track_points (VStr "TST1") tracked_twice ->
                p !! "timestamp" = Some (VDate t) -> 1705309200000 < t) ->
   get_flight_location_at_time (H := Reference.runtime) "TST1"
     (Some "2024-01-15T09:00:00Z"%string) tracked_twice
   = JsonError 404 "No tracking data found for the specified time")
  /\ (forall p0 t0,
        p0 ∈ track_points (VStr "TST1") tracked_twice ->
        p0 !! "timestamp" = Some (VDate t0) -> t0 <= 1705309200000 ->
        exists (p : doc) (t : Z),
          get_flight_location_at_time (H := Reference.runtime) "TST1"
            (Some "2024-01-15T09:00:00Z"%string) tracked_twice
          = Json {| at_flight_id := "TST1";
                    requested_time := IsoText 1705309200000;
                    actual_time := IsoText t;
                    at_location := location_of p |}
          /\ p ∈ track_points (VStr "TST1") tracked_twice
          /\ p !! "timestamp" = Some (VDate t)
          /\ t0 <= t <= 1705309200000
          /\ forall p' t', p' ∈ track_points (VStr "TST1") tracked_twice ->
                           p' !! "timestamp" = Some (VDate t') ->
                           t' <= 1705309200000 -> t' <= t).
Proof.
  apply (location_at_time_is_the_latest_point (H := Reference.runtime) "TST1"
           "2024-01-15T09:00:00Z" 1705309200000 tracked_twice).
  - apply run_reachable.
  - discriminate.
  - vm_compute. reflexivity.
Defined.

(** ** After the archival *)

Section Gone.
Context `{Runtime}.

(** The answers about a flight that has neither a state nor points. *)
Lemma reads_of_no_flight (flight_id : string) (db : store) :
  flight_state (VStr flight_id) db = None ->
  track_points (VStr flight_id) db = [] ->
  get_latest_flight_data flight_id db = JsonError 404 "Flight not found"
  /\ get_flight_history flight_id db = JsonError 404 "No tracking data found"
  /\ get_flight_route flight_id db = JsonError 404 "Flight not found"
  /\ get_flight_path_with_destination flight_id db = JsonError 404 "Flight not found"
  /\ (forall s target_time,
        s ≠ ""%string -> fromisoformat (replace_Z s) = Some target_time ->
        get_flight_location_at_time flight_id (Some s) db
        = JsonError 404 "No tracking data found for the specified time")
  /\ forall now,
       complete_flight now flight_id db = (Error 404 "No data for this flight", db).
Proof.
  unfold flight_state, track_points. intros Hstate Htrack.
  unfold get_latest_flight_data, get_flight_history, get_flight_route,
    get_flight_path_with_destination, complete_flight.
  rewrite Hstate, Htrack. repeat (split; [done|]). split; [|done].
  intros s target_time Hs Hparse. unfold get_flight_location_at_time.
  assert (Htruthy : truthy (VStr s) = true).
  { cbn. apply negb_true_iff, String.eqb_neq. done. }
  rewrite Htruthy, Hparse. cbn [negb].
  assert (Hnone : find (fun d => by_flight_id (VStr flight_id) d
                                 && matches_lte "timestamp" target_time d)
                    (tracking db) = []).
  { apply find_nil. intros d Hd.
    rewrite (proj1 (find_nil _ _) Htrack d Hd). done. }
  by rewrite Hnone.
Qed.

End Gone.

(** X8. Once [complete_flight] has archived a flight of a store that the
    service can reach, the flight is gone from the live side: the latest
    state, the history, the route, the path and the position at any time
    all answer 404, and so does a second request to archive it, which
    changes nothing. *)
Theorem archived_flight_is_not_found `{Runtime} (now : Z) (flight_id : string)
    (db db' : store) (n : nat) (duration : float) :
  reachable db ->
  complete_flight now flight_id db = (Completed flight_id n duration, db') ->
  get_latest_flight_data flight_id db' = JsonError 404 "Flight not found"
  /\ get_flight_history flight_id db' = JsonError 404 "No tracking data found"
  /\ get_flight_route flight_id db' = JsonError 404 "Flight not found"
  /\ get_flight_path_with_destination flight_id db' = JsonError 404 "Flight not found"
  /\ (forall s target_time,
        s ≠ ""%string -> fromisoformat (replace_Z s) = Some target_time ->
        get_flight_location_at_time flight_id (Some s) db'
        = JsonError 404 "No tracking data found for the specified time")
  /\ forall now',
       complete_flight now' flight_id db' = (Error 404 "No data for this flight", db').
Proof.
  intros (Hnd & _)%reachable_store_ok
         (departure_time & arrival_time & _ & _ & _ & _ & _ & ->)
           %complete_flight_completed.
  apply reads_of_no_flight.
  - unfold flight_state. cbn [flights]. apply find_one_None.
    intros d Hd. apply matches_false. intros Hk.
    apply (delete_one_removes_key (VStr flight_id) (flights db) Hnd).
    rewrite <- Hk. by apply list_elem_of_fmap_2.
  - unfold track_points. cbn [tracking]. apply find_delete_many.
Qed.

Lemma archived_flight_is_not_found_witness :
  get_latest_flight_data "TST1" (complete_flight 5 "TST1" tracked_twice).2
  = JsonError 404 "Flight not found"
  /\ get_flight_history "TST1" (complete_flight 5 "TST1" tracked_twice).2
     = JsonError 404 "No tracking data found"
  /\ get_flight_route "TST1" (complete_flight 5 "TST1" tracked_twice).2
     = JsonError 404 "Flight not found"
  /\ get_flight_path_with_destination "TST1" (complete_flight 5 "TST1" tracked_twice).2
     = JsonError 404 "Flight not found"
  /\ (forall s target_time,
        s ≠ ""%string ->
        fromisoformat (Runtime := Reference.runtime) (replace_Z s) = Some target_time ->
        get_flight_location_at_time (H := Reference.runtime) "TST1" (Some s)
          (complete_flight 5 "TST1" tracked_twice).2
        = JsonError 404 "No tracking data found for the specified time")
  /\ forall now',
       complete_flight now' "TST1" (complete_flight 5 "TST1" tracked_twice).2
       = (Error 404 "No data for this flight", (complete_flight 5 "TST1" tracked_twice).2).
Proof.
  apply (archived_flight_is_not_found (H := Reference.runtime) 5 "TST1" tracked_twice
           (complete_flight 5 "TST1" tracked_twice).2 2 120).
  - apply run_reachable.
  - vm_compute. reflexivity.
Defined.

(** ** The sweep, again *)

Section SweepAgain.
Context `{Runtime}.

(** After a sweep that returns, no flight it looked at has points, and
    nothing was added to the two live collections. *)
Lemma auto_complete_loop_settles (now : Z) (landed_flights : list doc)
    (db db' : store) (completed_count n : nat) :
  auto_complete_loop now landed_flights db completed_count = (AutoCompleted n, db') ->
  (forall f, f ∈ landed_flights ->
             exists id, f !! "flight_id" = Some id /\ track_points id db' = [])
  /\ (forall d, d ∈ flights db' -> d ∈ flights db)
  /\ (forall p, p ∈ tracking db' -> p ∈ tracking db).
Proof.
  revert db completed_count.
  induction landed_flights as [|flight rest IH]; intros db c; cbn [auto_complete_loop].
  - intros [= _ <-]. split; [|done]. intros f Hf. by apply elem_of_nil in Hf.
  - destruct (auto_complete_flight now flight db) as [[a db1]|] eqn:E; [|discriminate].
    intros (Hrest & Hfl & Htr)%IH.
    apply auto_complete_flight_outcome in E as (id & Hid & Hcases).
    assert (Hstep : track_points id db1 = []
                    /\ (forall d, d ∈ flights db1 -> d ∈ flights db)
                    /\ (forall p, p ∈ tracking db1 -> p ∈ tracking db)).
    { destruct Hcases as [[Hnone [= _ ->]]|(_ & e & [= _ ->] & _)]; [done|].
      split; [apply find_delete_many|]. cbn [flights tracking]. split.
      - intros d. apply elem_of_delete_one.
      - by intros p [? _]%elem_of_delete_many. }
    destruct Hstep as (Hnone & Hfl1 & Htr1).
    split; [|split; [by auto|by auto]].
    intros f [->|Hf]%elem_of_cons; [|by apply Hrest].
    exists id. split; [done|]. apply find_nil. intros p Hp.
    by apply (proj1 (find_nil _ _) Hnone), Htr.
Qed.

(** A sweep over flights without points archives nothing. *)
Lemma auto_complete_loop_idle (now : Z) (landed_flights : list doc) (db : store)
    (completed_count : nat) :
  (forall f, f ∈ landed_flights ->
             exists id, f !! "flight_id" = Some id /\ track_points id db = []) ->
  auto_complete_loop now landed_flights db completed_count
  = (AutoCompleted completed_count, db).
Proof.
  induction landed_flights as [|flight rest IH]; intros Hidle; [done|].
  cbn [auto_complete_loop].
  destruct (Hidle flight) as (id & Hid & Hnone); [apply list_elem_of_here|].
  unfold auto_complete_flight. rewrite Hid. cbn [mbind option_bind].
  unfold track_points in Hnone. rewrite Hnone. cbn.
  apply IH. intros f Hf. apply Hidle. by apply list_elem_of_further.
Qed.

End SweepAgain.

(** X9. A sweep that has returned leaves nothing for the next one: run
    again on the store it produced, at any time, the sweep archives no
    flight and changes nothing. *)
Theorem second_sweep_archives_nothing `{Runtime} (now now' : Z) (db db' : store)
    (n : nat) :
  auto_complete_landed_flights now db = (AutoCompleted n, db') ->
  auto_complete_landed_flights now' db' = (AutoCompleted 0, db').
Proof.
  unfold auto_complete_landed_flights.
  intros (Hdone & Hfl & _)%auto_complete_loop_settles.
  apply auto_complete_loop_idle.
  intros f [Hf Hlanded]%elem_of_find.
  apply Hdone, elem_of_find. split; [by apply Hfl|done].
Qed.

Lemma second_sweep_archives_nothing_witness :
  auto_complete_landed_flights (H := Reference.runtime) 8
    (auto_complete_landed_flights (H := Reference.runtime) 7 sweep_sample).2
  = (AutoCompleted 0,
     (auto_complete_landed_flights (H := Reference.runtime) 7 sweep_sample).2).
Proof.
  apply (second_sweep_archives_nothing (H := Reference.runtime) 7 8 sweep_sample
           (auto_complete_landed_flights (H := Reference.runtime) 7 sweep_sample).2 1).
  vm_compute. reflexivity.
Defined.

(** X10. The sweep archives a flight as [complete_flight] would at the
    same time: the same state and the same points leave the live
    collections, and the two archive entries differ only in the summary
    that the sweep adds. *)
Theorem sweep_archives_as_complete_flight `{Runtime} (now : Z) (flight : doc)
    (flight_id : string) (db db' : store) :
  flight !! "flight_id" = Some (VStr flight_id) ->
  auto_complete_flight now flight db = Some (true, db') ->
  exists (e : log_entry) (db'' : store),
    logs db' = logs db ++ [e]
    /\ is_Some (log_auto_completed e)
    /\ complete_flight now flight_id db
       = (Completed flight_id (log_total_tracking_points e)
            (log_total_duration_minutes e), db'')
    /\ flights db'' = flights db'
    /\ tracking db'' = tracking db'
    /\ logs db'' = logs db ++ [without_summary e].
Proof.
  intros Hid (id & departure_time & arrival_time & dur & summary
              & Hid' & Hne & Hhead & Hlast & Hdur & _ & ->)%auto_complete_flight_archived.
  cbv zeta in *. rewrite Hid in Hid'. injection Hid' as <-.
  eexists _, _. cbn [logs]. split; [reflexivity|].
  cbn [log_auto_completed log_total_tracking_points log_total_duration_minutes].
  split; [done|].
  unfold complete_flight, track_points in *.
  rewrite bool_decide_eq_false_2 by done.
  rewrite Hhead, Hlast. cbn [mbind option_bind].
  assert (Hminutes :
            (if (1 <? length (sort_by_timestamp
                                (find (by_flight_id (VStr flight_id)) (tracking db))))%nat
             then py_round2 <$> track_duration
                                  (sort_by_timestamp
                                     (find (by_flight_id (VStr flight_id)) (tracking db)))
             else Some 0%float) = Some (py_round2 dur)).
  { destruct (1 <? _)%nat; [by rewrite Hdur|].
    injection Hdur as <-. by vm_compute. }
  rewrite Hminutes. cbn [mbind option_bind log_total_duration_minutes].
  split; [reflexivity|]. done.
Qed.

Lemma sweep_archives_as_complete_flight_witness :
  exists (e : log_entry) (db'' : store),
    logs (auto_complete_landed_flights (H := Reference.runtime) 7 sweep_sample).2
    = logs sweep_sample ++ [e]
    /\ is_Some (log_auto_completed e)
    /\ complete_flight 7 "TST1" sweep_sample
       = (Completed "TST1" (log_total_tracking_points e)
            (log_total_duration_minutes e), db'')
    /\ flights db''
       = flights (auto_complete_landed_flights (H := Reference.runtime) 7 sweep_sample).2
    /\ tracking db''
       = tracking (auto_complete_landed_flights (H := Reference.runtime) 7 sweep_sample).2
    /\ logs db'' = logs sweep_sample ++ [without_summary e].
Proof.
  apply (sweep_archives_as_complete_flight (H := Reference.runtime) 7
           (state "TST1" "landed") "TST1" sweep_sample
           (auto_complete_landed_flights (H := Reference.runtime) 7 sweep_sample).2).
  - vm_compute. reflexivity.
  - vm_compute. reflexivity.
Defined.

(** ** Stores that the service can reach *)

Section OnReachable.
Context `{Runtime}.

Lemma active_has_state (q : value) (db : store) :
  active q db -> exists f, f ∈ flights db /\ field_key "flight_id" f = key_of q.
Proof.
  unfold active. intros (f & Hk & Hf)%list_elem_of_fmap. eauto.
Qed.

Lemma track_points_of_state (q : value) (f : doc) (db : store) :
  field_key "flight_id" f = key_of q ->
  track_points q db = track_points (field f "flight_id") db.
Proof.
  intros Hk. unfold track_points, find. apply List.filter_ext. intros d.
  unfold by_flight_id. apply matches_key. by rewrite <- Hk.
Qed.

End OnReachable.

(** X11. In a store that the service can reach, every active flight has
    at least one point in the history, so a request to archive an active
    flight is never answered 404: it completes, with a count of at least
    one. *)
Theorem active_flight_can_be_archived `{Runtime} (now : Z) (flight_id : string)
    (db : store) :
  reachable db ->
  active (VStr flight_id) db ->
  track_points (VStr flight_id) db ≠ []
  /\ exists (n : nat) (duration : float) (db' : store),
       complete_flight now flight_id db = (Completed flight_id n duration, db')
       /\ (1 <= n)%nat.
Proof.
  intros ((Hnd & Hids & Hpts) & _ & _ & Htracked & _)%reachable_readable
         (f & Hf & Hk)%active_has_state.
  assert (Hne : track_points (VStr flight_id) db ≠ []).
  { rewrite (track_points_of_state _ f) by done. apply has_points_true. by apply Htracked. }
  split; [done|].
  destruct (complete_flight_succeeds now flight_id db Hpts Hne) as (e & Hc & _).
  eexists _, _, _. split; [exact Hc|].
  destruct (track_points (VStr flight_id) db); [done|cbn; lia].
Qed.

Lemma active_flight_can_be_archived_witness :
  track_points (VStr "TST1") tracked_twice ≠ []
  /\ exists (n : nat) (duration : float) (db' : store),
       complete_flight 5 "TST1" tracked_twice = (Completed "TST1" n duration, db')
       /\ (1 <= n)%nat.
Proof.
  apply (active_flight_can_be_archived (H := Reference.runtime) 5 "TST1" tracked_twice).
  - apply run_reachable.
  - unfold active. apply (bool_decide_unpack _). vm_compute. exact I.
Defined.

(** X12. Every entry of the archive of a store that the service can
    reach agrees with its own path: the path is not empty, it is in time
    order, all its points are of the entry's flight, the count of the
    entry is the length of the path, and the departure and arrival times
    are the timestamps of the first and of the last point. *)
Theorem archive_entries_agree_with_their_paths `{Runtime} (db : store) :
  reachable db ->
  Forall (fun e =>
            log_path e ≠ []
            /\ log_total_tracking_points e = length (log_path e)
            /\ StronglySorted not_later (log_path e)
            /\ Forall (fun p => by_flight_id (log_flight_id e) p = true) (log_path e)
            /\ head (log_path e) ≫= (.!! "timestamp") = Some (log_departure_time e)
            /\ last (log_path e) ≫= (.!! "timestamp") = Some (log_arrival_time e))
    (logs db).
Proof. by intros (_ & _ & _ & _ & Hlogs)%reachable_readable. Qed.

Lemma archive_entries_agree_with_their_paths_witness :
  Forall (fun e =>
            log_path e ≠ []
            /\ log_total_tracking_points e = length (log_path e)
            /\ StronglySorted not_later (log_path e)
            /\ Forall (fun p => by_flight_id (log_flight_id e) p = true) (log_path e)
            /\ head (log_path e) ≫= (.!! "timestamp") = Some (log_departure_time e)
            /\ last (log_path e) ≫= (.!! "timestamp") = Some (log_arrival_time e))
    (logs archived_once).
Proof.
  apply (archive_entries_agree_with_their_paths (H := Reference.runtime) archived_once).
  apply run_reachable.
Defined.

Section Listings.
Context `{Runtime}.

Lemma listed_states (l : list doc) :
  Forall state_ok l ->
  exists body,
    mapM (fun f => isoformat_field "last_updated" (fetched f)) l = Some body
    /\ Forall2 listed_as l body.
Proof.
  induction 1 as [|d l [[t Ht] _] _ (body & Hbody & Hlisted)].
  - by exists [].
  - exists (<["last_updated" := IsoText t]> (fetched d) :: body). split.
    + cbn. rewrite (isoformat_field_fetched _ _ _ Ht). cbn. by rewrite Hbody.
    + constructor; [|done]. by exists t.
Qed.

Lemma find_sublist (p : doc -> bool) (c : list doc) : find p c `sublist_of` c.
Proof.
  unfold find. induction c as [|d c IH]; [done|]. cbn [List.filter].
  destruct (p d); by constructor.
Qed.

Lemma latest_body (d : doc) (t r : Z) :
  d !! "last_updated" = Some (VDate t) -> d !! "received_at" = Some (VDate r) ->
  (flight ← isoformat_field "last_updated" (fetched d);
   isoformat_field "received_at" flight)
  = Some (<["received_at" := IsoText r]> (<["last_updated" := IsoText t]> (fetched d))).
Proof.
  intros Ht Hr. rewrite (isoformat_field_fetched _ _ _ Ht). cbn [mbind option_bind].
  unfold isoformat_field. rewrite lookup_insert_ne by done.
  unfold fetched at 1. by rewrite lookup_fmap, Hr.
Qed.

End Listings.

(** X13. In a store that the service can reach there is one state for
    each active flight, and [get_latest_flight_data] never raises: it
    answers 404 for a flight that is not active, and for a state of the
    store under the requested identifier it answers with that very
    state, its two dates rendered as text. *)
Theorem latest_state_is_the_only_state `{Runtime} (flight_id : string) (db : store) :
  reachable db ->
  NoDup (field_key "flight_id" <$> flights db)
  /\ (~ active (VStr flight_id) db ->
      get_latest_flight_data flight_id db = JsonError 404 "Flight not found")
  /\ (forall d, d ∈ flights db -> d !! "flight_id" = Some (VStr flight_id) ->
        exists t r,
          d !! "last_updated" = Some (VDate t)
          /\ d !! "received_at" = Some (VDate r)
          /\ get_latest_flight_data flight_id db
             = Json (<["received_at" := IsoText r]>
                       (<["last_updated" := IsoText t]> (fetched d)))).
Proof.
  intros ((Hnd & _) & Hst & _)%reachable_readable.
  split; [done|]. unfold get_latest_flight_data. split.
  - intros Hnot.
    assert (Hnone : find_one (by_flight_id (VStr flight_id)) (flights db) = None).
    { apply find_one_None. intros d Hd. apply matches_false. intros Hk.
      apply Hnot. unfold active. rewrite <- Hk. by apply list_elem_of_fmap_2. }
    by rewrite Hnone.
  - intros d Hd Hid.
    assert (Hm : by_flight_id (VStr flight_id) d = true) by (by apply matches_str).
    destruct (find_one (by_flight_id (VStr flight_id)) (flights db)) as [d'|] eqn:E.
    + apply find_one_Some_elem in E as [Hd' Hm'].
      assert (d' = d) as ->.
      { apply (same_flight_unique (flights db)); [done..|].
        unfold same_flight, field. apply matches_str in Hm'. by rewrite Hm'. }
      rewrite Forall_forall in Hst. destruct (Hst d Hd) as [[t Ht] [r Hr]].
      exists t, r. by rewrite (latest_body d t r).
    + by rewrite (proj1 (find_one_None _ _) E d Hd) in Hm.
Qed.

Lemma latest_state_is_the_only_state_witness :
  NoDup (field_key "flight_id" <$> flights tracked_twice)
  /\ (~ active (VStr "TST1") tracked_twice ->
      get_latest_flight_data "TST1" tracked_twice = JsonError 404 "Flight not found")
  /\ (forall d, d ∈ flights tracked_twice -> d !! "flight_id" = Some (VStr "TST1") ->
        exists t r,
          d !! "last_updated" = Some (VDate t)
          /\ d !! "received_at" = Some (VDate r)
          /\ get_latest_flight_data "TST1" tracked_twice
             = Json (<["received_at" := IsoText r]>
                       (<["last_updated" := IsoText t]> (fetched d)))).
Proof.
  apply (latest_state_is_the_only_state (H := Reference.runtime) "TST1" tracked_twice).
  apply run_reachable.
Defined.

(** X14. On a store that the service can reach the two listings of
    active flights never raise. [get_all_active_flights] shows every
    state of the store, in the order of the store; [get_flights_by_route]
    shows, in that order, exactly the states whose source and destination
    are the two requested strings. Each state is shown with the time of
    its last update rendered as text. *)
Theorem listings_show_the_states `{Runtime} (source destination : string) (db : store) :
  reachable db ->
  (exists body,
     get_all_active_flights db = Json body /\ Forall2 listed_as (flights db) body)
  /\ exists selected body,
       get_flights_by_route source destination db = Json body
       /\ Forall2 listed_as selected body
       /\ selected `sublist_of` flights db
       /\ forall d, d ∈ selected
                    <-> d ∈ flights db
                        /\ d !! "source" = Some (VStr source)
                        /\ d !! "destination" = Some (VStr destination).
Proof.
  intros (_ & Hst & _)%reachable_readable. split.
  - destruct (listed_states _ Hst) as (body & Hbody & Hlisted).
    exists body. unfold get_all_active_flights. by rewrite Hbody.
  - set (selected := find (fun d => matches "source" (VStr source) d
                                    && matches "destination" (VStr destination) d)
                       (flights db)).
    destruct (listed_states selected) as (body & Hbody & Hlisted);
      [by apply find_Forall|].
    exists selected, body. unfold get_flights_by_route. fold selected.
    rewrite Hbody. split; [done|]. split; [done|]. split.
    + apply find_sublist.
    + intros d. unfold selected.
      by rewrite elem_of_find, andb_true_iff, !matches_str.
Qed.

Lemma listings_show_the_states_witness :
  (exists body,
     get_all_active_flights tracked_twice = Json body
     /\ Forall2 listed_as (flights tracked_twice) body)
  /\ exists selected body,
       get_flights_by_route "JFK" "LAX" tracked_twice = Json body
       /\ Forall2 listed_as selected body
       /\ selected `sublist_of` flights tracked_twice
       /\ forall d, d ∈ selected
                    <-> d ∈ flights tracked_twice
                        /\ d !! "source" = Some (VStr "JFK")
                        /\ d !! "destination" = Some (VStr "LAX").
Proof.
  apply (listings_show_the_states (H := Reference.runtime) "JFK" "LAX" tracked_twice).
  apply run_reachable.
Defined.

(** ** The route of a flight *)

Section Route.

Lemma airport_of_string (v : value) (a : airport) :
  airport_of v = Some a -> exists A, v = VStr A /\ AIRPORTS !! A = Some a.
Proof. destruct v as [| | |A|]; try discriminate. eauto. Qed.

Lemma get_route_waypoints_unknown (source destination : value) (num_points : Z) :
  airport_of source = None \/ airport_of destination = None ->
  get_route_waypoints source destination num_points = Some [].
Proof.
  unfold get_route_waypoints.
  intros [->%airport_of_unknown | ->%airport_of_unknown]; cbn [negb];
    by rewrite ?orb_true_r.
Qed.

Lemma get_route_waypoints_known (source destination : value) (a b : airport) :
  airport_of source = Some a -> airport_of destination = Some b ->
  get_route_waypoints source destination 20 = Some (interpolate a b <$> twentieths).
Proof.
  intros (A & -> & HA)%airport_of_string (B & -> & HB)%airport_of_string.
  by apply waypoints_of_known_airports.
Qed.

(** With the default of twenty steps the waypoints never raise. *)
Lemma get_route_waypoints_defined (source destination : value) :
  get_route_waypoints source destination 20
  = Some (match airport_of source, airport_of destination with
          | Some a, Some b => interpolate a b <$> twentieths
          | _, _ => []
          end).
Proof.
  destruct (airport_of source) as [a|] eqn:Es.
  - destruct (airport_of destination) as [b|] eqn:Ed.
    + by apply get_route_waypoints_known.
    + apply get_route_waypoints_unknown. by right.
  - apply get_route_waypoints_unknown. by left.
Qed.

End Route.

(** X15. What [get_flight_route] answers for an active flight. Without a
    source or a destination that counts as true it answers 404. With
    both it never raises: for two codes of the airport table the body has
    their names and coordinates and the twenty-one waypoints between
    them; for a code that is not in the table the body has no waypoint at
    all and gives that airport the code as its name and the position
    (0, 0). *)
Theorem route_of_an_active_flight (flight_id : string) (db : store) (flight : doc) :
  flight_state (VStr flight_id) db = Some flight ->
  (truthy (field flight "source") && truthy (field flight "destination") = false ->
   get_flight_route flight_id db
   = JsonError 404 "Flight route information not available")
  /\ (truthy (field flight "source") && truthy (field flight "destination") = true ->
      exists waypoints,
        get_flight_route flight_id db
        = Json {| route_flight_id := flight_id;
                  route_from := airport_info_of (field flight "source");
                  route_to := airport_info_of (field flight "destination");
                  route_waypoints := waypoints;
                  route_current_progress :=
                    default (VNum 0) (flight !! "route_progress");
                  route_current_position :=
                    (default (VNum 0) (flight !! "latitude"),
                     default (VNum 0) (flight !! "longitude")) |}
        /\ (forall a b,
              airport_of (field flight "source") = Some a ->
              airport_of (field flight "destination") = Some b ->
              waypoints = interpolate a b <$> twentieths
              /\ length waypoints = 21%nat
              /\ airport_info_of (field flight "source")
                 = {| info_code := field flight "source";
                      info_name := VStr (name a);
                      info_coordinates := (lat a, lon a) |}
              /\ airport_info_of (field flight "destination")
                 = {| info_code := field flight "destination";
                      info_name := VStr (name b);
                      info_coordinates := (lat b, lon b) |})
        /\ (airport_of (field flight "source") = None
            \/ airport_of (field flight "destination") = None ->
            waypoints = [])
        /\ (forall code, code = field flight "source"
                         \/ code = field flight "destination" ->
                         airport_of code = None ->
                         airport_info_of code
                         = {| info_code := code;
                              info_name := code;
                              info_coordinates := (0, 0)%float |})).
Proof.
  unfold flight_state, get_flight_route. intros ->. split.
  - intros Hroute. apply andb_false_iff in Hroute as [-> | ->]; cbn [negb orb]; [done|].
    by rewrite orb_true_r.
  - intros [-> ->]%andb_true_iff. cbn [negb orb].
    rewrite get_route_waypoints_defined. eexists. split; [reflexivity|].
    split; [|split].
    + intros a b Ha Hb. rewrite Ha, Hb. unfold airport_info_of. rewrite Ha, Hb. done.
    + intros [-> | ->]; [done|]. by destruct (airport_of _).
    + intros code _ Hcode. unfold airport_info_of. by rewrite Hcode.
Qed.

Lemma route_of_an_active_flight_witness :
  (truthy (field (routed_state "TST9" "JFK" "XXX") "source")
   && truthy (field (routed_state "TST9" "JFK" "XXX") "destination") = false ->
   get_flight_route "TST9"
     {| flights := [routed_state "TST9" "JFK" "XXX"]; tracking := []; logs := [] |}
   = JsonError 404 "Flight route information not available")
  /\ (truthy (field (routed_state "TST9" "JFK" "XXX") "source")
      && truthy (field (routed_state "TST9" "JFK" "XXX") "destination") = true ->
      exists waypoints,
        get_flight_route "TST9"
          {| flights := [routed_state "TST9" "JFK" "XXX"]; tracking := []; logs := [] |}
        = Json {| route_flight_id := "TST9";
                  route_from :=
                    airport_info_of (field (routed_state "TST9" "JFK" "XXX") "source");
                  route_to :=
                    airport_info_of
                      (field (routed_state "TST9" "JFK" "XXX") "destination");
                  route_waypoints := waypoints;
                  route_current_progress :=
                    default (VNum 0)
                      (routed_state "TST9" "JFK" "XXX" !! "route_progress");
                  route_current_position :=
                    (default (VNum 0) (routed_state "TST9" "JFK" "XXX" !! "latitude"),
                     default (VNum 0)
                       (routed_state "TST9" "JFK" "XXX" !! "longitude")) |}
        /\ (forall a b,
              airport_of (field (routed_state "TST9" "JFK" "XXX") "source") = Some a ->
              airport_of (field (routed_state "TST9" "JFK" "XXX") "destination")
              = Some b ->
              waypoints = interpolate a b <$> twentieths
              /\ length waypoints = 21%nat
              /\ airport_info_of (field (routed_state "TST9" "JFK" "XXX") "source")
                 = {| info_code := field (routed_state "TST9" "JFK" "XXX") "source";
                      info_name := VStr (name a);
                      info_coordinates := (lat a, lon a) |}
              /\ airport_info_of
                   (field (routed_state "TST9" "JFK" "XXX") "destination")
                 = {| info_code :=
                        field (routed_state "TST9" "JFK" "XXX") "destination";
                      info_name := VStr (name b);
                      info_coordinates := (lat b, lon b) |})
        /\ (airport_of (field (routed_state "TST9" "JFK" "XXX") "source") = None
            \/ airport_of (field (routed_state "TST9" "JFK" "XXX") "destination")
               = None ->
            waypoints = [])
        /\ (forall code,
              code = field (routed_state "TST9" "JFK" "XXX") "source"
              \/ code = field (routed_state "TST9" "JFK" "XXX") "destination" ->
              airport_of code = None ->
              airport_info_of code
              = {| info_code := code;
                   info_name := code;
                   info_coordinates := (0, 0)%float |})).
Proof.
  apply (route_of_an_active_flight "TST9"
           {| flights := [routed_state "TST9" "JFK" "XXX"]; tracking := []; logs := [] |}
           (routed_state "TST9" "JFK" "XXX")).
  vm_compute. reflexivity.
Defined.

(** X16. For an active flight of a store that the service can reach,
    [get_flight_path_with_destination] never raises and shows the same
    points as [get_flight_history], in the same order, beside the source
    and the destination of the state and the waypoints of that route (none
    unless both codes are in the airport table). *)
Theorem path_shows_the_history `{Runtime} (flight_id : string) (db : store)
    (flight : doc) :
  reachable db ->
  flight_state (VStr flight_id) db = Some flight ->
  exists history : list (gmap string json),
    get_flight_history flight_id db = Json history
    /\ history ≠ []
    /\ get_flight_path_with_destination flight_id db
       = Json {| path_flight_id := flight_id;
                 path_source := field flight "source";
                 path_destination := field flight "destination";
                 path_tracking_points := history;
                 path_route_waypoints :=
                   match airport_of (field flight "source"),
                         airport_of (field flight "destination") with
                   | Some a, Some b => interpolate a b <$> twentieths
                   | _, _ => []
                   end;
                 path_current_progress :=
                   default (VNum 0) (flight !! "route_progress") |}.
Proof.
  intros Hreach Hstate.
  pose proof (reachable_readable _ Hreach) as ((_ & _ & Hpts) & _ & _ & Htracked & _).
  assert (Hne : track_points (VStr flight_id) db ≠ []).
  { apply find_one_Some_elem in Hstate as [Hf Hm].
    rewrite (track_points_of_state _ flight); [|by apply matches_true in Hm].
    apply has_points_true. by apply Htracked. }
  unfold get_flight_history, get_flight_path_with_destination, flight_state,
    track_points in *.
  rewrite Hstate.
  rewrite bool_decide_eq_false_2 by (by rewrite sort_by_timestamp_nil).
  destruct (shown_points (sort_by_timestamp (find (by_flight_id (VStr flight_id))
                                               (tracking db))))
    as (body & Hbody & Hshown).
  { by apply sort_by_timestamp_Forall, find_Forall. }
  rewrite Hbody. exists body. split; [done|]. split.
  { intros ->. apply Forall2_nil_inv_r in Hshown.
    by apply (proj1 (sort_by_timestamp_nil _)) in Hshown. }
  assert (Hway : (if truthy (field flight "source") && truthy (field flight "destination")
                  then get_route_waypoints (field flight "source")
                         (field flight "destination") 20
                  else Some [])
                 = Some (match airport_of (field flight "source"),
                               airport_of (field flight "destination") with
                         | Some a, Some b => interpolate a b <$> twentieths
                         | _, _ => []
                         end)).
  { destruct (truthy (field flight "source") && truthy (field flight "destination"))
      eqn:Etruthy; [apply get_route_waypoints_defined|].
    destruct (airport_of (field flight "source")) as [a|] eqn:Ea; [|done].
    destruct (airport_of (field flight "destination")) as [b|] eqn:Eb; [|done].
    apply airport_of_known in Ea as [Ha _]. apply airport_of_known in Eb as [Hb _].
    by rewrite Ha, Hb in Etruthy. }
  rewrite Hway. done.
Qed.

Lemma path_shows_the_history_witness :
  exists history : list (gmap string json),
    get_flight_history "TST1" tracked_twice = Json history
    /\ history ≠ []
    /\ get_flight_path_with_destination "TST1" tracked_twice
       = Json {| path_flight_id := "TST1";
                 path_source := field first_state "source";
                 path_destination := field first_state "destination";
                 path_tracking_points := history;
                 path_route_waypoints :=
                   match airport_of (field first_state "source"),
                         airport_of (field first_state "destination") with
                   | Some a, Some b => interpolate a b <$> twentieths
                   | _, _ => []
                   end;
                 path_current_progress :=
                   default (VNum 0) (first_state !! "route_progress") |}.
Proof.
  destruct (path_shows_the_history (H := Reference.runtime) "TST1" tracked_twice
              (default ∅ (flight_state (VStr "TST1") tracked_twice)))
    as (history & Hhistory & Hne & Hpath).
  - apply run_reachable.
  - vm_compute. reflexivity.
  - exists history. split; [exact Hhistory|]. split; [exact Hne|].
    rewrite Hpath. vm_compute. reflexivity.
Defined.

(** ** Distances *)

Section Distances.
Context `{Runtime}.
Local Open Scope float_scope.

(** A finite float minus itself is the positive zero. *)
Lemma finite_minus_itself (x : float) : is_finite x = true -> x - x = 0.
Proof.
  unfold is_finite. intros [Hnan Hinf]%negb_true_iff%orb_false_iff.
  assert (Hsf : SF64sub (Prim2SF x) (Prim2SF x) = S754_zero false).
  { unfold Prim2SF. rewrite Hnan, Hinf.
    destruct (is_zero x); [by destruct (get_sign x)|].
    destruct (Z.frexp x) as [r ex].
    destruct (shr_fexp _ _ _ _ _) as [shr e'].
    destruct (shr_m shr) as [|m|m]; try done.
    unfold SF64sub, SFsub. cbv zeta. by rewrite Z.sub_diag. }
  by rewrite <- (SF2Prim_Prim2SF (x - x)), sub_spec, Hsf.
Qed.

(** A track that stays where it is adds nothing to the total. *)
Lemma sum_legs_still (la lo : float) (prev_point : doc) (rest : list doc) :
  calculate_distance la lo la lo = Some 0 ->
  prev_point !! "latitude" = Some (VNum la) ->
  prev_point !! "longitude" = Some (VNum lo) ->
  Forall (fun p => p !! "latitude" = Some (VNum la)
                   /\ p !! "longitude" = Some (VNum lo)) rest ->
  sum_legs prev_point rest 0 = Some 0.
Proof.
  intros Hzero Hla Hlo Hrest. revert prev_point Hla Hlo.
  induction Hrest as [|p rest [Hpla Hplo] _ IH]; intros prev_point Hla Hlo; [done|].
  cbn [sum_legs]. rewrite Hla, Hlo, Hpla, Hplo. cbn [mbind option_bind as_number].
  rewrite Hzero. cbn [mbind option_bind]. change (0 + 0) with 0. by apply IH.
Qed.

End Distances.

(** X17. The distance from a point with finite coordinates to itself is
    zero, on a C library that maps zero to zero in [sin] and in
    [atan2(., 1)] and whose cosine at the latitude is finite, with a
    finite square. *)
Theorem distance_to_itself_is_zero `{Runtime} (la lo : float) :
  is_finite la = true -> is_finite lo = true ->
  c_sin 0 = 0%float -> c_atan2 0 1 = 0%float ->
  is_finite (c_cos (math_radians la)) = true ->
  is_finite (c_cos (math_radians la) * c_cos (math_radians la))%float = true ->
  calculate_distance la lo la lo = Some 0%float.
Proof.
  intros Hla Hlo. apply same_point_distance; by apply finite_minus_itself.
Qed.

Lemma distance_to_itself_is_zero_witness :
  calculate_distance (H := Reference.runtime) 40.6413 (-73.7781) 40.6413 (-73.7781)
  = Some 0%float.
Proof.
  apply (distance_to_itself_is_zero (H := Reference.runtime) 40.6413 (-73.7781));
    vm_compute; reflexivity.
Defined.

(** X18. [calculate_flight_distance] is zero for a track of fewer than
    two points, whatever the points hold, and for a track of any length
    all of whose points are at one position that is at distance zero from
    itself. *)
Theorem still_track_has_no_length `{Runtime} (la lo : float) (path_data : list doc) :
  ((length path_data < 2)%nat -> calculate_flight_distance path_data = Some 0%float)
  /\ (calculate_distance la lo la lo = Some 0%float ->
      Forall (fun p => p !! "latitude" = Some (VNum la)
                       /\ p !! "longitude" = Some (VNum lo)) path_data ->
      calculate_flight_distance path_data = Some 0%float).
Proof.
  split.
  - intros Hshort. destruct path_data as [|? [|? ?]]; [done..|cbn in Hshort; lia].
  - intros Hzero Hstill.
    destruct Hstill as [|first ? [Hla Hlo] [|second rest Hsecond Hrest]]; [done..|].
    unfold calculate_flight_distance.
    rewrite (sum_legs_still la lo first (second :: rest)); [done..|].
    by constructor.
Qed.

Lemma still_track_has_no_length_witness :
  calculate_flight_distance (H := Reference.runtime)
    [ point "TST1" 40.6413 (-73.7781) 1; point "TST1" 40.6413 (-73.7781) 2;
      point "TST1" 40.6413 (-73.7781) 3 ]
  = Some 0%float.
Proof.
  apply (still_track_has_no_length (H := Reference.runtime) 40.6413 (-73.7781)).
  - vm_compute. reflexivity.
  - repeat constructor.
Defined.

(** ** When a report is accepted *)

Section Acceptance.
Context `{Runtime}.
Local Open Scope float_scope.

Lemma check_numeric_fields_accepts (data : doc)
    (latitude longitude altitude speed heading : float) :
  field_float data "latitude" = Some latitude ->
  field_float data "longitude" = Some longitude ->
  field_float data "altitude" = Some altitude ->
  field_float data "speed" = Some speed ->
  field_float data "heading" = Some heading ->
  (-90 <=? latitude) && (latitude <=? 90) = true ->
  (-180 <=? longitude) && (longitude <=? 180) = true ->
  (altitude <? 0) = false ->
  (speed <? 0) = false ->
  (0 <=? heading) && (heading <=? 360) = true ->
  check_numeric_fields data
  = inr (<["heading" := VNum heading]>
         (<["speed" := VNum speed]>
          (<["altitude" := VNum altitude]>
           (<["longitude" := VNum longitude]>
            (<["latitude" := VNum latitude]> data))))).
Proof.
  intros Hla Hlo Hal Hsp Hhe Rla Rlo Ral Rsp Rhe. unfold check_numeric_fields.
  rewrite Hla, Hlo, Hal, Hsp, Hhe. cbn [mbind option_bind].
  by rewrite Rla, Rlo, Ral, Rsp, Rhe.
Qed.

End Acceptance.

(** X19. A report is accepted whenever it has the eight required
    fields, its five numbers convert to floats that pass the range checks
    of the handler (a latitude in [-90, 90], a longitude in [-180, 180],
    a heading in [0, 360], the bounds included, and an altitude and a
    speed that are not below zero), its timestamp is a string that parses,
    and the route progress, when the report has both a source and a
    destination, does not raise. The answer then names the flight and the
    parsed time, one point is added to the history and the flight is
    active. *)
Theorem well_formed_report_is_accepted `{Runtime} (now : Z) (data : doc) (db : store)
    (latitude longitude altitude speed heading : float) (s : string) (ts : Z) :
  forallb (has_field data) required_fields = true ->
  field_float data "latitude" = Some latitude ->
  field_float data "longitude" = Some longitude ->
  field_float data "altitude" = Some altitude ->
  field_float data "speed" = Some speed ->
  field_float data "heading" = Some heading ->
  ((-90 <=? latitude) && (latitude <=? 90))%float = true ->
  ((-180 <=? longitude) && (longitude <=? 180))%float = true ->
  (altitude <? 0)%float = false ->
  (speed <? 0)%float = false ->
  ((0 <=? heading) && (heading <=? 360))%float = true ->
  data !! "timestamp" = Some (VStr s) ->
  fromisoformat (replace_Z s) = Some ts ->
  (has_field data "source" && has_field data "destination" = true ->
   is_Some (calculate_route_progress latitude longitude
              (field data "source") (field data "destination"))) ->
  exists db',
    update_flight now data db = (Updated (field data "flight_id") ts, db')
    /\ length (tracking db') = S (length (tracking db))
    /\ logs db' = logs db
    /\ active (field data "flight_id") db'.
Proof.
  intros Hreq Hla Hlo Hal Hsp Hhe Rla Rlo Ral Rsp Rhe Hts Hparse Hroute.
  pose proof (check_numeric_fields_accepts data _ _ _ _ _ Hla Hlo Hal Hsp Hhe
                Rla Rlo Ral Rsp Rhe) as Hcheck.
  set (data1 := <["heading" := VNum heading]> _) in Hcheck.
  assert (Hadd : is_Some (add_route_progress (stored_point now ts data1)
                            (base_flight_update (stored_point now ts data1)))).
  { unfold add_route_progress.
    rewrite !(stored_point_route _ _ _ _ Hcheck) by tauto.
    destruct (has_field data "source" && has_field data "destination") eqn:Er;
      [|by eauto].
    destruct (Hroute eq_refl) as [p Hp].
    assert (Hsame : calculate_route_progress
                      (field_number (stored_point now ts data1) "latitude")
                      (field_number (stored_point now ts data1) "longitude")
                      (field (stored_point now ts data1) "source")
                      (field (stored_point now ts data1) "destination") = Some p).
    { destruct (stored_point_number now ts _ _ Hcheck "latitude") as (x & Hx & Hpx);
        [unfold numeric_fields; rewrite !elem_of_cons; tauto|].
      destruct (stored_point_number now ts _ _ Hcheck "longitude") as (y & Hy & Hpy);
        [unfold numeric_fields; rewrite !elem_of_cons; tauto|].
      unfold field_number, field in *. rewrite Hpx, Hpy.
      rewrite !(stored_point_keeps _ _ _ _ Hcheck)
        by (try done; unfold numeric_fields; rewrite !not_elem_of_cons, elem_of_nil;
            repeat split; (discriminate || tauto)).
      congruence. }
    rewrite Hsame. cbn [mbind option_bind]. destruct (95 <=? p)%float; eauto. }
  destruct Hadd as [upd Hadd].
  assert (Hup : update_flight now data db
                = (Updated (field data "flight_id") ts,
                   {| flights := update_one_set "flight_id" (field data "flight_id")
                                   upd (flights db);
                      tracking := tracking db ++ [stored_point now ts data1];
                      logs := logs db |})).
  { destruct (update_flight_writes now data db)
      as [Hsame|(data1' & s' & ts' & _ & Hcheck' & Hts' & Hparse' & Hcases)].
    - exfalso. unfold update_flight in Hsame. rewrite Hreq, Hcheck in Hsame.
      cbn [negb] in Hsame.
      assert (Ets : data1 !! "timestamp" = Some (VStr s)).
      { rewrite (check_numeric_fields_keeps _ _ _ Hcheck); [done|].
        unfold numeric_fields. rewrite !not_elem_of_cons, elem_of_nil.
        repeat split; (discriminate || tauto). }
      rewrite Ets, Hparse in Hsame.
      fold (stored_point now ts data1) in Hsame.
      destruct (add_route_progress _ _); cbn in Hsame;
        apply (f_equal tracking), (f_equal length) in Hsame;
        cbn in Hsame; rewrite length_app in Hsame; cbn in Hsame; lia.
    - rewrite Hcheck in Hcheck'. injection Hcheck' as <-.
      rewrite Hts in Hts'. injection Hts' as <-.
      rewrite Hparse in Hparse'. injection Hparse' as <-.
      destruct Hcases as [[_ Hnone]|(upd' & Hadd' & Hres)]; [congruence|].
      rewrite Hadd in Hadd'. by injection Hadd' as <-. }
  eexists. split; [exact Hup|]. cbn [tracking logs].
  split; [rewrite length_app; cbn; lia|]. split; [done|].
  pose proof (update_flight_activates now data db (field data "flight_id") ts) as Hact.
  rewrite Hup in Hact. by apply Hact.
Qed.

Lemma well_formed_report_is_accepted_witness :
  exists db',
    update_flight (H := Reference.runtime) 0 report_at_jfk empty_store
    = (Updated (field report_at_jfk "flight_id") 1705305600000, db')
    /\ length (tracking db') = S (length (tracking empty_store))
    /\ logs db' = logs empty_store
    /\ active (field report_at_jfk "flight_id") db'.
Proof.
  apply (well_formed_report_is_accepted (H := Reference.runtime) 0 report_at_jfk
           empty_store 40.6413 (-73.7781) 35000 450 270 "2024-01-15T08:00:00Z"
           1705305600000);
    try (vm_compute; reflexivity).
  intros _. vm_compute. eauto.
Defined.



(** X21. After a sweep that has returned on a store that the service
    can reach, no flight that passes the filter of the sweep is left
    among the active flights: none has the status landed, none carries
    the completion mark, none has a route progress of 95 or more. *)
Theorem no_landed_flight_survives_the_sweep `{Runtime} (now : Z) (db db' : store)
    (n : nat) :
  reachable db ->
  auto_complete_landed_flights now db = (AutoCompleted n, db') ->
  Forall (fun f =>
            landed_filter f = false
            /\ f !! "status" ≠ Some (VStr "landed")
            /\ f !! "ready_for_completion" ≠ Some (VBool true)
            /\ forall p, f !! "route_progress" = Some (VNum p) ->
                         (95 <=? p)%float = false)
    (flights db').
Proof.
  intros Hreach Hsweep. apply Forall_forall. intros f Hf.
  assert (Hreach' : reachable db').
  { change db' with (AutoCompleted n, db').2. rewrite <- Hsweep.
    apply (reachable_step (PostAutoComplete now)), Hreach. }
  apply reachable_readable in Hreach' as (_ & _ & _ & Htracked & _).
  unfold auto_complete_landed_flights in Hsweep.
  apply auto_complete_loop_settles in Hsweep as (Hdone & Hfl & _).
  assert (Hnot : landed_filter f = false).
  { apply not_true_iff_false. intros Hlanded.
    destruct (Hdone f) as (id & Hid & Hnone);
      [apply elem_of_find; split; [by apply Hfl|done]|].
    pose proof (Htracked f Hf) as Hp. apply has_points_true in Hp.
    apply Hp. unfold field. by rewrite Hid. }
  split; [done|].
  split; [|split].
  - intros Hs. apply not_true_iff_false in Hnot. apply Hnot, landed_filter_true. tauto.
  - intros Hr. apply not_true_iff_false in Hnot. apply Hnot, landed_filter_true. tauto.
  - intros p Hp. apply not_true_iff_false. intros Hge.
    apply not_true_iff_false in Hnot. apply Hnot, landed_filter_true. eauto.
Qed.

Lemma no_landed_flight_survives_the_sweep_witness :
  Forall (fun f =>
            landed_filter f = false
            /\ f !! "status" ≠ Some (VStr "landed")
            /\ f !! "ready_for_completion" ≠ Some (VBool true)
            /\ forall p, f !! "route_progress" = Some (VNum p) ->
                         (95 <=? p)%float = false)
    (flights (auto_complete_landed_flights (H := Reference.runtime) 9
                tracked_twice).2).
Proof.
  apply (no_landed_flight_survives_the_sweep (H := Reference.runtime) 9 tracked_twice
           (auto_complete_landed_flights (H := Reference.runtime) 9 tracked_twice).2 0).
  - apply run_reachable.
  - vm_compute. reflexivity.
Defined.

(** ** The archive only grows *)

Section AppendOnly.
Context `{Runtime}.

Lemma auto_complete_loop_appends (now : Z) (landed_flights : list doc) (db : store)
    (completed_count : nat) :
  exists entries,
    logs (auto_complete_loop now landed_flights db completed_count).2
    = logs db ++ entries.
Proof.
  revert db completed_count.
  induction landed_flights as [|flight rest IH]; intros db c; cbn [auto_complete_loop].
  - exists []. by rewrite app_nil_r.
  - destruct (auto_complete_flight now flight db) as [[a db1]|] eqn:E;
      [|exists []; by rewrite app_nil_r].
    destruct (IH db1 (if a then S c else c)) as [entries ->].
    apply auto_complete_flight_outcome in E
      as (id & _ & [[_ [= _ ->]]|(_ & e & [= _ ->] & _)]); [by exists entries|].
    exists (e :: entries). cbn [logs]. by rewrite <- app_assoc.
Qed.

Lemma handle_appends (r : request) (db : store) :
  exists entries, logs (handle r db).2 = logs db ++ entries.
Proof.
  destruct r as [now data|now flight_id|now]; cbn [handle].
  - exists []. rewrite app_nil_r.
    destruct (update_flight_writes now data db)
      as [->|(data1 & s & ts & _ & _ & _ & _ & [[-> _]|(upd & _ & ->)])]; done.
  - destruct (complete_flight_outcome now flight_id db) as [->|(e & -> & _)].
    + exists []. by rewrite app_nil_r.
    + by exists [e].
  - apply auto_complete_loop_appends.
Qed.

End AppendOnly.

(** X22. No request takes an entry out of the archive or changes one:
    the archive after a request is the archive before it with the new
    entries at its end, and so the archive after a sequence of requests
    begins with the archive after any of its beginnings. *)
Theorem archive_is_append_only `{Runtime} (before after : list request) :
  (forall r db, logs db `prefix_of` logs (handle r db).2)
  /\ logs (run before) `prefix_of` logs (run (before ++ after)).
Proof.
  split; [intros r db; destruct (handle_appends r db) as [entries ->];
          by apply prefix_app_r|].
  unfold run. rewrite foldl_app.
  generalize (foldl (fun db r => (handle r db).2) empty_store before).
  induction after as [|r after IH]; intros db; cbn [foldl]; [done|].
  etrans; [|apply IH]. destruct (handle_appends r db) as [entries ->].
  by apply prefix_app_r.
Qed.
